(** * AI-Tutor: lesson pipeline, shallow embedding and verification

    The Python sources embedded here:
    - [services/lesson_structure_service.py]  (module [LessonStructure])
    - [services/template_service.py]          (module [TemplateService])
    - [services/tts_service.py]               (module [TTS])
    - [utils/audio_merger.py]                 (module [AudioMerger])
    - [routers/lesson.py]                     (module [LessonRouter])
    - [services/template_filling_service.py]  (modules [TemplateFilling],
                                               [StructuredFill], [TemplateStore])
    - [services/ai_tutor_service.py]          (modules [Sanitizer], [AITutor])
    and, further down, the rendering and the catalog of the template
    service ([TemplateRender], [TemplateCatalog]), the JSON extraction of
    the lesson structure service ([LessonAnalysis]), the chunks of the TTS
    service ([TTSChunks]), the crossfade branch of the merger
    ([Crossfade]) and the serving of the merged audio ([MergedAudio]).

    Conventions.  A Python [str] is a list of Unicode code points
    ([Py.str]); [py "..."] writes an ASCII literal.  Durations and
    timestamps are exact rationals ([Q]), those of the audio merger the
    quotients of whole milliseconds that the code's floats round
    ([AudioMerger.as_float]); the geometry of the template
    engine, whose results are truncated with [int(...)], is computed on
    IEEE binary64 ([PrimFloat]) exactly as CPython does.  A Python
    exception is a [None] / an error constructor of the result. *)

From Stdlib Require Import ZArith NArith QArith Qminmax List String Ascii Bool Lia.
From Stdlib Require Import DecimalString.
From Stdlib Require Import Floats.
Import ListNotations.

Set Warnings "-inexact-float".

Local Open Scope Z_scope.

(* ===================================================================== *)
(** ** Python strings and the few built-ins the services use             *)
(* ===================================================================== *)

Module Py.

Definition char := N.
Definition str := list N.

(** An ASCII literal as a Python string. *)
Definition py (x : string) : str := map N_of_ascii (list_ascii_of_string x).

Definition eqb (a b : str) : bool :=
  if list_eq_dec N.eq_dec a b then true else false.

(** [len(s)] *)
Definition len (x : str) : Z := Z.of_nat (List.length x).

(** [len(xs)] on a list *)
Definition len_list {A : Type} (xs : list A) : Z := Z.of_nat (List.length xs).

(** [str.isspace] on one code point ([_PyUnicode_IsWhitespace]); the same
    set is what [str.strip()], [str.split()] and the regex class [\s] use. *)
Definition isspace (c : char) : bool :=
  ((9 <=? c) && (c <=? 13) || (28 <=? c) && (c <=? 32)
   || (c =? 133) || (c =? 160) || (c =? 5760)
   || (8192 <=? c) && (c <=? 8202) || (c =? 8232) || (c =? 8233)
   || (c =? 8239) || (c =? 8287) || (c =? 12288))%N.

(** [s.lstrip()], [s.rstrip()], [s.strip()] *)
Fixpoint lstrip (x : str) : str :=
  match x with
  | c :: r => if isspace c then lstrip r else x
  | [] => []
  end.

Definition rstrip (x : str) : str := rev (lstrip (rev x)).
Definition strip (x : str) : str := rstrip (lstrip x).

(** [s.split()]: maximal runs of non-whitespace. *)
Fixpoint split_ws_aux (cur : str) (x : str) : list str :=
  match x with
  | [] => match cur with [] => [] | _ => [rev cur] end
  | c :: r =>
      if isspace c
      then match cur with [] => split_ws_aux [] r | _ => rev cur :: split_ws_aux [] r end
      else split_ws_aux (c :: cur) r
  end.

Definition split_ws (x : str) : list str := split_ws_aux [] x.

(** The lower case of an ASCII letter. *)
Definition lower_char (c : char) : char :=
  if ((65 <=? c) && (c <=? 90))%N then (c + 32)%N else c.

(** [s.lower()], as far as ASCII can tell: the ASCII letters, and the two
    other code points whose lower case contains an ASCII letter (U+0130
    gives i and U+0307, U+212A gives k).  The services only search the
    result for ASCII words or compare it with one. *)
Definition lower (x : str) : str :=
  flat_map (fun c => if (c =? 304)%N then [105; 775]%N
                     else if (c =? 8490)%N then [107]%N
                     else [lower_char c]) x.

(** [s.startswith(p)] *)
Fixpoint startswith (p x : str) : bool :=
  match p, x with
  | [], _ => true
  | a :: p', b :: x' => (a =? b)%N && startswith p' x'
  | _ :: _, [] => false
  end.

(** [p in s] *)
Fixpoint contains (p x : str) : bool :=
  startswith p x || match x with [] => false | _ :: r => contains p r end.

(** [s[:n]] and [s[n:]]; a negative bound counts from the end. *)
Definition slice_bound (n : Z) (x : str) : nat :=
  if n <? 0 then Z.to_nat (Z.max 0 (len x + n)) else Z.to_nat n.
Definition take (n : Z) (x : str) : str := firstn (slice_bound n x) x.
Definition drop (n : Z) (x : str) : str := skipn (slice_bound n x) x.

(** [s.rfind(c)] for a one-character needle: the last index, or -1. *)
Fixpoint rfind_from (i : Z) (c : char) (x : str) (last : Z) : Z :=
  match x with
  | [] => last
  | d :: r => rfind_from (i + 1) c r (if (d =? c)%N then i else last)
  end.
Definition rfind (c : char) (x : str) : Z := rfind_from 0 c x (-1).

(** [s.replace(old, new)] for a non-empty [old]: the occurrences are
    replaced left to right, without overlap.  [skip] counts the characters
    of a replaced occurrence still to pass over. *)
Fixpoint replace_go (old new : str) (x : str) (skip : nat) : str :=
  match skip with
  | S n => match x with [] => [] | _ :: r => replace_go old new r n end
  | O =>
      match x with
      | [] => []
      | c :: r =>
          if startswith old x
          then new ++ replace_go old new r (Nat.pred (List.length old))
          else c :: replace_go old new r 0
      end
  end.

Definition replace (old new x : str) : str :=
  match old with
  | [] => x
  | _ :: _ => replace_go old new x 0
  end.

(** [s.split(sep)] for a one-character separator. *)
Fixpoint split_on_aux (sep : char) (cur : str) (x : str) : list str :=
  match x with
  | [] => [rev cur]
  | c :: r => if (c =? sep)%N then rev cur :: split_on_aux sep [] r
              else split_on_aux sep (c :: cur) r
  end.
Definition split_on (sep : char) (x : str) : list str := split_on_aux sep [] x.

(** [xs[:n]] on a list; a negative bound counts from the end. *)
Definition take_list {A : Type} (n : Z) (xs : list A) : list A :=
  firstn (if n <? 0 then Z.to_nat (Z.max 0 (len_list xs + n)) else Z.to_nat n) xs.

(** [str(z)] for an int. *)
Definition str_of_Z (z : Z) : str :=
  map N_of_ascii (list_ascii_of_string (DecimalString.NilZero.string_of_int (Z.to_int z))).

(** [sep.join(parts)] *)
Fixpoint join (sep : str) (parts : list str) : str :=
  match parts with
  | [] => []
  | [p] => p
  | p :: rest => p ++ sep ++ join sep rest
  end.

(** [d.get(k, default)] on a dict kept as an association list in
    insertion order. *)
Fixpoint get {V : Type} (d : list (str * V)) (k : str) : option V :=
  match d with
  | [] => None
  | (k', v) :: r => if eqb k' k then Some v else get r k
  end.

Definition get_or {V : Type} (d : list (str * V)) (k : str) (dflt : V) : V :=
  match get d k with Some v => v | None => dflt end.

(** [max(a, b)] on numbers: the first argument unless the second is
    strictly greater. *)
Definition max2 (a b : Q) : Q := if Qle_bool b a then a else b.

(** [sum(xs)] *)
Definition sum (xs : list Q) : Q := fold_left Qplus xs 0%Q.

End Py.

Import Py.

(* ===================================================================== *)
(** ** Python floats (IEEE binary64) next to Python ints                 *)
(* ===================================================================== *)

Module PyFloat.

(** [float(z)]: the nearest binary64, ties to even. *)
Definition of_Z (z : Z) : float :=
  SF2Prim (binary_normalize prec emax z 0 false).

(** [int(f)]: truncation toward zero; [None] for an infinity or a NaN
    ([OverflowError] / [ValueError]). *)
Definition to_int (f : float) : option Z :=
  match Prim2SF f with
  | S754_zero _ => Some 0
  | S754_finite sg m e =>
      let mag := if 0 <=? e then Z.pos m * 2 ^ e else Z.pos m / 2 ^ (- e) in
      Some (if sg then - mag else mag)
  | _ => None
  end.

(** [z > f] for an int [z] and a float [f]: Python compares the exact
    values. *)
Definition int_gt (z : Z) (f : float) : bool :=
  match Prim2SF f with
  | S754_zero _ => 0 <? z
  | S754_finite sg m e =>
      let sm := if sg then Z.neg m else Z.pos m in
      if 0 <=? e then sm * 2 ^ e <? z else sm <? z * 2 ^ (- e)
  | S754_infinity sg => sg
  | S754_nan => false
  end.

(** [max(a, b)] and [min(a, b)]: the first argument unless the second is
    strictly greater (smaller). *)
Definition max2 (a b : float) : float := if PrimFloat.ltb a b then b else a.
Definition min2 (a b : float) : float := if PrimFloat.ltb b a then b else a.

End PyFloat.

(* ===================================================================== *)
(** ** The part of Python's [re] the sanitizers use                      *)
(* ===================================================================== *)

Module Regex.

(** What a character class is made of. *)
Inductive atom :=
| Lit (c : char)                 (* the code point itself *)
| ILit (c : char)                (* an ASCII letter under IGNORECASE *)
| Range (lo hi : char)           (* lo-hi *)
| Space                          (* \s *)
| Dot                            (* . without DOTALL *)
| Table (p : char -> bool).      (* a table of the interpreter, as \d *)

Definition atom_match (a : atom) (x : char) : bool :=
  match a with
  | Lit c => (x =? c)%N
  | ILit c =>
      (* both cases, and the code points whose simple lower case is the
         letter or its listed equivalent: U+0130 and U+0131 for i, U+017F
         for s, U+212A for k *)
      ((Py.lower_char x =? Py.lower_char c)
       || ((Py.lower_char c =? 105) && ((x =? 304) || (x =? 305)))
       || ((Py.lower_char c =? 115) && (x =? 383))
       || ((Py.lower_char c =? 107) && (x =? 8490)))%N
  | Range lo hi => ((lo <=? x) && (x <=? hi))%N
  | Space => Py.isspace x
  | Dot => negb (x =? 10)%N
  | Table p => p x
  end.

(** A character class: a set of atoms, possibly negated ([[^...]]). *)
Record cls := Cls { negated : bool; atoms : list atom }.

Definition cls_match (cl : cls) (x : char) : bool :=
  xorb (negated cl) (existsb (fun a => atom_match a x) (atoms cl)).

Definition lit (c : char) : cls := Cls false [Lit c].
Definition ilit (c : char) : cls := Cls false [ILit c].
Definition range (lo hi : char) : cls := Cls false [Range lo hi].
Definition any_of (l : list atom) : cls := Cls false l.
Definition none_of (l : list atom) : cls := Cls true l.
Definition dot : cls := Cls false [Dot].
Definition space : cls := Cls false [Space].
Definition table (p : char -> bool) : cls := Cls false [Table p].

Inductive re :=
| Eps
| Chr (p : cls)                               (* one code point of the class *)
| Rep (greedy : bool) (lo : nat) (p : cls)    (* p{lo,}, greedy or lazy *)
| Seq (a b : re)
| Alt (a b : re)                              (* a|b, a tried first *)
| Grp (n : nat) (a : re)                      (* capture group n *)
| Bol (multiline : bool)                      (* ^ *)
| Eol (multiline : bool).                     (* $ *)

(** The text of the groups matched so far. *)
Definition caps := list (nat * str).

Fixpoint get_cap (n : nat) (cs : caps) : str :=
  match cs with
  | [] => []
  | (k, v) :: r => if Nat.eqb k n then v else get_cap n r
  end.

Definition res := (str * caps)%type.

Section Matcher.

(** [prev] is the character before the current position ([None] at the
    start of the string), [s] the rest of the string. *)
Definition at_bol (multiline : bool) (prev : option char) : bool :=
  match prev with
  | None => true
  | Some c => multiline && (c =? 10)%N
  end.

Definition at_eol (multiline : bool) (s : str) : bool :=
  match s with
  | [] => true
  | c :: r => (c =? 10)%N && (multiline || match r with [] => true | _ => false end)
  end.

Fixpoint rep_greedy (p : cls) (lo : nat) (prev : option char) (s : str)
         (k : option char -> str -> option res) {struct s} : option res :=
  let stop := match lo with O => k prev s | S _ => None end in
  match s with
  | c :: t =>
      if cls_match p c
      then match rep_greedy p (Nat.pred lo) (Some c) t k with
           | Some r => Some r
           | None => stop
           end
      else stop
  | [] => stop
  end.

Fixpoint rep_lazy (p : cls) (lo : nat) (prev : option char) (s : str)
         (k : option char -> str -> option res) {struct s} : option res :=
  let more :=
    match s with
    | c :: t => if cls_match p c then rep_lazy p (Nat.pred lo) (Some c) t k else None
    | [] => None
    end in
  match lo with
  | O => match k prev s with Some r => Some r | None => more end
  | S _ => more
  end.

(** Backtracking match of [r] at the current position; [k] is what has
    to match after it. *)
Fixpoint exec (r : re) (prev : option char) (s : str) (cs : caps)
         (k : option char -> str -> caps -> option res) : option res :=
  match r with
  | Eps => k prev s cs
  | Chr p =>
      match s with
      | c :: t => if cls_match p c then k (Some c) t cs else None
      | [] => None
      end
  | Rep g lo p =>
      (if g then rep_greedy else rep_lazy) p lo prev s (fun prev' rest => k prev' rest cs)
  | Seq a b => exec a prev s cs (fun prev' rest cs' => exec b prev' rest cs' k)
  | Alt a b =>
      match exec a prev s cs k with
      | Some x => Some x
      | None => exec b prev s cs k
      end
  | Grp n a =>
      exec a prev s cs
        (fun prev' rest cs' =>
           k prev' rest ((n, firstn (List.length s - List.length rest) s) :: cs'))
  | Bol ml => if at_bol ml prev then k prev s cs else None
  | Eol ml => if at_eol ml s then k prev s cs else None
  end.

(** [pattern.match] at the current position: the number of characters
    matched and the groups.  With [nonempty] an empty match is refused
    (the matcher backtracks for another one). *)
Definition match_here (r : re) (prev : option char) (s : str) (nonempty : bool)
  : option (nat * caps) :=
  match exec r prev s []
          (fun _ rest cs =>
             if nonempty && (List.length rest =? List.length s)%nat
             then None else Some (rest, cs)) with
  | Some (rest, cs) => Some ((List.length s - List.length rest)%nat, cs)
  | None => None
  end.

End Matcher.

(** A replacement template: literal text and group references. *)
Inductive titem :=
| TLit (x : str)
| TGroup (n : nat).

Definition expand (repl : list titem) (cs : caps) : str :=
  flat_map (fun it => match it with TLit x => x | TGroup n => get_cap n cs end) repl.

(** [re.sub]: the leftmost matches replaced, left to right, without
    overlap.  After an empty match the same position is tried once more
    for a non-empty one; [skip] counts the characters of the last match
    still to pass over. *)
Fixpoint sub_go (r : re) (repl : list titem) (prev : option char) (s : str) (skip : nat)
  : str :=
  match skip with
  | S n =>
      match s with
      | [] => []
      | c :: t => sub_go r repl (Some c) t n
      end
  | O =>
      let copy := match s with
                  | [] => []
                  | c :: t => c :: sub_go r repl (Some c) t 0
                  end in
      let over (n : nat) := match s with
                            | [] => []
                            | c :: t => sub_go r repl (Some c) t (Nat.pred n)
                            end in
      match match_here r prev s false with
      | None => copy
      | Some (S n, cs) => expand repl cs ++ over (S n)
      | Some (O, cs) =>
          expand repl cs ++
          match match_here r prev s true with
          | Some (S n, cs') => expand repl cs' ++ over (S n)
          | _ => copy
          end
      end
  end.

Definition sub (r : re) (repl : list titem) (s : str) : str := sub_go r repl None s 0.

(** Patterns are written with these. *)
Fixpoint seq_of (rs : list re) : re :=
  match rs with
  | [] => Eps
  | [r] => r
  | r :: rest => Seq r (seq_of rest)
  end.

Fixpoint alt_of (rs : list re) : re :=
  match rs with
  | [] => Eps
  | [r] => r
  | r :: rest => Alt r (alt_of rest)
  end.

(** A literal string, and one under IGNORECASE. *)
Definition lits (x : string) : re := seq_of (map (fun c => Chr (lit c)) (py x)).
Definition ilits (x : string) : re := seq_of (map (fun c => Chr (ilit c)) (py x)).

(** [r?] *)
Definition opt (r : re) : re := Alt r Eps.

Definition star (p : cls) : re := Rep true 0 p.
Definition plus (p : cls) : re := Rep true 1 p.


(** *** A static check: patterns that cannot match without certain code points *)

(** [c] lies in one of the closed ranges. *)
Definition in_ranges (rs : list (char * char)) (c : char) : bool :=
  existsb (fun r => (fst r <=? c) && (c <=? snd r))%N rs.

(** Every code point of the atom lies in one of the ranges. *)
Definition atom_within (rs : list (char * char)) (a : atom) : bool :=
  match a with
  | Lit c => in_ranges rs c
  | Range lo hi => existsb (fun r => (fst r <=? lo) && (hi <=? snd r))%N rs
  | _ => false
  end.

Definition cls_within (rs : list (char * char)) (cl : cls) : bool :=
  negb (negated cl) && forallb (atom_within rs) (atoms cl).

(** Every match of the pattern contains a code point of the ranges. *)
Fixpoint needs (rs : list (char * char)) (r : re) : bool :=
  match r with
  | Eps => false
  | Chr p => cls_within rs p
  | Rep _ lo p => negb (Nat.eqb lo 0) && cls_within rs p
  | Seq a b => needs rs a || needs rs b
  | Alt a b => needs rs a && needs rs b
  | Grp _ a => needs rs a
  | Bol _ => false
  | Eol _ => false
  end.

(** No code point of the string lies in the ranges. *)
Definition free (rs : list (char * char)) (s : str) : Prop :=
  Forall (fun c => in_ranges rs c = false) s.

Definition suffix (rest s : str) : Prop := exists pre, s = pre ++ rest.

End Regex.

(* ===================================================================== *)
(** ** services/template_service.py                                      *)
(* ===================================================================== *)

Module TemplateService.

(** A JSON scalar as the template files hold them. *)
Inductive jv :=
| JStr (s : str)
| JInt (z : Z).

(** A JSON object with scalar values: a dict in insertion order. *)
Definition config := list (str * jv).

(** [d[k] = v]: replaces the value of an existing key in place, appends a
    new key. *)
Fixpoint dict_set {V : Type} (d : list (str * V)) (k : str) (v : V) : list (str * V) :=
  match d with
  | [] => [(k, v)]
  | (k', v') :: r => if Py.eqb k' k then (k', v) :: r else (k', v') :: dict_set r k v
  end.

(** [d.update(other)] *)
Definition dict_update {V : Type} (d other : list (str * V)) : list (str * V) :=
  fold_left (fun acc kv => dict_set acc (fst kv) (snd kv)) other d.

Record slide := {
  s_id : str;
  s_type : str;
  s_layout : list (str * config);
  s_responsive : list (str * list (str * config));
  s_placeholders : list (str * str);
  s_llmPrompts : list (str * str);
  s_fallbackData : option (list (str * str))
}.

Record template := {
  t_id : str;
  t_name : str;
  t_description : str;
  t_category : option str;
  t_templateVariant : option Z;
  t_slides : list slide
}.

(** The entries [get_all_templates] and [get_templates_by_category] build. *)
Record template_info := {
  ti_id : str;
  ti_name : str;
  ti_description : str;
  ti_category : str;
  ti_templateVariant : Z;
  ti_slideCount : Z
}.

Definition info_of (t : template) : template_info :=
  {| ti_id := t_id t;
     ti_name := t_name t;
     ti_description := t_description t;
     ti_category := match t_category t with Some c => c | None => py "misc" end;
     ti_templateVariant := match t_templateVariant t with Some v => v | None => 1 end;
     ti_slideCount := Z.of_nat (List.length (t_slides t)) |}.

(** [self.templates_cache]: template id to template, in load order. *)
Definition cache := list (str * template).

Definition get_templates_by_category (c : cache) (category : str) : list template_info :=
  map info_of
    (filter (fun t => Py.eqb (match t_category t with Some k => k | None => py "misc" end) category)
            (map snd c)).

Definition get_template (c : cache) (template_id : str) : option template :=
  Py.get c template_id.

(** What [_calculate_template_score] reads of a topic analysis. *)
Record score_context := {
  sc_difficulty_level : str;
  sc_content_complexity : Z;
  sc_teaching_approach : option str   (* None: no [topic_analysis] given *)
}.

Definition difficulty_preferences : list (str * list (str * Q)) :=
  [ (py "beginner", [(py "simple", 5%Q); (py "clean", 4%Q); (py "basic", 3%Q)]);
    (py "intermediate", [(py "balanced", 5%Q); (py "standard", 4%Q); (py "detailed", 3%Q)]);
    (py "advanced", [(py "comprehensive", 5%Q); (py "detailed", 4%Q); (py "complex", 3%Q)]) ].

Definition complexity_keywords (c : Z) : list str :=
  if c =? 1 then [py "simple"; py "basic"; py "clean"]
  else if c =? 2 then [py "clear"; py "standard"]
  else if c =? 3 then [py "balanced"; py "detailed"]
  else if c =? 4 then [py "comprehensive"; py "advanced"]
  else if c =? 5 then [py "complex"; py "detailed"; py "thorough"]
  else [].

Definition category_preferences : list (str * list str) :=
  [ (py "title-objective", [py "clean"; py "simple"; py "clear"]);
    (py "definition", [py "clear"; py "concise"; py "focused"]);
    (py "examples", [py "practical"; py "concrete"; py "relatable"]);
    (py "step-by-step", [py "sequential"; py "ordered"; py "process"]);
    (py "analogy", [py "visual"; py "comparison"; py "relatable"]);
    (py "common-mistakes", [py "warning"; py "caution"; py "avoid"]);
    (py "mini-recap", [py "summary"; py "concise"; py "key"]);
    (py "things-to-ponder", [py "thought"; py "question"; py "reflection"]) ].

(** One pass of [for keyword in ...: if keyword in name or keyword in desc:
    score += bonus]. *)
Definition add_bonuses (nm ds : str) (kws : list (str * Q)) (score : Q) : Q :=
  fold_left (fun sc kb =>
               if Py.contains (fst kb) nm || Py.contains (fst kb) ds
               then (sc + snd kb)%Q else sc) kws score.

Definition with_bonus (b : Q) (kws : list str) : list (str * Q) :=
  map (fun k => (k, b)) kws.

Definition _calculate_template_score (t : template_info) (ctx : score_context) : Q :=
  let score := 0%Q in
  let score := (score + 10)%Q in
  let score := (score + inject_Z (ti_templateVariant t) * 2)%Q in
  let nm := Py.lower (ti_name t) in
  let ds := Py.lower (ti_description t) in
  let score := add_bonuses nm ds (Py.get_or difficulty_preferences (sc_difficulty_level ctx) []) score in
  let score := add_bonuses nm ds (with_bonus 3%Q (complexity_keywords (sc_content_complexity ctx))) score in
  let score :=
    match sc_teaching_approach ctx with
    | None => score
    | Some ta =>
        let ta := Py.lower ta in
        if Py.eqb ta (py "visual")
        then add_bonuses nm ds (with_bonus 4%Q [py "visual"; py "diagram"; py "chart"; py "graphic"]) score
        else if Py.eqb ta (py "step-by-step")
        then add_bonuses nm ds (with_bonus 4%Q [py "step"; py "process"; py "sequential"; py "ordered"]) score
        else if Py.eqb ta (py "example-driven")
        then add_bonuses nm ds (with_bonus 4%Q [py "example"; py "case"; py "instance"; py "sample"]) score
        else score
    end in
  add_bonuses nm ds (with_bonus 2%Q (Py.get_or category_preferences (ti_category t) [])) score.

(** [list.sort(key=score, reverse=True)]: stable, highest score first. *)
Fixpoint insert_by_score {T : Type} (x : T * Q) (l : list (T * Q)) : list (T * Q) :=
  match l with
  | [] => [x]
  | y :: r => if Qle_bool (snd x) (snd y) then y :: insert_by_score x r else x :: l
  end.

Definition sort_by_score_desc {T : Type} (l : list (T * Q)) : list (T * Q) :=
  fold_left (fun acc x => insert_by_score x acc) l [].

Definition select_best_template (c : cache) (category : str) (ctx : score_context)
  : option template_info :=
  match get_templates_by_category c category with
  | [] => None
  | [t] => Some t
  | available =>
      match sort_by_score_desc (map (fun t => (t, _calculate_template_score t ctx)) available) with
      | (best, _) :: _ => Some best
      | [] => None
      end
  end.

(** [get_template_with_fallback]; [None] is the final [ValueError]. *)
Definition get_template_with_fallback (c : cache) (primary_template_id category : str)
           (difficulty_level : str) : option template_info :=
  match get_template c primary_template_id with
  | Some t => Some (info_of t)
  | None =>
      let ctx := {| sc_difficulty_level := difficulty_level;
                    sc_content_complexity := 3;
                    sc_teaching_approach := None |} in
      match select_best_template c category ctx with
      | Some t => Some t
      | None =>
          match get_templates_by_category c category with
          | t :: _ => Some t
          | [] =>
              match c with
              | (_, t) :: _ => Some (info_of t)
              | [] => None
              end
          end
      end
  end.

(** *** Responsive layout *)

Record ContainerSize := { width : Z; height : Z }.

Definition breakpoint (cs : ContainerSize) : str :=
  if width cs <? 768 then py "mobile"
  else if width cs <? 1024 then py "tablet"
  else py "desktop".

(** [_merge_layout_config]: a fresh dict; every element's config is
    copied before the overrides are applied to the copy. *)
Definition _merge_layout_config (base_layout responsive_overrides : list (str * config))
  : list (str * config) :=
  fold_left
    (fun merged ec =>
       let '(element_type, cfg) := ec in
       let copy := cfg in
       dict_set merged element_type
         (match Py.get responsive_overrides element_type with
          | Some ov => dict_update copy ov
          | None => copy
          end))
    base_layout [].

Definition _calculate_base_font_size (cs : ContainerSize) : Z :=
  if width cs <? 768 then Z.max 14 (Z.min 18 (width cs / 30))
  else if width cs <? 1024 then Z.max 16 (Z.min 20 (width cs / 45))
  else Z.max 18 (Z.min 24 (width cs / 60)).

Definition ellipsis : str := py "...".

Definition _truncate_text (text : str) (max_chars : Z) : str :=
  if Py.len text <=? max_chars then text
  else
    let truncated := Py.take max_chars text in
    let last_space := Py.rfind 32%N truncated in
    if PyFloat.int_gt last_space (PyFloat.of_Z max_chars * 0.7)%float
    then Py.take last_space truncated ++ ellipsis
    else truncated ++ ellipsis.

Record TemplateElement := {
  el_id : str;
  el_type : str;
  el_x : float;
  el_y : float;
  el_width : float;
  el_height : float;
  el_text : str;
  fontSize : Z;
  alignment : jv;
  color : str;
  backgroundColor : str
}.

(** [font_size_map.get(config.get("fontSize", "large"), base_font_size * 2)];
    [None] when an [int(...)] of the map raises. *)
Definition heading_font_size (base_font_size : Z) (label : jv) : option Z :=
  let b := PyFloat.of_Z base_font_size in
  match PyFloat.to_int (b * 1.2)%float, PyFloat.to_int (b * 1.5)%float,
        PyFloat.to_int (b * 1.8)%float, PyFloat.to_int (b * 2.2)%float,
        PyFloat.to_int (b * 2.6)%float with
  | Some sm, Some md, Some lg, Some xl, Some xxl =>
      let font_size_map :=
        [ (py "small", sm); (py "medium", md); (py "large", lg);
          (py "xlarge", xl); (py "xxlarge", xxl) ] in
      Some (match label with
            | JStr l => Py.get_or font_size_map l (base_font_size * 2)
            | JInt _ => base_font_size * 2
            end)
  | _, _, _, _, _ => None
  end.

(** [_create_heading_element]; [None] when the Python raises (no
    ["position"] key, a [maxChars] that is not a number). *)
Definition _create_heading_element (cfg : config) (text : str) (cs : ContainerSize)
           (base_font_size : Z) : option TemplateElement :=
  match heading_font_size base_font_size (Py.get_or cfg (py "fontSize") (JStr (py "large"))) with
  | None => None
  | Some font_size =>
      match Py.get_or cfg (py "maxChars") (JInt 50) with
      | JStr _ => None
      | JInt max_chars =>
          let display_text := _truncate_text text max_chars in
          let fs := PyFloat.of_Z font_size in
          let w := PyFloat.of_Z (width cs) in
          let char_width := (fs * 0.6)%float in
          let text_width := (PyFloat.of_Z (Py.len display_text) * char_width)%float in
          let text_height := (fs * 1.4)%float in
          let padding := PyFloat.max2 (PyFloat.of_Z 20) (w * 0.05)%float in
          match Py.get cfg (py "position") with
          | None => None
          | Some position =>
              let x :=
                match position with
                | JStr p =>
                    if Py.eqb p (py "center-top") then ((w - text_width) / 2)%float
                    else if Py.eqb p (py "left-top") then padding
                    else ((w - text_width) / 2)%float
                | JInt _ => ((w - text_width) / 2)%float
                end in
              let y := (padding + fs * 0.5)%float in
              Some {| el_id := py "heading";
                      el_type := py "text";
                      el_x := PyFloat.max2 padding x;
                      el_y := y;
                      el_width := PyFloat.min2 text_width (w - 2 * padding)%float;
                      el_height := text_height;
                      el_text := display_text;
                      fontSize := font_size;
                      alignment := Py.get_or cfg (py "alignment") (JStr (py "center"));
                      color := py "#1971c2";
                      backgroundColor := py "transparent" |}
          end
      end
  end.


(** *** Values used in statements and examples *)

(** The font size table of [_create_heading_element] with its default. *)
Definition font_table (sm md lg xl xxl dflt : Z) (label : jv) : Z :=
  match label with
  | JStr l => Py.get_or [ (py "small", sm); (py "medium", md); (py "large", lg);
                          (py "xlarge", xl); (py "xxlarge", xxl) ] l dflt
  | JInt _ => dflt
  end.

(** A phone-sized container of width 375. *)
Definition mobile375 (h : Z) : ContainerSize := {| width := 375; height := h |}.

Definition small_heading : config :=
  [ (py "position", JStr (py "center-top")); (py "fontSize", JStr (py "small")) ].

End TemplateService.

(* ===================================================================== *)
(** ** services/lesson_structure_service.py                              *)
(* ===================================================================== *)

Module LessonStructure.

Import TemplateService.

Record lesson_section := {
  content_type : str;
  name : str;
  template_id : str;
  base_duration : Z;
  priority : Z;
  required : bool;
  description : str
}.

Definition mk_section (ct nm tid : string) (bd pr : Z) (ds : string) : lesson_section :=
  {| content_type := py ct; name := py nm; template_id := py tid;
     base_duration := bd; priority := pr; required := true; description := py ds |}.

(** [self.lesson_sections] *)
Definition lesson_sections : list lesson_section :=
  [ mk_section "title-objective" "Title + Objective" "title-objective-1" 10 1
      "Lesson title and clear learning objectives";
    mk_section "context-motivation" "Context / Motivation" "context-motivation-1" 15 1
      "Why this topic matters and real-world relevance";
    mk_section "analogy" "Analogy" "analogy-1" 20 2
      "Relatable comparison to help understanding";
    mk_section "definition" "Definition" "definition-1" 15 1
      "Clear definition of key concepts";
    mk_section "step-by-step" "Step-by-step Explanation / Theory" "step-by-step-1" 30 1
      "Detailed explanation or process breakdown";
    mk_section "examples" "Examples" "examples-1" 25 1
      "Concrete examples and applications";
    mk_section "common-mistakes" "Common mistakes" "common-mistakes-1" 15 2
      "Common pitfalls and how to avoid them";
    mk_section "mini-recap" "Mini Recap" "mini-recap-1" 10 1
      "Summary of key points covered";
    mk_section "things-to-ponder" "Some things to ponder" "things-to-ponder-1" 10 2
      "Thought-provoking questions and extensions" ].

(** [self.difficulty_multipliers] *)
Definition difficulty_multipliers : list (str * Q) :=
  [ (py "beginner", 8 # 10); (py "intermediate", 1%Q); (py "advanced", 13 # 10) ].

(** The topic analysis dict: the LLM's JSON answer or the fallback; a key
    the answer leaves out is [None]. *)
Record topic_analysis := {
  ta_complexity : option Z;
  ta_key_concepts : option (list str);
  ta_teaching_approach : option str;
  ta_good_analogies : option (list str);
  ta_common_misconceptions : option (list str);
  ta_real_world_relevance : option str;
  ta_good_examples : option (list str);
  ta_strategy : option str;
  ta_reasoning : option str
}.

Definition complexity_map : list (str * Z) :=
  [ (py "beginner", 2); (py "intermediate", 3); (py "advanced", 4) ].

Definition _fallback_topic_analysis (topic difficulty_level : str) : topic_analysis :=
  {| ta_complexity := Some (Py.get_or complexity_map difficulty_level 3);
     ta_key_concepts := Some [topic];
     ta_teaching_approach := Some (py "structured");
     ta_good_analogies := Some [py "Think of " ++ topic ++ py " like..."];
     ta_common_misconceptions := Some [py "Students often confuse " ++ topic ++ py " with..."];
     ta_real_world_relevance := Some (topic ++ py " helps us understand everyday phenomena");
     ta_good_examples := Some [py "A common example of " ++ topic ++ py " is..."];
     ta_strategy := Some (py "structured");
     ta_reasoning := Some (py "Fallback analysis based on heuristics") |}.

(** [[s for s in self.lesson_sections if s["content_type"] in wanted]] *)
Definition sections_in (wanted : list str) : list lesson_section :=
  filter (fun s => existsb (Py.eqb (content_type s)) wanted) lesson_sections.

Definition _select_sections_for_duration (target_duration : Q) : list lesson_section :=
  if negb (Qle_bool 90 target_duration) then
    sections_in [py "title-objective"; py "definition"; py "examples"; py "mini-recap"]
  else if negb (Qle_bool 180 target_duration) then
    sections_in [py "title-objective"; py "context-motivation"; py "definition";
                 py "examples"; py "common-mistakes"; py "mini-recap"]
  else lesson_sections.

Record layout_hints_t := {
  slide_position : Z;
  lh_total_slides : Z;
  section_description : str;
  template_variant : Z
}.

Record SlideStructure := {
  slide_number : Z;
  ss_template_id : str;
  ss_template_name : str;
  ss_content_type : str;
  estimated_duration : Q;
  content_prompts : list (str * str);
  layout_hints : layout_hints_t;
  ss_priority : Z
}.

Record LessonStructure := {
  topic : str;
  difficulty_level : str;
  total_slides : Z;
  estimated_total_duration : Q;
  slides : list SlideStructure;
  teaching_strategy : str;
  content_flow : list str
}.

Definition _select_optimal_template (c : cache) (section : lesson_section)
           (difficulty : str) (ta : topic_analysis) : option template_info :=
  let complexity := match ta_complexity ta with Some k => k | None => 3 end in
  let ctx := {| sc_difficulty_level := difficulty;
                sc_content_complexity := complexity;
                sc_teaching_approach :=
                  Some (match ta_teaching_approach ta with Some a => a | None => [] end) |} in
  match select_best_template c (content_type section) ctx with
  | Some t => Some t
  | None => get_template_with_fallback c (template_id section) (content_type section) difficulty
  end.

Definition opt_list (o : option (list str)) (dflt : list str) : list str :=
  match o with Some l => l | None => dflt end.

Definition _generate_section_prompts (section_type topic difficulty : str) (ta : topic_analysis)
  : list (str * str) :=
  let base_context := py "Topic: " ++ topic ++ py ". Difficulty: " ++ difficulty ++ py "." in
  let key_concepts := Py.join (py ", ") (opt_list (ta_key_concepts ta) [topic]) in
  let relevance := match ta_real_world_relevance ta with
                   | Some r => r
                   | None => py "Why " ++ topic ++ py " is important"
                   end in
  let hc (h c : str) := [(py "heading", base_context ++ h); (py "content", base_context ++ c)] in
  let section_prompts : list (str * list (str * str)) :=
    [ (py "title-objective",
       hc (py " Create a clear, engaging lesson title about " ++ topic ++ py " (max 60 chars).")
          (py " Write 1-2 specific learning objectives. What will students be able to do/understand after this lesson about " ++ topic ++ py "?"));
      (py "context-motivation",
       hc (py " Create a heading about why " ++ topic ++ py " matters.")
          (py " Real-world relevance: " ++ relevance ++ py ". Explain why students should care about learning " ++ topic ++ py ". Include practical applications."));
      (py "analogy",
       hc (py " Create a heading for an analogy about " ++ topic ++ py ".")
          (py " Good analogies: " ++ Py.join (py ", ") (opt_list (ta_good_analogies ta) []) ++ py ". Create a relatable analogy to help students understand " ++ topic ++ py ". Compare it to something familiar."));
      (py "definition",
       hc (py " Create a heading for defining " ++ topic ++ py ".")
          (py " Key concepts: " ++ key_concepts ++ py ". Provide a clear, concise definition of " ++ topic ++ py " with essential characteristics. Avoid jargon."));
      (py "step-by-step",
       hc (py " Create a heading for the step-by-step explanation of " ++ topic ++ py ".")
          (py " Break down " ++ topic ++ py " into 3-5 clear, logical steps or explain the core theory. Make it easy to follow for " ++ difficulty ++ py " learners."));
      (py "examples",
       hc (py " Create a heading for examples of " ++ topic ++ py ".")
          (py " Good examples: " ++ Py.join (py ", ") (opt_list (ta_good_examples ta) []) ++ py ". Provide 2-3 concrete, relatable examples that illustrate " ++ topic ++ py " clearly."));
      (py "common-mistakes",
       hc (py " Create a heading about common mistakes with " ++ topic ++ py ".")
          (py " Common misconceptions: " ++ Py.join (py ", ") (opt_list (ta_common_misconceptions ta) []) ++ py ". List 2-3 common mistakes students make with " ++ topic ++ py " and how to avoid them."));
      (py "mini-recap",
       hc (py " Create a heading for summarizing " ++ topic ++ py ".")
          (py " Summarize the 3-4 most important points about " ++ topic ++ py " that students should remember. Keep it concise but comprehensive."));
      (py "things-to-ponder",
       hc (py " Create a heading for thinking deeper about " ++ topic ++ py ".")
          (py " Pose 2-3 thought-provoking questions about " ++ topic ++ py " that encourage deeper thinking or connection to other concepts.")) ] in
  Py.get_or section_prompts section_type
    (hc (py " Create an appropriate heading for " ++ section_type ++ py ".")
        (py " Create relevant content for " ++ section_type ++ py " about " ++ topic ++ py ".")).

(** The per-section quantities of [_generate_slide_structures]. *)
Definition total_base_duration (mult : Q) (selected : list lesson_section) : Q :=
  Py.sum (map (fun s => inject_Z (base_duration s) * mult)%Q selected).

Definition duration_scale (target_duration total_base : Q) : Q :=
  if negb (Qle_bool total_base 0) then (target_duration / total_base)%Q else 1%Q.

Definition scaled_duration (mult scale : Q) (s : lesson_section) : Q :=
  (inject_Z (base_duration s) * mult * scale)%Q.

(** The loop of [_generate_slide_structures] from index [i] on; [None] when
    template selection raises. *)
Fixpoint slide_loop (c : cache) (topic difficulty : str) (ta : topic_analysis)
         (mult scale : Q) (n_selected : Z) (i : Z) (rest : list lesson_section)
  : option (list SlideStructure) :=
  match rest with
  | [] => Some []
  | section :: rest' =>
      match _select_optimal_template c section difficulty ta with
      | None => None
      | Some selected_template =>
          let slide :=
            {| slide_number := i + 1;
               ss_template_id := ti_id selected_template;
               ss_template_name := ti_name selected_template;
               ss_content_type := content_type section;
               estimated_duration := Py.max2 8 (scaled_duration mult scale section);
               content_prompts := _generate_section_prompts (content_type section) topic difficulty ta;
               layout_hints :=
                 {| slide_position := i;
                    lh_total_slides := n_selected;
                    section_description := description section;
                    template_variant := ti_templateVariant selected_template |};
               ss_priority := priority section |} in
          match slide_loop c topic difficulty ta mult scale n_selected (i + 1) rest' with
          | None => None
          | Some more => Some (slide :: more)
          end
      end
  end.

Definition _generate_slide_structures (c : cache) (topic difficulty : str) (target_duration : Q)
           (selected : list lesson_section) (ta : topic_analysis)
  : option (list SlideStructure) :=
  let mult := Py.get_or difficulty_multipliers difficulty 1%Q in
  let total_base := total_base_duration mult selected in
  let scale := duration_scale target_duration total_base in
  slide_loop c topic difficulty ta mult scale (Z.of_nat (List.length selected)) 0 selected.

(** [analyze_topic_structure]; [llm_analysis] is what
    [_analyze_topic_for_sections] obtained from the LLM ([None]: the call
    or the parse failed and the fallback analysis is used). *)
Definition analyze_topic_structure (c : cache) (llm_analysis : option topic_analysis)
           (topic difficulty : str) (target_duration : Q) : option LessonStructure :=
  let ta := match llm_analysis with
            | Some a => a
            | None => _fallback_topic_analysis topic difficulty
            end in
  let selected := _select_sections_for_duration target_duration in
  match _generate_slide_structures c topic difficulty target_duration selected ta with
  | None => None
  | Some slide_structures =>
      Some {| topic := topic;
              difficulty_level := difficulty;
              total_slides := Z.of_nat (List.length slide_structures);
              estimated_total_duration := Py.sum (map estimated_duration slide_structures);
              slides := slide_structures;
              teaching_strategy := match ta_strategy ta with Some s => s | None => py "structured" end;
              content_flow := map ss_content_type slide_structures |}
  end.


(** *** Values used in statements and examples *)

Definition core4 : list str :=
  [py "title-objective"; py "definition"; py "examples"; py "mini-recap"].

Definition difficulties : list str := [py "beginner"; py "intermediate"; py "advanced"].

(** A catalog with one template. *)
Definition one_template_cache : cache :=
  [ (py "definition-1",
     {| t_id := py "definition-1"; t_name := py "Clear definition";
        t_description := py "simple"; t_category := Some (py "definition");
        t_templateVariant := Some 1; t_slides := [] |}) ].

End LessonStructure.

(* ===================================================================== *)
(** ** services/tts_service.py: duration estimates                       *)
(* ===================================================================== *)

Module TTS.

Record VoiceCalibrationData := {
  voice_id : str;
  words_per_minute : Q;
  characters_per_second : Q;
  sample_count : Z;
  last_updated : str;
  confidence_score : Q
}.

(** The state of [PiperTTSService] the estimate reads. *)
Record service := {
  default_voice : str;
  voice_calibrations : list (str * VoiceCalibrationData)
}.

Definition get_voice_speaking_rate (sv : service) (voice : str) : Q :=
  let base_rate := 150%Q in
  let by_name :=
    if Py.contains (py "lessac") (Py.lower voice) then (base_rate * (95 # 100))%Q
    else if Py.contains (py "ryan") (Py.lower voice) then (base_rate * (105 # 100))%Q
    else if Py.contains (py "jenny") (Py.lower voice) then (base_rate * (90 # 100))%Q
    else base_rate in
  match Py.get (voice_calibrations sv) voice with
  | Some cal =>
      if Qle_bool (3 # 10) (confidence_score cal) then words_per_minute cal else by_name
  | None => by_name
  end.

(** [x / y] on floats: [None] is [ZeroDivisionError]. *)
Definition fdiv (x y : Q) : option Q :=
  if Qeq_bool y 0 then None else Some (x / y)%Q.

Definition buffer_factor : Q := 13 # 10.

(** [voice or self.default_voice] *)
Definition effective_voice (sv : service) (voice : option str) : str :=
  match voice with
  | Some (c :: v) => c :: v
  | _ => default_voice sv
  end.

(** [estimate_duration_with_calibration(text, voice)]; [voice = None] is
    the default argument. *)
Definition estimate_duration_with_calibration (sv : service) (text : str) (voice : option str)
  : option Q :=
  match Py.strip text with
  | [] => Some 0%Q
  | _ :: _ =>
      let voice := effective_voice sv voice in
      let speaking_rate := get_voice_speaking_rate sv voice in
      let word_count := Py.len_list (Py.split_ws text) in
      match fdiv (inject_Z word_count) speaking_rate with
      | None => None
      | Some q =>
          let base_duration := (q * 60)%Q in
          let final_duration := (base_duration * buffer_factor)%Q in
          let min_duration := (inject_Z (Py.len text) * (5 # 100))%Q in
          Some (Py.max2 (Py.max2 final_duration min_duration) 1%Q)
      end
  end.


(** A service without calibration data. *)
Definition lessac_service : service :=
  {| default_voice := py "en_US-lessac-medium"; voice_calibrations := [] |}.

End TTS.

(* ===================================================================== *)
(** ** utils/audio_merger.py                                             *)
(* ===================================================================== *)

Module AudioMerger.

(** The part of pydub's [AudioSegment] the merger calls.  pydub is a
    third-party package: its operations are parameters, [ms] is [len(a)]
    (milliseconds) and [concat a b] is [a + b]. *)
Class Pydub := {
  AudioSegment : Type;
  ms : AudioSegment -> Z;
  frame_rate : AudioSegment -> Z;
  channels : AudioSegment -> Z;
  sample_width : AudioSegment -> Z;
  set_frame_rate : Z -> AudioSegment -> AudioSegment;
  set_channels : Z -> AudioSegment -> AudioSegment;
  set_sample_width : Z -> AudioSegment -> AudioSegment;
  from_mono_audiosegments : AudioSegment -> AudioSegment -> AudioSegment;
  fade_in : Z -> AudioSegment -> AudioSegment;
  fade_out : Z -> AudioSegment -> AudioSegment;
  silent : Z -> Z -> AudioSegment;          (* duration (ms), frame_rate *)
  concat : AudioSegment -> AudioSegment -> AudioSegment
}.

(** What pydub documents about lengths in milliseconds: concatenation
    adds them, a silence has the requested length, and fades and format
    changes of a silence keep the length. *)
Class PydubLengths (P : Pydub) : Prop := {
  ms_concat : forall a b, ms (concat a b) = ms a + ms b;
  ms_silent : forall d r, 0 <= d -> ms (silent d r) = d;
  ms_fade_in : forall d a, ms (fade_in d a) = ms a;
  ms_fade_out : forall d a, ms (fade_out d a) = ms a;
  ms_set_channels : forall c a, ms (set_channels c a) = ms a;
  ms_set_sample_width : forall w a, ms (set_sample_width w a) = ms a
}.

(** An audio segment dict of the lesson timeline. *)
Record segment := {
  slide_number : Z;
  text : str;
  start_time : Q;
  duration : Q;
  end_time : Q;
  audio_id : option str;
  audio_url : option str;
  error : option str
}.

(** [x / 1000.0] for a whole number of milliseconds, kept as the
    fraction [x/1000] that the float of the code rounds ([as_float]
    below gives that float).  A sum of two such floats is rounded once
    more, so what is stated of these times are equalities between the
    quotients of whole milliseconds, not sums of quotients. *)
Definition seconds (x : Z) : Q := (inject_Z x / 1000)%Q.

(** The binary64 value the code holds for a time kept as the fraction
    [n/d]: [n / float(d)], correctly rounded. *)
Definition as_float (q : Q) : float :=
  (PyFloat.of_Z (Qnum q) / PyFloat.of_Z (Z.pos (Qden q)))%float.

(** [seg = info.copy(); seg.update({"start_time": ..., "duration": ...,
    "end_time": ...})] *)
Definition retimed (info : segment) (current_time_ms segment_duration_ms : Z) : segment :=
  {| slide_number := slide_number info;
     text := text info;
     start_time := seconds current_time_ms;
     duration := seconds segment_duration_ms;
     end_time := seconds (current_time_ms + segment_duration_ms);
     audio_id := audio_id info;
     audio_url := audio_url info;
     error := error info |}.

Inductive merge_error :=
| NoAudioFiles                    (* ValueError *)
| AudioFileNotFound (p : str)     (* FileNotFoundError *)
| MergeFailed.                    (* Exception("Failed to merge audio files with silence: ...") *)

Inductive result (A : Type) :=
| Ok (a : A)
| Err (e : merge_error).
Arguments Ok {A} a.
Arguments Err {A} e.

Section Merger.

Context {P : Pydub}.

(** The file system and codec as the merger sees them: [os.path.exists],
    [AudioSegment.from_file] ([None]: it raises) and whether the export
    of the merged audio succeeds. *)
Record files := {
  path_exists : str -> bool;
  from_file : str -> option AudioSegment;
  export_ok : bool
}.

Record merger := {
  crossfade_duration_ms : Z;
  pause_duration_ms : Z;
  output_format : str
}.

Definition normalize_audio_format (audio : AudioSegment)
           (target_sample_rate target_channels target_sample_width : Z) : AudioSegment :=
  let normalized := audio in
  let normalized :=
    if negb (frame_rate normalized =? target_sample_rate)
    then set_frame_rate target_sample_rate normalized else normalized in
  let normalized :=
    if negb (channels normalized =? target_channels) then
      if (target_channels =? 2) && (channels normalized =? 1)
      then from_mono_audiosegments normalized normalized
      else if (target_channels =? 1) && (channels normalized =? 2)
      then set_channels 1 normalized
      else set_channels target_channels normalized
    else normalized in
  if negb (sample_width normalized =? target_sample_width)
  then set_sample_width target_sample_width normalized else normalized.

(** [self.normalize_audio_format(audio)] with the default targets. *)
Definition normalized (audio : AudioSegment) : AudioSegment :=
  normalize_audio_format audio 44100 2 2.

(** The loop over [enumerate(audio_file_paths[1:], 1)]; [None] when a
    file cannot be decoded. *)
Fixpoint merge_rest (fs : files) (m : merger) (segment_info : list segment)
         (fade_duration_ms : Z) (i : nat) (rest : list str)
         (merged_audio : AudioSegment) (updated_segments : list segment) (current_time_ms : Z)
  : option (AudioSegment * list segment * Z) :=
  match rest with
  | [] => Some (merged_audio, updated_segments, current_time_ms)
  | audio_path :: rest' =>
      match from_file fs audio_path with
      | None => None
      | Some next_audio_raw =>
          let next_audio := normalized next_audio_raw in
          let merged_audio := fade_out fade_duration_ms merged_audio in
          let silence :=
            set_sample_width (sample_width merged_audio)
              (set_channels (channels merged_audio)
                 (silent (pause_duration_ms m) (frame_rate merged_audio))) in
          let next_audio_faded := fade_in fade_duration_ms next_audio in
          let merged_audio := concat (concat merged_audio silence) next_audio_faded in
          let current_time_ms := current_time_ms + pause_duration_ms m in
          match nth_error segment_info i with
          | Some info =>
              let segment_duration_ms := ms next_audio in
              merge_rest fs m segment_info fade_duration_ms (S i) rest' merged_audio
                (updated_segments ++ [retimed info current_time_ms segment_duration_ms])
                (current_time_ms + segment_duration_ms)
          | None =>
              merge_rest fs m segment_info fade_duration_ms (S i) rest' merged_audio
                updated_segments current_time_ms
          end
      end
  end.

Definition merge_audio_files_with_silence (fs : files) (m : merger)
           (audio_file_paths : list str) (output_path : str)
           (segment_info : list segment) (fade_duration_ms : Z)
  : result (str * Q * list segment) :=
  match audio_file_paths with
  | [] => Err NoAudioFiles
  | first_path :: rest =>
      match find (fun p => negb (path_exists fs p)) audio_file_paths with
      | Some missing => Err (AudioFileNotFound missing)
      | None =>
          match from_file fs first_path with
          | None => Err MergeFailed
          | Some first_audio =>
              let merged_audio := normalized first_audio in
              let '(updated_segments, current_time_ms) :=
                match segment_info with
                | info :: _ => ([retimed info 0 (ms merged_audio)], 0 + ms merged_audio)
                | [] => ([], 0)
                end in
              match merge_rest fs m segment_info fade_duration_ms 1 rest
                      merged_audio updated_segments current_time_ms with
              | None => Err MergeFailed
              | Some (merged_audio, updated_segments, _) =>
                  if export_ok fs
                  then Ok (output_path, seconds (ms merged_audio), updated_segments)
                  else Err MergeFailed
              end
          end
      end
  end.

(** [merge_audio_files(..., use_silence_padding=True)], the call the
    lesson router makes. *)
Definition merge_audio_files_padded (fs : files) (m : merger)
           (audio_file_paths : list str) (output_path : str) (segment_info : list segment)
  : result (str * Q * list segment) :=
  merge_audio_files_with_silence fs m audio_file_paths output_path segment_info 50.

End Merger.

(** The timeline the loop lays out after a segment ending at
    [current_time_ms]: each clip starts one pause after the previous end. *)
Fixpoint timeline (pause : Z) (current_time_ms : Z) (items : list (segment * Z)) : list segment :=
  match items with
  | [] => []
  | (info, d) :: r =>
      retimed info (current_time_ms + pause) d :: timeline pause (current_time_ms + pause + d) r
  end.

(** A concrete pydub for examples: an audio is its length in
    milliseconds at a fixed format. *)
Definition ms_pydub : Pydub :=
  {| AudioSegment := Z;
     ms := fun a => a;
     frame_rate := fun _ => 44100;
     channels := fun _ => 2;
     sample_width := fun _ => 2;
     set_frame_rate := fun _ a => a;
     set_channels := fun _ a => a;
     set_sample_width := fun _ a => a;
     from_mono_audiosegments := fun a _ => a;
     fade_in := fun _ a => a;
     fade_out := fun _ a => a;
     silent := fun d _ => d;
     concat := fun a b => a + b |}.


(** Total length of the clips after the first, a pause before each. *)
Definition padded_ms (pause : Z) (ds : list Z) : Z :=
  fold_right (fun d acc => pause + d + acc) 0 ds.

(** The sum of clip lengths in milliseconds. *)
Definition total_ms (ds : list Z) : Z := fold_right Z.add 0 ds.

(** *** An example: three clips of 5.0 s, 3.2 s and 4.8 s *)

Definition clip (d : Z) : @AudioSegment ms_pydub := d.

Definition three_clips : @files ms_pydub :=
  {| path_exists := fun _ => true;
     from_file := fun p => if Py.eqb p (py "a.wav") then Some (clip 5000)
                           else if Py.eqb p (py "b.wav") then Some (clip 3200)
                           else if Py.eqb p (py "c.wav") then Some (clip 4800)
                           else None;
     export_ok := true |}.

Definition default_merger : merger :=
  {| crossfade_duration_ms := 1500; pause_duration_ms := 500; output_format := py "wav" |}.

(** A segment info as the router builds it, with estimated timing. *)
Definition info_for (n : Z) (id : option str) (start est : Q) : segment :=
  {| slide_number := n; text := py "narration";
     start_time := start; duration := est; end_time := (start + est)%Q;
     audio_id := id; audio_url := None; error := None |}.

Definition three_infos : list segment :=
  [ info_for 1 (Some (py "a")) 0 5; info_for 2 (Some (py "b")) 5 3;
    info_for 3 (Some (py "c")) 8 5 ].

(** *** An example: two clips of 3.501 s and 3.011 s *)

Definition two_clips : @files ms_pydub :=
  {| path_exists := fun _ => true;
     from_file := fun p => if Py.eqb p (py "a.wav") then Some (clip 3501)
                           else if Py.eqb p (py "b.wav") then Some (clip 3011)
                           else None;
     export_ok := true |}.

Definition two_infos : list segment :=
  [ info_for 1 (Some (py "a")) 0 4; info_for 2 (Some (py "b")) 4 3 ].

End AudioMerger.

(* ===================================================================== *)
(** ** routers/lesson.py: timing update after the merge                  *)
(* ===================================================================== *)

Module LessonRouter.

Import AudioMerger.

(** [segment.get("audio_id")] as a condition: neither [None] nor empty. *)
Definition has_audio (s : segment) : bool :=
  match audio_id s with
  | Some (_ :: _) => true
  | _ => false
  end.

(** [updated_segments_map[slide_num]] for the dict
    [{seg.get("slide_number"): seg for seg in updated_segments}]: the last
    entry with that slide number. *)
Definition updated_segments_map (updated_segments : list segment) (slide_num : Z)
  : option segment :=
  find (fun u => slide_number u =? slide_num) (rev updated_segments).

(** [audio_segments[i] = s] *)
Fixpoint set_nth (i : nat) (s : segment) (l : list segment) : list segment :=
  match l, i with
  | [], _ => []
  | _ :: r, O => s :: r
  | x :: r, S i' => x :: set_nth i' s r
  end.

(** The walk [for j in range(i - 1, -1, -1)]: the end time of the nearest
    segment before index [i] that has audio, else 0.0. *)
Definition last_audio_end_time (audio_segments : list segment) (i : nat) : Q :=
  match find has_audio (rev (firstn i audio_segments)) with
  | Some prev_segment => end_time prev_segment
  | None => 0%Q
  end.

(** One iteration of [for i, segment in enumerate(audio_segments)]; the
    segment dicts are updated in place. *)
Definition update_step (updated_segments : list segment)
           (audio_segments : list segment) (i : nat) : list segment :=
  match nth_error audio_segments i with
  | None => audio_segments
  | Some segment =>
      match updated_segments_map updated_segments (slide_number segment) with
      | Some updated_seg =>
          set_nth i
            {| slide_number := slide_number segment;
               text := text segment;
               start_time := start_time updated_seg;
               duration := duration updated_seg;
               end_time := end_time updated_seg;
               audio_id := audio_id segment;
               audio_url := audio_url segment;
               error := error segment |}
            audio_segments
      | None =>
          let t := last_audio_end_time audio_segments i in
          set_nth i
            {| slide_number := slide_number segment;
               text := text segment;
               start_time := t;
               duration := duration segment;
               end_time := (t + duration segment)%Q;
               audio_id := audio_id segment;
               audio_url := audio_url segment;
               error := error segment |}
            audio_segments
      end
  end.

Definition update_timing (updated_segments audio_segments : list segment) : list segment :=
  fold_left (update_step updated_segments) (seq 0 (List.length audio_segments)) audio_segments.

(** [t] is the end time of the nearest segment before index [i] that has
    audio, or 0 when no segment before [i] has audio. *)
Definition anchored_after (final : list segment) (i : nat) (t : Q) : Prop :=
  (exists j p,
      (j < i)%nat /\ nth_error final j = Some p /\ has_audio p = true /\
      (forall k q, (j < k < i)%nat -> nth_error final k = Some q -> has_audio q = false) /\
      t = end_time p)
  \/ ((forall k q, (k < i)%nat -> nth_error final k = Some q -> has_audio q = false) /\ t = 0%Q).

Section Router.

Context {P : Pydub}.

(** [piper_tts_service.get_audio_file_path(audio_id)] *)
Variable get_audio_file_path : str -> option str.

(** The loop that collects [audio_file_paths] and [segments_with_audio]. *)
Fixpoint collect_audio (fs : files) (audio_segments : list segment) : list (str * segment) :=
  match audio_segments with
  | [] => []
  | s :: r =>
      match (if has_audio s
             then match audio_id s with Some a => get_audio_file_path a | None => None end
             else None) with
      | Some audio_path =>
          if path_exists fs audio_path
          then (audio_path, s) :: collect_audio fs r
          else collect_audio fs r
      | None => collect_audio fs r
      end
  end.

Definition router_merger : merger :=
  {| crossfade_duration_ms := 1500; pause_duration_ms := 500; output_format := py "wav" |}.

(** The merge branch of [generate_lesson_merged_audio]: the segments and
    the total duration it stores; [current_time] is the estimated total
    used when nothing is merged or the merge raises. *)
Definition merge_and_retime (fs : files) (merged_audio_path : str)
           (audio_segments : list segment) (current_time : Q) : list segment * Q :=
  let collected := collect_audio fs audio_segments in
  match collected with
  | [] => (audio_segments, current_time)
  | _ :: _ =>
      match merge_audio_files_padded fs router_merger (map fst collected) merged_audio_path
              (map snd collected) with
      | Ok (_, total_duration, updated_segments) =>
          (update_timing updated_segments audio_segments, total_duration)
      | Err _ => (audio_segments, current_time)
      end
  end.

End Router.


(** The loop after its first [k] iterations. *)
Definition steps (U : list segment) (k : nat) (l : list segment) : list segment :=
  fold_left (update_step U) (seq 0 k) l.

(** *** An example lesson: slides 1, 3 and 5 have no audio *)

Definition example_segments : list segment :=
  [ info_for 1 None 0 4;
    info_for 2 (Some (py "a")) 4 5;
    info_for 3 None 9 3;
    info_for 4 (Some (py "b")) 12 3;
    info_for 5 None 15 2 ].

Definition example_paths (audio_id : str) : option str :=
  if Py.eqb audio_id (py "a") then Some (py "a.wav")
  else if Py.eqb audio_id (py "b") then Some (py "b.wav")
  else None.

End LessonRouter.

(* ===================================================================== *)
(** ** Narration sanitizers: services/ai_tutor_service.py and
       services/tts_service.py                                           *)
(* ===================================================================== *)

Module Sanitizer.

Import Regex.

Local Open Scope N_scope.

(** The code point of a one-character literal. *)
Definition ch (x : string) : char :=
  match py x with
  | c :: _ => c
  | [] => 0%N
  end.

(** One [text = re.sub(pattern, repl, text)] statement. *)
Definition step := (re * list titem)%type.

Definition run (steps : list step) (text : str) : str :=
  fold_left (fun t st => sub (fst st) (snd st) t) steps text.

Definition remove (r : re) : step := (r, []).
Definition keep_group1 (r : re) : step := (r, [TGroup 1]).
Definition put (x : string) (r : re) : step := (r, [TLit (py x)]).

Section Patterns.

(** [\d] on a [str] pattern: the Unicode decimal digits (category Nd), a
    table of the interpreter. *)
Variable decimal : char -> bool.

(** The six emoji statements. *)
Definition emoji_steps : list step :=
  [ remove (Chr (range 128512 128591));   (* "[\U0001F600-\U0001F64F]" *)
    remove (Chr (range 127744 128511));   (* [\U0001F300-\U0001F5FF] *)
    remove (Chr (range 128640 128767));   (* [\U0001F680-\U0001F6FF] *)
    remove (Chr (range 127456 127487));   (* [\U0001F1E0-\U0001F1FF] *)
    remove (Chr (range 9986 10160));      (* [\U00002702-\U000027B0] *)
    remove (Chr (range 9410 127569)) ].   (* [\U000024C2-\U0001F251] *)

(** The three prefix statements (IGNORECASE | MULTILINE). *)
Definition prefix_steps : list step :=
  [ (* ^(NARRATION|Narration):\s* *)
    remove (seq_of [Bol true; Grp 1 (Alt (ilits "NARRATION") (ilits "Narration"));
                    Chr (lit (ch ":")); star space]);
    (* "^(EXPLANATION|Explanation):\s*" *)
    remove (seq_of [Bol true; Grp 1 (Alt (ilits "EXPLANATION") (ilits "Explanation"));
                    Chr (lit (ch ":")); star space]);
    (* "^Step\s+\d+:\s*" *)
    remove (seq_of [Bol true; ilits "Step"; plus space; plus (table decimal);
                    Chr (lit (ch ":")); star space]) ].

(** [\s+] replaced by one space. *)
Definition whitespace_step : step := put " " (plus space).

(** The markdown statements of the tutor service up to the links, in
    source order. *)
Definition markup_steps : list step :=
  [ (* "\*\*(.*?)\*\*" *)
    keep_group1 (seq_of [lits "**"; Grp 1 (Rep false 0 dot); lits "**"]);
    (* "\*(.*?)\*" *)
    keep_group1 (seq_of [lits "*"; Grp 1 (Rep false 0 dot); lits "*"]);
    (* "__(.*?)__" *)
    keep_group1 (seq_of [lits "__"; Grp 1 (Rep false 0 dot); lits "__"]);
    (* "_(.*?)_" *)
    keep_group1 (seq_of [lits "_"; Grp 1 (Rep false 0 dot); lits "_"]);
    (* ":\s*\*\*" *)
    put ": " (seq_of [Chr (lit (ch ":")); star space; lits "**"]);
    (* ":\s*\*" *)
    put ": " (seq_of [Chr (lit (ch ":")); star space; lits "*"]);
    (* ":\s*$" (MULTILINE) *)
    put "." (seq_of [Chr (lit (ch ":")); star space; Eol true]);
    (* "^#+\s*" (MULTILINE) *)
    remove (seq_of [Bol true; plus (lit (ch "#")); star space]);
    (* "```[^`]*```" *)
    remove (seq_of [lits "```"; star (none_of [Lit (ch "`")]); lits "```"]);
    (* a backtick, group 1: [^`] any number of times, a backtick *)
    keep_group1 (seq_of [lits "`"; Grp 1 (star (none_of [Lit (ch "`")])); lits "`"]);
    (* "\[([^\]]+)\]\([^\)]+\)" *)
    keep_group1 (seq_of [lits "["; Grp 1 (plus (none_of [Lit (ch "]")])); lits "]";
                         lits "("; plus (none_of [Lit (ch ")")]); lits ")"]) ].

(** "^\s*[-*+]\s+" (MULTILINE): a bullet at the start of a line. *)
Definition bullet_pattern : re :=
  seq_of [Bol true; star space;
          Chr (any_of [Lit (ch "-"); Lit (ch "*"); Lit (ch "+")]); plus space].

Definition markdown_steps : list step := markup_steps ++ [remove bullet_pattern].

(** "\.{2,}" and "\s*\.\s*\." *)
Definition dots_pattern : re := Rep true 2 (lit (ch ".")).
Definition spaced_dots_pattern : re :=
  seq_of [star space; lits "."; star space; lits "."].

(** The period statements. *)
Definition period_steps : list step :=
  [ put "." dots_pattern; put "." spaced_dots_pattern ].

(** The three [str.replace] statements. *)
Definition expand_abbreviations (text : str) : str :=
  let text := Py.replace (py "e.g.") (py "for example") text in
  let text := Py.replace (py "i.e.") (py "that is") text in
  Py.replace (py "etc.") (py "and so on") text.

(** [AITutorService._sanitize_text_for_tts] *)
Definition _sanitize_text_for_tts (text : str) : str :=
  match text with
  | [] => text
  | _ :: _ =>
      let text := run emoji_steps text in
      let text := run prefix_steps text in
      let text := run markdown_steps text in
      let text := run [whitespace_step] text in
      let text := run period_steps text in
      let text := expand_abbreviations text in
      Py.strip text
  end.

(** [PiperTTSService._sanitize_text_for_tts] *)
Definition tts_sanitize_text_for_tts (text : str) : str :=
  match text with
  | [] => text
  | _ :: _ =>
      let text := run emoji_steps text in
      let text := run prefix_steps text in
      let text := run [whitespace_step] text in
      Py.strip text
  end.

End Patterns.

(** The ASCII digits, a decimal table for examples without other digits. *)
Definition ascii_digit (c : char) : bool := (48 <=? c) && (c <=? 57).


(** *** Ordinary prose *)

(** The code points that start markup or a prefix: [* _ : # ` [] and the
    emoji ranges. *)
Definition markup_ranges : list (char * char) :=
  [ (ch "*", ch "*"); (ch "_", ch "_"); (ch ":", ch ":"); (ch "#", ch "#");
    (ch "`", ch "`"); (ch "[", ch "[");
    (9410, 127569); (127744, 128511); (128512, 128591); (128640, 128767) ].

(** [-] and [+]. *)
Definition is_sign (c : char) : bool := (c =? ch "-") || (c =? ch "+").

(** Every [-] and [+] directly follows a character that is not whitespace
    (a hyphen inside a word, not a bullet); [after_word] tells that the
    previous character exists and is not whitespace. *)
Fixpoint glued (after_word : bool) (s : str) : bool :=
  match s with
  | [] => true
  | c :: t => (if is_sign c then after_word else true) && glued (negb (Py.isspace c)) t
  end.

(** No period is followed, after optional whitespace, by another period;
    [after_dot] tells that only whitespace was seen since the last period. *)
Fixpoint dots_apart (after_dot : bool) (s : str) : bool :=
  match s with
  | [] => true
  | c :: t =>
      if c =? ch "." then negb after_dot && dots_apart true t
      else if Py.isspace c then dots_apart after_dot t
      else dots_apart false t
  end.

(** The previous character exists and is not whitespace. *)
Definition prev_is_word (prev : option char) : bool :=
  match prev with
  | Some c => negb (Py.isspace c)
  | None => false
  end.

(** No character of the string is whitespace. *)
Definition solid (p : str) : bool := forallb (fun c => negb (Py.isspace c)) p.

(** The abbreviations the sanitizer spells out. *)
Definition abbreviations : list str := [py "e.g."; py "i.e."; py "etc."].

(** Ordinary prose: no markup character and no emoji, hyphens and plus
    signs only after a non-whitespace character, no two periods in a row
    (whitespace apart), none of the abbreviations. *)
Definition prose (s : str) : Prop :=
  free markup_ranges s /\
  glued false s = true /\
  dots_apart false s = true /\
  forallb (fun a => negb (Py.contains a s)) abbreviations = true.

(** What replacing [\s+] by one space does; [in_run] tells that the
    previous character was whitespace. *)
Fixpoint collapse (in_run : bool) (s : str) : str :=
  match s with
  | [] => []
  | c :: t =>
      if Py.isspace c
      then if in_run then collapse true t else 32 :: collapse true t
      else c :: collapse false t
  end.

(** Length of the leading run of whitespace. *)
Fixpoint span (s : str) : nat :=
  match s with
  | c :: t => if Py.isspace c then S (span t) else O
  | [] => O
  end.

(** All whitespace is single spaces. *)
Fixpoint is_collapsed (in_run : bool) (x : str) : bool :=
  match x with
  | [] => true
  | c :: t =>
      if Py.isspace c
      then (c =? 32) && negb in_run && is_collapsed true t
      else is_collapsed false t
  end.

(** The string does not begin with whitespace. *)
Definition starts_clean (y : str) : Prop :=
  match y with
  | c :: _ => Py.isspace c = false
  | [] => True
  end.

End Sanitizer.

(* ===================================================================== *)
(** ** services/template_filling_service.py                              *)
(* ===================================================================== *)

Module TemplateFilling.

Import Regex TemplateService.

Local Open Scope Z_scope.

Definition ch := Sanitizer.ch.

(** What [ollama_service._make_request] does on one call. *)
Inductive llm_reply :=
| LlmRaises
| LlmReturns (response_text : option str).

(** The LLM collaborator: its reply to the [n]-th request of a fill, given
    the prompt. *)
Definition llm := nat -> str -> llm_reply.

Record metadata_t := {
  generation_method : str;
  template_name : str;
  constraints : option (list (str * config));
  slide_id : str;
  reason : option str
}.

Record FilledTemplate := {
  ft_template_id : str;
  ft_topic : str;
  ft_slide_index : Z;
  filled_content : list (str * str);
  metadata : metadata_t;
  is_fallback : bool
}.

(** [_extract_constraints] *)
Definition _extract_constraints (layout : list (str * config)) : list (str * config) :=
  fold_left
    (fun constraints ec =>
       dict_set constraints (fst ec)
         [ (py "maxChars", Py.get_or (snd ec) (py "maxChars") (JInt 300));
           (py "maxLines", Py.get_or (snd ec) (py "maxLines") (JInt 5));
           (py "format", Py.get_or (snd ec) (py "format") (JStr (py "text"))) ])
    layout [].

(** The layout [_get_responsive_constraints] reads its constraints from:
    for every element of the breakpoint's overrides that the layout has,
    the overrides are written into that element's config. *)
Definition overridden_layout (layout responsive_overrides : list (str * config))
  : list (str * config) :=
  fold_left
    (fun layout eo =>
       match Py.get layout (fst eo) with
       | Some cfg => dict_set layout (fst eo) (dict_update cfg (snd eo))
       | None => layout
       end)
    responsive_overrides layout.

(** [_get_responsive_constraints], the value it returns; [None] when the
    width is not a number. *)
Definition _get_responsive_constraints (sl : slide) (container_size : option config)
  : option (list (str * config)) :=
  match container_size with
  | None | Some [] => Some (_extract_constraints (s_layout sl))
  | Some cs =>
      match Py.get_or cs (py "width") (JInt 800) with
      | JStr _ => None
      | JInt w =>
          let breakpoint :=
            if w <? 768 then py "mobile" else if w <? 1024 then py "tablet" else py "desktop" in
          let responsive_overrides := Py.get_or (s_responsive sl) breakpoint [] in
          Some (_extract_constraints (overridden_layout (s_layout sl) responsive_overrides))
      end
  end.

(** [str(v)] for a JSON scalar. *)
Definition str_of_jv (v : jv) : str :=
  match v with
  | JStr x => x
  | JInt z => Py.str_of_Z z
  end.

Definition is_bullets (v : jv) : bool :=
  match v with
  | JStr x => Py.eqb x (py "bullets")
  | JInt _ => false
  end.

(** The bullet character U+2022. *)
Definition bullet : str := [8226%N].

Definition _build_prompt (prompt_template topic : str) (limits : config) : str :=
  let prompt := Py.replace (py "{{TOPIC}}") topic prompt_template in
  let prompt := Py.replace (py "{maxChars}")
                  (str_of_jv (Py.get_or limits (py "maxChars") (JInt 300))) prompt in
  let prompt := Py.replace (py "{maxLines}")
                  (str_of_jv (Py.get_or limits (py "maxLines") (JInt 5))) prompt in
  if is_bullets (Py.get_or limits (py "format") (JStr (py "text")))
  then prompt ++ py " Use bullet points with " ++ bullet ++ py " symbols."
  else prompt.

(** [_validate_and_trim_content]; [None] when a limit is not a number
    ([TypeError]). *)
Definition _validate_and_trim_content (content : str) (limits : config) : option str :=
  match Py.get_or limits (py "maxChars") (JInt 300), Py.get_or limits (py "maxLines") (JInt 5) with
  | JInt max_chars, JInt max_lines =>
      let lines := Py.split_on 10%N content in
      let content :=
        if is_bullets (Py.get_or limits (py "format") (JStr (py "text"))) then
          let bullet_lines :=
            flat_map
              (fun line =>
                 let line := Py.strip line in
                 match line with
                 | [] => []
                 | _ :: _ =>
                     if negb (Py.startswith bullet line) && negb (Py.startswith (py "-") line)
                     then [bullet ++ py " " ++ line] else [line]
                 end)
              (Py.take_list max_lines lines) in
          Py.join [10%N] bullet_lines
        else if Py.len_list lines >? max_lines
        then Py.join [10%N] (Py.take_list max_lines lines)
        else content in
      Some (if Py.len content >? max_chars then
              let trimmed := Py.take max_chars content in
              let last_space := Py.rfind 32%N trimmed in
              if PyFloat.int_gt last_space (PyFloat.of_Z max_chars * 0.7)%float
              then Py.take last_space trimmed ++ py "..."
              else trimmed ++ py "..."
            else content)
  | _, _ => None
  end.

Section LlmOutput.

(** [\d] of the interpreter (Unicode decimal digits). *)
Variable decimal : char -> bool.

Definition punct (x : string) : list atom := map Lit (py x).

(** The statements of [_sanitize_llm_output], in source order. *)
Definition llm_output_steps : list Sanitizer.step :=
  [ (* "\(\d+\s*(characters?|words?|chars?)\)" (IGNORECASE) *)
    Sanitizer.remove
      (seq_of [lits "("; plus (table decimal); star space;
               Grp 1 (alt_of [Seq (ilits "character") (opt (Chr (ilit (ch "s"))));
                              Seq (ilits "word") (opt (Chr (ilit (ch "s"))));
                              Seq (ilits "char") (opt (Chr (ilit (ch "s"))))]);
               lits ")"]);
    (* "\*\*(.*?)\*\*" *)
    Sanitizer.keep_group1 (seq_of [lits "**"; Grp 1 (Rep false 0 dot); lits "**"]);
    (* "\*(.*?)\*" *)
    Sanitizer.keep_group1 (seq_of [lits "*"; Grp 1 (Rep false 0 dot); lits "*"]);
    (* "\*+" *)
    Sanitizer.remove (plus (lit (ch "*")));
    (* "__(.*?)__" *)
    Sanitizer.keep_group1 (seq_of [lits "__"; Grp 1 (Rep false 0 dot); lits "__"]);
    (* "_(.*?)_" *)
    Sanitizer.keep_group1 (seq_of [lits "_"; Grp 1 (Rep false 0 dot); lits "_"]);
    (* "^#+\s*" (MULTILINE) *)
    Sanitizer.remove (seq_of [Bol true; plus (lit (ch "#")); star space]);
    (* "```[^`]*```" *)
    Sanitizer.remove (seq_of [lits "```"; star (none_of [Lit (ch "`")]); lits "```"]);
    (* a backtick, group 1: [^`] any number of times, a backtick *)
    Sanitizer.keep_group1 (seq_of [lits "`"; Grp 1 (star (none_of [Lit (ch "`")])); lits "`"]);
    (* "\[([^\]]+)\]\([^\)]+\)" *)
    Sanitizer.keep_group1
      (seq_of [lits "["; Grp 1 (plus (none_of [Lit (ch "]")])); lits "]";
               lits "("; plus (none_of [Lit (ch ")")]); lits ")"]);
    (* ":\s*\*\*" *)
    Sanitizer.put ": " (seq_of [lits ":"; star space; lits "**"]);
    (* ":\s*\*" *)
    Sanitizer.put ": " (seq_of [lits ":"; star space; lits "*"]);
    (* ":\s*#+" *)
    Sanitizer.put ": " (seq_of [lits ":"; star space; plus (lit (ch "#"))]);
    (* "[\*_#`~\[\]]+" *)
    Sanitizer.remove (plus (any_of (punct "*_#`~[]")));
    (* ":{2,}" *)
    Sanitizer.put ":" (Rep true 2 (lit (ch ":")));
    (* the Option prefix, IGNORECASE: ^ then group 1 = Option \s+ \d+ \s*
       [:-(] any number of times, \s*, optionally group 2 =
       Concise|Brief|Short|Long|Detailed, \s*, [:-)] any number of times, \s* *)
    Sanitizer.remove
      (seq_of [Bol false;
               Grp 1 (seq_of [ilits "Option"; plus space; plus (table decimal); star space;
                              star (any_of (punct ":-(")); star space;
                              opt (Grp 2 (alt_of [ilits "Concise"; ilits "Brief"; ilits "Short";
                                                  ilits "Long"; ilits "Detailed"]));
                              star space; star (any_of (punct ":-)")); star space])]);
    (* "\s+" *)
    Sanitizer.whitespace_step;
    (* "^[:\-\*\s]+" *)
    Sanitizer.remove (seq_of [Bol false; plus (any_of (punct ":-*" ++ [Space]))]);
    (* "[:\-\*\s]+$" *)
    Sanitizer.remove (seq_of [plus (any_of (punct ":-*" ++ [Space])); Eol false]) ].

Definition _sanitize_llm_output (content : str) : str :=
  match content with
  | [] => content
  | _ :: _ => Py.strip (Sanitizer.run llm_output_steps content)
  end.

(** The prompt [_call_llm] sends. *)
Definition enhanced_prompt (prompt : str) (limits : config) : str :=
  let max_chars := Py.get_or limits (py "maxChars") (JInt 300) in
  prompt ++ py " Keep your response under " ++ str_of_jv max_chars
         ++ py " characters and make it clear and direct.".

(** [_call_llm]: the [n]-th request of the fill; [None] when it raises
    (no service, an exception of the collaborator, an empty reply, a
    limit that is not a number). *)
Definition _call_llm (ollama_service : option llm) (n : nat) (prompt : str) (limits : config)
  : option str :=
  match ollama_service with
  | None => None
  | Some make_request =>
      match make_request n (enhanced_prompt prompt limits) with
      | LlmRaises => None
      | LlmReturns None => None
      | LlmReturns (Some response_text) =>
          match Py.strip response_text with
          | [] => None
          | content => _validate_and_trim_content content limits
          end
      end
  end.

(** The loop of [_generate_content_with_llm] over [placeholders.items()];
    [n] counts the requests made so far. *)
Fixpoint fill_placeholders (ollama_service : option llm) (sl : slide) (topic : str)
         (limits : list (str * config)) (n : nat) (placeholders : list (str * str))
         (filled : list (str * str)) : option (list (str * str)) :=
  match placeholders with
  | [] => Some filled
  | (placeholder_key, _) :: rest =>
      match Py.get (s_llmPrompts sl) placeholder_key with
      | Some prompt_template =>
          let element_constraints := Py.get_or limits placeholder_key [] in
          let prompt := _build_prompt prompt_template topic element_constraints in
          match _call_llm ollama_service n prompt element_constraints with
          | None => None
          | Some raw_content =>
              fill_placeholders ollama_service sl topic limits (S n) rest
                (dict_set filled placeholder_key (_sanitize_llm_output raw_content))
          end
      | None =>
          let fallback_data := match s_fallbackData sl with Some d => d | None => [] end in
          fill_placeholders ollama_service sl topic limits n rest
            (dict_set filled placeholder_key
               (Py.get_or fallback_data placeholder_key
                  (py "[No content generated for " ++ placeholder_key ++ py "]")))
      end
  end.

(** The requests the loop makes when none of them fails: its number, the
    prompt built for the placeholder and the placeholder's constraints. *)
Fixpoint requests_from (sl : slide) (topic : str) (limits : list (str * config)) (n : nat)
         (placeholders : list (str * str)) : list (nat * str * config) :=
  match placeholders with
  | [] => []
  | (placeholder_key, _) :: rest =>
      match Py.get (s_llmPrompts sl) placeholder_key with
      | Some prompt_template =>
          let element_constraints := Py.get_or limits placeholder_key [] in
          (n, _build_prompt prompt_template topic element_constraints, element_constraints)
            :: requests_from sl topic limits (S n) rest
      | None => requests_from sl topic limits n rest
      end
  end.

Definition requests (sl : slide) (topic : str) (limits : list (str * config))
  : list (nat * str * config) :=
  requests_from sl topic limits 0 (s_placeholders sl).

Definition _generate_content_with_llm (ollama_service : option llm) (sl : slide) (topic : str)
           (limits : list (str * config)) : option (list (str * str)) :=
  fill_placeholders ollama_service sl topic limits 0 (s_placeholders sl) [].

(** [template["slides"][slide_index]] after the range check of
    [fill_template]; a negative index counts from the end. *)
Definition slide_at (t : template) (slide_index : Z) : option slide :=
  let n := Py.len_list (t_slides t) in
  if n <=? slide_index then None
  else if 0 <=? slide_index then nth_error (t_slides t) (Z.to_nat slide_index)
  else if 0 <=? n + slide_index then nth_error (t_slides t) (Z.to_nat (n + slide_index))
  else None.

(** [slide.get("fallbackData", {})] *)
Definition fallback_data_of (sl : slide) : list (str * str) :=
  match s_fallbackData sl with Some d => d | None => [] end.

Definition _create_fallback_template (t : template) (topic : str) (slide_index : Z) (sl : slide)
  : FilledTemplate :=
  let fallback_data := fallback_data_of sl in
  {| ft_template_id := t_id t;
     ft_topic := topic;
     ft_slide_index := slide_index;
     filled_content := fallback_data;
     metadata := {| generation_method := py "fallback";
                    template_name := t_name t;
                    constraints := None;
                    slide_id := s_id sl;
                    reason := Some (py "LLM generation failed") |};
     is_fallback := true |}.

(** [fill_template]; [None] when it raises (slide index out of range, a
    container width that is not a number). *)
Definition fill_template (ollama_service : option llm) (t : template) (topic : str)
           (slide_index : Z) (container_size : option config) : option FilledTemplate :=
  match slide_at t slide_index with
  | None => None
  | Some sl =>
      match _get_responsive_constraints sl container_size with
      | None => None
      | Some limits =>
          match _generate_content_with_llm ollama_service sl topic limits with
          | Some content =>
              Some {| ft_template_id := t_id t;
                      ft_topic := topic;
                      ft_slide_index := slide_index;
                      filled_content := content;
                      metadata := {| generation_method := py "llm";
                                     template_name := t_name t;
                                     constraints := Some limits;
                                     slide_id := s_id sl;
                                     reason := None |};
                      is_fallback := false |}
          | None => Some (_create_fallback_template t topic slide_index sl)
          end
      end
  end.

End LlmOutput.


(** *** An example: a slide with two prompted placeholders *)

Definition example_slide : slide :=
  {| s_id := py "slide-1";
     s_type := py "definition";
     s_layout := [ (py "heading", [(py "maxChars", JInt 50)]);
                   (py "content", [(py "maxChars", JInt 200)]) ];
     s_responsive := [];
     s_placeholders := [ (py "heading", py "Heading"); (py "content", py "Content") ];
     s_llmPrompts := [ (py "heading", py "Write a heading about {{TOPIC}}");
                       (py "content", py "Explain {{TOPIC}}") ];
     s_fallbackData := Some [ (py "heading", py "Key Concept");
                              (py "content", py "An overview of the concept.") ] |}.

Definition example_template : template :=
  {| t_id := py "definition-1"; t_name := py "Definition"; t_description := py "";
     t_category := Some (py "definition"); t_templateVariant := Some 1;
     t_slides := [example_slide] |}.

(** An LLM that answers the first request and raises on the second. *)
Definition failing_second : llm :=
  fun n _ => match n with
             | O => LlmReturns (Some (py "What Photosynthesis Is"))
             | _ => LlmRaises
             end.

(** An LLM that answers every request. *)
Definition answering : llm :=
  fun _ _ => LlmReturns (Some (py "Plants turn light into food")).

End TemplateFilling.

(* ===================================================================== *)
(** ** Template dicts as shared objects                                  *)
(* ===================================================================== *)

(** The cached template is a tree of Python dicts; [copy] and [update]
    act on dict objects, so the layout code is modelled once more over a
    store of objects with references between them. *)
Module TemplateStore.

Import TemplateService.

Local Open Scope Z_scope.

Definition loc := nat.

(** What a dict holds under a key: a scalar or a reference to a dict. *)
Inductive val :=
| VScalar (v : jv)
| VRef (l : loc).

(** A dict object, and the store of all dict objects by address. *)
Definition obj := list (str * val).
Definition store := list obj.

Definition deref (h : store) (l : loc) : option obj := nth_error h l.

Fixpoint write (h : store) (l : loc) (o : obj) : store :=
  match h, l with
  | [], _ => []
  | _ :: r, O => o :: r
  | x :: r, S l' => x :: write r l' o
  end.

(** A new dict object. *)
Definition alloc (h : store) (o : obj) : store * loc := (h ++ [o], List.length h).

(** [d[k]] where a dict is expected. *)
Definition get_ref (o : obj) (k : str) : option loc :=
  match Py.get o k with
  | Some (VRef l) => Some l
  | _ => None
  end.

(** [target.update(other)] for the dict objects at [target] and [other]. *)
Definition update_at (h : store) (target other : loc) : option store :=
  match deref h target, deref h other with
  | Some t, Some o => Some (write h target (dict_update t o))
  | _, _ => None
  end.

(** [_extract_constraints(layout)] for the dict object at [layout]. *)
Definition _extract_constraints (h : store) (layout : loc) : option (list (str * obj)) :=
  match deref h layout with
  | None => None
  | Some lo =>
      fold_left
        (fun acc ec =>
           match acc, snd ec with
           | Some constraints, VRef c =>
               match deref h c with
               | Some cfg =>
                   Some (dict_set constraints (fst ec)
                           [ (py "maxChars", Py.get_or cfg (py "maxChars") (VScalar (JInt 300)));
                             (py "maxLines", Py.get_or cfg (py "maxLines") (VScalar (JInt 5)));
                             (py "format", Py.get_or cfg (py "format") (VScalar (JStr (py "text")))) ])
               | None => None
               end
           | _, _ => None
           end)
        lo (Some [])
  end.

(** The loop [for element_type, overrides in responsive_overrides.items()]
    of [TemplateFiller._get_responsive_constraints]; [layout] is the
    address of the copied layout dict. *)
Fixpoint apply_overrides (h : store) (layout : loc) (items : obj) : option store :=
  match items with
  | [] => Some h
  | (element_type, ov) :: rest =>
      match deref h layout with
      | None => None
      | Some lo =>
          match Py.get lo element_type with
          | None => apply_overrides h layout rest              (* not in layout *)
          | Some (VRef target) =>
              match ov with
              | VRef other =>
                  match update_at h target other with
                  | Some h' => apply_overrides h' layout rest
                  | None => None
                  end
              | VScalar _ => None
              end
          | Some (VScalar _) => None
          end
      end
  end.

(** [slide.get("responsive", {}).get(breakpoint, {}).items()] *)
Definition responsive_items (h : store) (slide_obj : obj) (breakpoint : str) : option obj :=
  match Py.get slide_obj (py "responsive") with
  | None => Some []
  | Some (VScalar _) => None
  | Some (VRef r) =>
      match deref h r with
      | None => None
      | Some ro =>
          match Py.get ro breakpoint with
          | None => Some []
          | Some (VScalar _) => None
          | Some (VRef b) => deref h b
          end
      end
  end.

(** [TemplateFiller._get_responsive_constraints(slide, container_size)]:
    the store it leaves and the constraints it returns. *)
Definition _get_responsive_constraints (h : store) (slide : loc) (container_size : option config)
  : option (store * list (str * obj)) :=
  match deref h slide with
  | None => None
  | Some so =>
      match get_ref so (py "layout") with
      | None => None
      | Some base_layout =>
          match container_size with
          | None | Some [] =>
              option_map (fun c => (h, c)) (_extract_constraints h base_layout)
          | Some cs =>
              match Py.get_or cs (py "width") (JInt 800) with
              | JStr _ => None
              | JInt w =>
                  let breakpoint :=
                    if w <? 768 then py "mobile"
                    else if w <? 1024 then py "tablet" else py "desktop" in
                  (* layout = slide["layout"].copy(): a new outer dict whose
                     values are the same config objects *)
                  match deref h base_layout with
                  | None => None
                  | Some lo =>
                      let '(h1, layout) := alloc h lo in
                      match responsive_items h1 so breakpoint with
                      | None => None
                      | Some items =>
                          match apply_overrides h1 layout items with
                          | None => None
                          | Some h2 =>
                              option_map (fun c => (h2, c)) (_extract_constraints h2 layout)
                          end
                      end
                  end
              end
          end
      end
  end.

(** The store after [TemplateFiller.fill_template(template, topic,
    slide_index, container_size)] for the slide object at [slide]: the call
    of [_get_responsive_constraints] is the only statement of
    [fill_template] that writes to a dict (the filled content and the
    fallback copy are new dicts). *)
Definition fill_template_store (h : store) (slide : loc) (container_size : option config)
  : option store :=
  option_map fst (_get_responsive_constraints h slide container_size).

(** The loop of [TemplateService._merge_layout_config]: every config is
    copied into a new object before the overrides are applied to the copy. *)
Fixpoint merge_loop (h : store) (merged : loc) (overrides : obj) (items : obj) : option store :=
  match items with
  | [] => Some h
  | (element_type, cv) :: rest =>
      match cv with
      | VScalar _ => None
      | VRef c =>
          match deref h c, deref h merged with
          | Some cfg, Some mo =>
              let '(h1, copy) := alloc h cfg in
              let h2 := write h1 merged (dict_set mo element_type (VRef copy)) in
              match Py.get overrides element_type with
              | None => merge_loop h2 merged overrides rest
              | Some (VRef o) =>
                  match update_at h2 copy o with
                  | Some h3 => merge_loop h3 merged overrides rest
                  | None => None
                  end
              | Some (VScalar _) => None
              end
          | _, _ => None
          end
      end
  end.

(** [TemplateService._merge_layout_config(base_layout, responsive_overrides)] *)
Definition _merge_layout_config (h : store) (base_layout responsive_overrides : loc)
  : option (store * loc) :=
  match deref h base_layout, deref h responsive_overrides with
  | Some bo, Some ro =>
      let '(h1, merged) := alloc h [] in
      option_map (fun h' => (h', merged)) (merge_loop h1 merged ro bo)
  | _, _ => None
  end.

(** A cached slide as loaded from JSON: the heading's [maxChars] is 50,
    the mobile breakpoint overrides it with 30. *)
Definition cached_slide : store :=
  [ (* 0: the slide *)
    [ (py "id", VScalar (JStr (py "slide-1")));
      (py "layout", VRef 1%nat); (py "responsive", VRef 3%nat) ];
    (* 1: slide["layout"] *)
    [ (py "heading", VRef 2%nat) ];
    (* 2: slide["layout"]["heading"] *)
    [ (py "maxChars", VScalar (JInt 50)); (py "position", VScalar (JStr (py "center-top"))) ];
    (* 3: slide["responsive"] *)
    [ (py "mobile", VRef 4%nat) ];
    (* 4: slide["responsive"]["mobile"] *)
    [ (py "heading", VRef 5%nat) ];
    (* 5: slide["responsive"]["mobile"]["heading"] *)
    [ (py "maxChars", VScalar (JInt 30)) ] ].

Definition mobile_container : option config :=
  Some [ (py "width", JInt 375); (py "height", JInt 667) ].

End TemplateStore.

(* ===================================================================== *)
(** ** services/template_service.py: content element and rendering       *)
(* ===================================================================== *)

Module TemplateRender.

Import TemplateService.

Local Open Scope Z_scope.

(** The bullet character U+2022 and the line feed. *)
Definition bullet : str := [8226%N].
Definition newline : str := [10%N].

(** [_format_bullets] *)
Definition format_line (line : str) : str :=
  let line := Py.strip line in
  match line with
  | [] => line
  | _ :: _ =>
      if negb (Py.startswith bullet line) && negb (Py.startswith (py "-") line)
      then bullet ++ py " " ++ line
      else line
  end.

Definition _format_bullets (text : str) : str :=
  Py.join newline (map format_line (Py.split_on 10%N text)).

(** One iteration of the loop of [_wrap_single_line]; the state is
    [(lines, current_line)]. *)
Definition wrap_word (chars_per_line : Z) (st : list str * str) (word : str)
  : list str * str :=
  let '(lines, current_line) := st in
  if Py.len (current_line ++ py " " ++ word) <=? chars_per_line then
    (lines, match current_line with
            | [] => word
            | _ :: _ => current_line ++ py " " ++ word
            end)
  else
    (match current_line with
     | [] => lines
     | _ :: _ => lines ++ [current_line]
     end, word).

(** [if current_line: lines.append(current_line)] *)
Definition flush (st : list str * str) : list str :=
  match snd st with
  | [] => fst st
  | _ :: _ => fst st ++ [snd st]
  end.

Definition _wrap_single_line (text : str) (chars_per_line : Z) : list str :=
  flush (fold_left (wrap_word chars_per_line) (Py.split_ws text) ([], [])).

Definition _calculate_wrapped_lines (text : str) (chars_per_line : Z) : list str :=
  if Py.contains newline text then
    flat_map (fun paragraph =>
                if Py.len paragraph <=? chars_per_line then [paragraph]
                else _wrap_single_line paragraph chars_per_line)
             (Py.split_on 10%N text)
  else _wrap_single_line text chars_per_line.

(** [x / y] on floats: [None] is [ZeroDivisionError]. *)
Definition fdiv (x y : float) : option float :=
  if (y =? 0)%float then None else Some (x / y)%float.

(** [max(len(line) for line in lines)]: [None] is the [ValueError] of an
    empty sequence. *)
Definition max_len (lines : list str) : option Z :=
  match lines with
  | [] => None
  | l :: r => Some (fold_left (fun m x => Z.max m (Py.len x)) r (Py.len l))
  end.

(** [_create_content_element]; [None] when the Python raises (a [maxChars]
    that is not a number, a zero character width, no line to measure, no
    ["position"] key). *)
Definition _create_content_element (cfg : config) (text : str) (cs : ContainerSize)
           (base_font_size : Z) (heading_height : float) : option TemplateElement :=
  let font_size := base_font_size in
  match Py.get_or cfg (py "maxChars") (JInt 300) with
  | JStr _ => None
  | JInt max_chars =>
      let display_text := _truncate_text text max_chars in
      let display_text :=
        match Py.get cfg (py "format") with
        | Some (JStr f) => if Py.eqb f (py "bullets") then _format_bullets display_text
                           else display_text
        | _ => display_text
        end in
      let fs := PyFloat.of_Z font_size in
      let w := PyFloat.of_Z (width cs) in
      let char_width := (fs * 0.6)%float in
      let line_height := (fs * 1.6)%float in
      let padding := PyFloat.max2 (PyFloat.of_Z 20) (w * 0.05)%float in
      let max_width := (w - 2 * padding)%float in
      match fdiv max_width char_width with
      | None => None
      | Some q =>
          match PyFloat.to_int q with
          | None => None
          | Some chars_per_line =>
              let lines := _calculate_wrapped_lines display_text chars_per_line in
              match max_len lines with
              | None => None
              | Some longest =>
                  let text_width :=
                    PyFloat.min2 max_width (PyFloat.of_Z longest * char_width)%float in
                  let text_height := (PyFloat.of_Z (Py.len_list lines) * line_height)%float in
                  match Py.get cfg (py "position") with
                  | None => None
                  | Some position =>
                      let below_heading :=
                        if (0 <? heading_height)%float then (heading_height + 30)%float
                        else (padding + fs)%float in
                      let centered :=
                        match position with
                        | JStr p => Py.eqb p (py "center-middle")
                        | JInt _ => false
                        end in
                      let x := if centered then ((w - text_width) / 2)%float else padding in
                      let y :=
                        if centered
                        then PyFloat.max2 (heading_height + 30)%float
                               ((PyFloat.of_Z (height cs) - text_height) / 2)%float
                        else below_heading in
                      Some {| el_id := py "content";
                              el_type := py "text";
                              el_x := x;
                              el_y := y;
                              el_width := text_width;
                              el_height := text_height;
                              el_text := Py.join newline lines;
                              fontSize := font_size;
                              alignment := Py.get_or cfg (py "alignment") (JStr (py "left"));
                              color := py "#374151";
                              backgroundColor := py "transparent" |}
                  end
              end
          end
      end
  end.

(** [_calculate_elements] *)
Definition _calculate_elements (layout : list (str * config)) (dummy_data : list (str * str))
           (cs : ContainerSize) : option (list TemplateElement) :=
  let base_font_size := _calculate_base_font_size cs in
  let heading :=
    match Py.get layout (py "heading"), Py.get dummy_data (py "heading") with
    | Some cfg, Some text =>
        option_map (fun e => [e]) (_create_heading_element cfg text cs base_font_size)
    | _, _ => Some []
    end in
  match heading with
  | None => None
  | Some elements =>
      match Py.get layout (py "content"), Py.get dummy_data (py "content") with
      | Some cfg, Some text =>
          let heading_height :=
            match elements with
            | e :: _ => (el_height e + el_y e)%float
            | [] => 0%float
            end in
          option_map (fun e => elements ++ [e])
            (_create_content_element cfg text cs base_font_size heading_height)
      | _, _ => Some elements
      end
  end.

(** A layout with a content element at the left. *)
Definition left_content : config := [ (py "position", JStr (py "left-content")) ].

Definition desktop : ContainerSize := {| width := 1200; height := 800 |}.

(** A catalog with two templates of the category "definition". *)
Definition two_definitions : cache :=
  [ (py "definition-1",
     {| t_id := py "definition-1"; t_name := py "Definition";
        t_description := py "A plain layout"; t_category := Some (py "definition");
        t_templateVariant := Some 1; t_slides := [] |});
    (py "definition-2",
     {| t_id := py "definition-2"; t_name := py "Clear definition";
        t_description := py "A clear and focused layout"; t_category := Some (py "definition");
        t_templateVariant := Some 2; t_slides := [] |}) ].

Definition intermediate_context : score_context :=
  {| sc_difficulty_level := py "intermediate"; sc_content_complexity := 3;
     sc_teaching_approach := None |}.

End TemplateRender.

(* ===================================================================== *)
(** ** More of Python's [str]: [find] and slices                          *)
(* ===================================================================== *)

Module PyText.

Local Open Scope Z_scope.

(** A slice bound as Python normalises it: a negative bound counts from
    the end, and the result is clamped to [0, len]. *)
Definition bound (i : Z) (x : str) : Z :=
  if i <? 0 then Z.max 0 (Py.len x + i) else Z.min i (Py.len x).

(** [x[a:b]] *)
Definition slice (a b : Z) (x : str) : str :=
  let na := bound a x in
  let nb := bound b x in
  firstn (Z.to_nat (nb - na)) (skipn (Z.to_nat na) x).

(** The first index at which [p] occurs in [x], counted from [i]; -1 when
    there is none. *)
Fixpoint find_go (p x : str) (i : Z) : Z :=
  if Py.startswith p x then i
  else match x with
       | [] => -1
       | _ :: r => find_go p r (i + 1)
       end.

(** [x.find(p, start)] *)
Definition find (p x : str) (start : Z) : Z :=
  let st := if start <? 0 then Z.max 0 (Py.len x + start) else start in
  if Py.len x <? st then -1 else find_go p (skipn (Z.to_nat st) x) st.

(** [x.count(c)] for a one-character needle. *)
Definition count (c : char) (x : str) : Z :=
  Z.of_nat (List.length (filter (N.eqb c) x)).

(** [x.endswith(p)] *)
Definition endswith (p x : str) : bool := Py.startswith (rev p) (rev x).

End PyText.

(* ===================================================================== *)
(** ** services/template_service.py: loading the catalog                 *)
(* ===================================================================== *)

Module TemplateCatalog.

Import TemplateService.

(** The loop of [_load_templates] over the "templates" list of the JSON
    file: [self.templates_cache[template["id"]] = template]. *)
Definition _load_templates (templates : list template) : cache :=
  fold_left (fun templates_cache t => dict_set templates_cache (t_id t) t) templates [].

(** Every template is stored under its own id. *)
Definition keyed_by_id (c : cache) : Prop := Forall (fun kt => fst kt = t_id (snd kt)) c.

(** The head of a scored list has the highest score. *)
Definition head_is_best {T : Type} (l : list (T * Q)) : Prop :=
  match l with
  | [] => True
  | b :: r => forall y, In y r -> (snd y <= snd b)%Q
  end.

End TemplateCatalog.

(* ===================================================================== *)
(** ** services/lesson_structure_service.py: the LLM's JSON answer        *)
(* ===================================================================== *)

Module LessonAnalysis.

Import Regex PyText.

Local Open Scope Z_scope.

(** [pattern.search]: the groups of the leftmost match. *)
Fixpoint search_go (r : re) (prev : option char) (s : str) : option caps :=
  match match_here r prev s false with
  | Some (_, cs) => Some cs
  | None =>
      match s with
      | [] => None
      | c :: t => search_go r (Some c) t
      end
  end.

Definition search (r : re) (s : str) : option caps := search_go r None s.

(** Any code point ([.] under DOTALL). *)
Definition anything : cls := none_of [].

(** Three backticks, an optional "json" (IGNORECASE), white space, an
    optional line feed, group 1: as few code points as possible (DOTALL),
    an optional line feed, three backticks. *)
Definition markdown_pattern : re :=
  seq_of [ lits "```"; opt (ilits "json"); star space; opt (Chr (lit 10%N));
           Grp 1 (Rep false 0 anything); opt (Chr (lit 10%N)); lits "```" ].

(** The end of the pattern, and what follows the opening fence and the
    language. *)
Definition fence_tail : re := Seq (opt (Chr (lit 10%N))) (lits "```").

Definition after_opening : re :=
  Seq (star space) (Seq (opt (Chr (lit 10%N)))
    (Seq (Grp 1 (Rep false 0 anything)) fence_tail)).

(** [_extract_json_from_markdown]; [re.findall(...)[0]] is group 1 of the
    leftmost match. *)
Definition _extract_json_from_markdown (content : str) : str :=
  let content := Py.strip content in
  match search markdown_pattern content with
  | Some cs => Py.strip (get_cap 1 cs)
  | None =>
      let start_idx := find (py "{") content 0 in
      let end_idx := Py.rfind 125%N content in
      if negb (start_idx =? -1) && negb (end_idx =? -1) && (end_idx >? start_idx)
      then slice start_idx (end_idx + 1) content
      else content
  end.

End LessonAnalysis.

(* ===================================================================== *)
(** ** services/ai_tutor_service.py: prompts, narration, timeline         *)
(* ===================================================================== *)

Module AITutor.

Import PyText.

Local Open Scope Z_scope.

Fixpoint _extract_topic_from_prompts (content_prompts : list (str * str)) : str :=
  match content_prompts with
  | [] => py "Educational Topic"
  | (_, prompt) :: rest =>
      if Py.contains (py "Topic: ") prompt then
        let topic_start := find (py "Topic: ") prompt 0 + 7 in
        let topic_end := find (py ".") prompt topic_start in
        if negb (topic_end =? -1)
        then Py.strip (slice topic_start topic_end prompt)
        else _extract_topic_from_prompts rest
      else _extract_topic_from_prompts rest
  end.

Fixpoint _extract_difficulty_from_prompts (content_prompts : list (str * str)) : str :=
  match content_prompts with
  | [] => py "intermediate"
  | (_, prompt) :: rest =>
      if Py.contains (py "Difficulty: ") prompt then
        let difficulty_start := find (py "Difficulty: ") prompt 0 + 12 in
        let difficulty_end := find (py ".") prompt difficulty_start in
        if negb (difficulty_end =? -1) then
          let difficulty := Py.strip (slice difficulty_start difficulty_end prompt) in
          if existsb (Py.eqb difficulty) [py "beginner"; py "intermediate"; py "advanced"]
          then difficulty
          else _extract_difficulty_from_prompts rest
        else _extract_difficulty_from_prompts rest
      else _extract_difficulty_from_prompts rest
  end.

End AITutor.

(* ===================================================================== *)
(** ** What the sanitizers remove                                        *)
(* ===================================================================== *)

Module Markup.

Import Regex.

Local Open Scope N_scope.

(** The code points of the six emoji statements of the TTS sanitizers. *)
Definition emoji_ranges : list (char * char) :=
  [ (128512, 128591); (127744, 128511); (128640, 128767);
    (127456, 127487); (9986, 10160); (9410, 127569) ].

(** The formatting characters [_sanitize_llm_output] removes at last:
    the asterisk, the underscore, the hash, the backtick, the tilde and
    the square brackets. *)
Definition llm_markup : list (char * char) :=
  [ (42, 42); (95, 95); (35, 35); (96, 96); (126, 126); (91, 91); (93, 93) ].

(** The literal text of a replacement has no code point of the ranges. *)
Definition repl_free (rs : list (char * char)) (repl : list titem) : bool :=
  forallb (fun it => match it with
                     | TLit x => forallb (fun c => negb (in_ranges rs c)) x
                     | TGroup _ => true
                     end) repl.

(** Length of the leading run of code points of a class. *)
Fixpoint run_len (p : cls) (s : str) : nat :=
  match s with
  | c :: t => if cls_match p c then S (run_len p t) else O
  | [] => O
  end.

(** No captured text has a code point of the ranges. *)
Definition caps_free (rs : list (char * char)) (cs : caps) : Prop :=
  Forall (fun kv => free rs (snd kv)) cs.

End Markup.

(* ===================================================================== *)
(** ** services/template_filling_service.py: filling from structured
       prompts                                                           *)
(* ===================================================================== *)

Module StructuredFill.

Import Regex TemplateService.

Local Open Scope Z_scope.

(** [_get_default_max_chars] *)
Definition _get_default_max_chars (field_name : str) : Z :=
  Py.get_or [ (py "heading", 60); (py "title", 60); (py "content", 280);
              (py "body", 280); (py "text", 280); (py "description", 200);
              (py "summary", 150); (py "objective", 120) ] field_name 200.

(** [_get_default_max_lines] *)
Definition _get_default_max_lines (field_name : str) : Z :=
  Py.get_or [ (py "heading", 1); (py "title", 1); (py "content", 5);
              (py "body", 5); (py "text", 4); (py "description", 3);
              (py "summary", 3); (py "objective", 2) ] field_name 3.

(** The constraints of a field the slide has none for. *)
Definition default_constraints (field_name : str) : config :=
  [ (py "maxChars", JInt (_get_default_max_chars field_name));
    (py "maxLines", JInt (_get_default_max_lines field_name));
    (py "format", JStr (py "text")) ].

(** [v == 1] for a JSON scalar. *)
Definition is_one (v : jv) : bool :=
  match v with
  | JInt z => z =? 1
  | JStr _ => false
  end.

Definition difficulty_instructions : list (str * str) :=
  [ (py "beginner", py " Use simple language and avoid jargon. Be clear and concise.");
    (py "intermediate", py " Use clear explanations with appropriate technical terms.");
    (py "advanced", py " Provide detailed explanations with precise terminology.") ].

(** [_enhance_prompt_with_constraints] *)
Definition _enhance_prompt_with_constraints (prompt : str) (constraints : config)
           (difficulty_level : str) : str :=
  let enhanced_prompt := prompt in
  let max_chars := Py.get_or constraints (py "maxChars") (JInt 200) in
  let enhanced_prompt :=
    enhanced_prompt ++ py " Keep response under " ++ TemplateFilling.str_of_jv max_chars
                    ++ py " characters." in
  let max_lines := Py.get_or constraints (py "maxLines") (JInt 3) in
  let enhanced_prompt :=
    if is_one max_lines
    then enhanced_prompt ++ py " Provide a single line response."
    else enhanced_prompt ++ py " Use maximum " ++ TemplateFilling.str_of_jv max_lines
                         ++ py " lines." in
  let enhanced_prompt :=
    enhanced_prompt ++ Py.get_or difficulty_instructions difficulty_level [] in
  let enhanced_prompt :=
    enhanced_prompt ++ py " IMPORTANT: Stay strictly on the given topic. Do not include unrelated examples, analogies, or information from other subjects." in
  let enhanced_prompt :=
    enhanced_prompt ++ py " CRITICAL: Respond with plain text only. Do not use markdown formatting, asterisks ("
                    ++ [42%N]
                    ++ py "), underscores (_), hash symbols (#), or any special formatting symbols. Do not include character counts or word counts in your response." in
  if TemplateFilling.is_bullets (Py.get_or constraints (py "format") (JStr (py "text")))
  then enhanced_prompt ++ py " Format as bullet points using " ++ TemplateFilling.bullet
                       ++ py " symbols."
  else enhanced_prompt.

Definition obvious_placeholders : list str :=
  [ py "{{"; py "}}"; py "placeholder"; py "TODO"; py "TBD";
    py "insert here"; py "add here"; py "fill in"; py "[REPLACE" ].

Definition off_topic_indicators : list str :=
  [ py "dna"; py "genetic"; py "biology"; py "chromosome";
    py "cooking"; py "recipe"; py "ingredient";
    py "weather"; py "climate"; py "temperature";
    py "sports"; py "football"; py "basketball" ].

Definition min_lengths : list (str * Z) :=
  [ (py "heading", 3); (py "title", 3); (py "content", 10); (py "body", 10);
    (py "text", 5) ].

(** [_is_content_acceptable] *)
Definition _is_content_acceptable (content field_name : str) : bool :=
  match content with
  | [] => false
  | _ :: _ =>
      if Py.eqb (Py.strip content) [] then false
      else
        let content_lower := Py.lower content in
        if existsb (fun indicator => Py.contains indicator content_lower) obvious_placeholders
        then false
        else
          let off_topic_count :=
            Py.len_list (filter (fun indicator => Py.contains indicator content_lower)
                                off_topic_indicators) in
          if 2 <=? off_topic_count then false
          else if Py.contains (py "**") content || (PyText.count 42%N content >? 3) then false
          else
            let min_length := Py.get_or min_lengths field_name 3 in
            if Py.len (Py.strip content) <? min_length then false else true
  end.

(** [_get_fallback_content] *)
Definition _get_fallback_content (field_name : str) : str :=
  Py.get_or
    [ (py "heading", py "Key Learning Concepts");
      (py "title", py "Understanding the Topic");
      (py "content", py "This section covers essential information that builds your understanding of the key concepts step by step.");
      (py "body", py "Important educational content is presented here to support effective learning and comprehension.");
      (py "text", py "Essential information about the core concepts.");
      (py "description", py "Detailed explanation of the fundamental principles.");
      (py "summary", py "Key takeaways that reinforce your understanding.");
      (py "objective", py "Students will gain clear understanding of essential concepts.") ]
    field_name (py "Quality educational content supports effective learning.").

(** What a retry adds to the prompt. *)
Definition focus_suffix : str :=
  py " Focus strictly on the specified topic. Avoid unrelated content or examples from other domains.".

(** Metadata values of a filled template. *)
Inductive meta_value :=
| MStr (s : str)
| MConstraints (c : list (str * config)).

(** The [FilledTemplate] dataclass, its metadata as the dict it is. *)
Record FilledTemplate := {
  template_id : str;
  topic : str;
  slide_index : Z;
  filled_content : list (str * str);
  metadata : list (str * meta_value);
  is_fallback : bool
}.

Section Retry.

(** [\d] of the interpreter (Unicode decimal digits). *)
Variable decimal : char -> bool.

(** The LLM service, if there is one; it answers the [n]-th call of
    [_call_llm]. *)
Variable ollama_service : option TemplateFilling.llm.

(** The loop of [_call_llm_with_retry] from [attempt] on, with [left]
    rounds of [range(max_retries + 1)] to go; [n] counts the calls of
    [_call_llm] made so far.  The result is the content returned and the
    count of calls after it.  Every exception of a round is caught by the
    round's handler. *)
Fixpoint retry_from (prompt : str) (constraints : config) (field_name : str)
         (max_retries : Z) (attempt : Z) (left : nat) (n : nat) : str * nat :=
  match left with
  | O => (_get_fallback_content field_name, n)
  | S left' =>
      let sent := if 0 <? attempt then prompt ++ focus_suffix else prompt in
      match TemplateFilling._call_llm ollama_service n sent constraints with
      | Some raw_content =>
          let content := TemplateFilling._sanitize_llm_output decimal raw_content in
          if _is_content_acceptable content field_name then (content, S n)
          else if attempt =? max_retries then (_get_fallback_content field_name, S n)
          else retry_from prompt constraints field_name max_retries (attempt + 1) left' (S n)
      | None =>
          if attempt =? max_retries then (_get_fallback_content field_name, S n)
          else retry_from prompt constraints field_name max_retries (attempt + 1) left' (S n)
      end
  end.

(** [_call_llm_with_retry] *)
Definition _call_llm_with_retry (prompt : str) (constraints : config) (field_name : str)
           (max_retries : Z) (n : nat) : str * nat :=
  retry_from prompt constraints field_name max_retries 0 (Z.to_nat (max_retries + 1)) n.

(** One round of the loop of [_generate_content_from_structured_prompts];
    the retries are made with the default [max_retries = 2].  Nothing in
    the round raises, so its handler is not reached. *)
Definition fill_field (constraints : list (str * config)) (difficulty_level : str)
           (st : list (str * str) * nat) (fp : str * str) : list (str * str) * nat :=
  let '(filled_content, n) := st in
  let '(field_name, prompt) := fp in
  let field_constraints := Py.get_or constraints field_name (default_constraints field_name) in
  let enhanced_prompt :=
    _enhance_prompt_with_constraints prompt field_constraints difficulty_level in
  let '(generated_content, n') :=
    _call_llm_with_retry enhanced_prompt field_constraints field_name 2 n in
  (dict_set filled_content field_name generated_content, n').

(** [_generate_content_from_structured_prompts] *)
Definition _generate_content_from_structured_prompts (content_prompts : list (str * str))
           (constraints : list (str * config)) (difficulty_level : str) : list (str * str) :=
  fst (fold_left (fill_field constraints difficulty_level) content_prompts ([], O)).

(** [fill_template_with_prompts]; [None] when it raises (slide index out
    of range, a container width that is not a number).  The content
    generation does not raise, so the fallback of the handler is not
    reached. *)
Definition fill_template_with_prompts (t : template) (content_prompts : list (str * str))
           (topic difficulty_level : str) (slide_index : Z) (container_size : option config)
  : option FilledTemplate :=
  match TemplateFilling.slide_at t slide_index with
  | None => None
  | Some sl =>
      match TemplateFilling._get_responsive_constraints sl container_size with
      | None => None
      | Some constraints =>
          let filled_content :=
            _generate_content_from_structured_prompts content_prompts constraints
              difficulty_level in
          Some {| template_id := t_id t;
                  topic := topic;
                  slide_index := slide_index;
                  filled_content := filled_content;
                  metadata := [ (py "generation_method", MStr (py "structured_prompts"));
                                (py "template_name", MStr (t_name t));
                                (py "constraints", MConstraints constraints);
                                (py "slide_id", MStr (s_id sl));
                                (py "difficulty_level", MStr difficulty_level) ];
                  is_fallback := false |}
      end
  end.

End Retry.

End StructuredFill.

(* ===================================================================== *)
(** ** services/tts_service.py: chunks for streaming                     *)
(* ===================================================================== *)

Module TTSChunks.

Import Regex.

Local Open Scope Z_scope.

Record TextChunk := {
  text : str;
  index : Z;
  chunk_id : str
}.

(** [re.split(pattern, s)] for a pattern without groups that matches no
    empty string: the text between the leftmost matches, left to right.
    [skip] counts the characters of the last match still to pass over,
    [cur] holds the piece being read, reversed. *)
Fixpoint split_go (r : re) (prev : option char) (s : str) (skip : nat) (cur : str)
  : list str :=
  match s with
  | [] => [rev cur]
  | c :: t =>
      match skip with
      | S n => split_go r (Some c) t n cur
      | O =>
          match match_here r prev s false with
          | Some (S n, _) => rev cur :: split_go r (Some c) t n []
          | _ => split_go r (Some c) t 0 (c :: cur)
          end
      end
  end.

Definition re_split (r : re) (s : str) : list str := split_go r None s 0 [].

(** The characters that end a sentence. *)
Definition enders : cls := any_of [Lit 46%N; Lit 33%N; Lit 63%N].

(** "[.!?]+\s*" *)
Definition sentence_endings : re := Seq (plus enders) (star space).

Definition nonempty (x : str) : bool :=
  match x with
  | [] => false
  | _ :: _ => true
  end.

(** The sentences [_split_text_into_chunks] packs into chunks. *)
Definition sentences_of (text : str) : list str :=
  map Py.strip
      (filter (fun s => nonempty (Py.strip s)) (re_split sentence_endings (Py.strip text))).

Section Chunks.

(** [hashlib.sha256(x.encode()).hexdigest()[:16]] *)
Variable sha256_hex16 : str -> str.

Definition make_chunk (current_chunk : str) (chunk_index : Z) : TextChunk :=
  {| text := Py.strip current_chunk;
     index := chunk_index;
     chunk_id := sha256_hex16 (current_chunk ++ py "_" ++ Py.str_of_Z chunk_index) |}.

(** One round of the loop over the sentences; the state is
    [(chunks, current_chunk, chunk_index)]. *)
Definition add_sentence (max_chunk_size : Z) (st : list TextChunk * str * Z) (sentence : str)
  : list TextChunk * str * Z :=
  let '(chunks, current_chunk, chunk_index) := st in
  if nonempty current_chunk
     && (Py.len current_chunk + Py.len sentence + 1 >? max_chunk_size)
  then (chunks ++ [make_chunk current_chunk chunk_index], sentence, chunk_index + 1)
  else (chunks,
        (if nonempty current_chunk then current_chunk ++ py " " ++ sentence else sentence),
        chunk_index).

(** [if current_chunk.strip(): chunks.append(...)] *)
Definition last_chunk (st : list TextChunk * str * Z) : list TextChunk :=
  let '(chunks, current_chunk, chunk_index) := st in
  if nonempty (Py.strip current_chunk)
  then chunks ++ [make_chunk current_chunk chunk_index]
  else chunks.

(** The texts of the chunks made so far and of the one being filled. *)
Definition pending (st : list TextChunk * str * Z) : list str :=
  let '(chunks, current_chunk, _) := st in
  map text chunks ++ (if nonempty current_chunk then [current_chunk] else []).

(** [_split_text_into_chunks] *)
Definition _split_text_into_chunks (text : str) (max_chunk_size : Z) : list TextChunk :=
  match Py.strip text with
  | [] => []
  | _ :: _ =>
      last_chunk (fold_left (add_sentence max_chunk_size) (sentences_of text) ([], [], 0))
  end.

End Chunks.

(** A text that is not empty, has no whitespace at its ends and
    satisfies [P]. *)
Definition good (P : str -> Prop) (x : str) : Prop :=
  x <> [] /\ Py.strip x = x /\ P x.

End TTSChunks.

(* ===================================================================== *)
(** ** routers/lesson.py: serving the merged audio                       *)
(* ===================================================================== *)

Module MergedAudio.

Import Regex.

Local Open Scope Z_scope.

Definition bytes := list Byte.byte.

(** The response of [get_lesson_merged_audio] once the merged file is
    found: the status, the [Content-Range] header as
    [(start, end, file_size)], the [Content-Length] header and the
    chunks streamed. *)
Record response := {
  status_code : Z;
  content_range : option (Z * Z * Z);
  content_length : Z;
  body : list bytes
}.

(** [file.read(n)] with [rest] left in the file; a negative [n] reads
    all of it. *)
Definition read (n : Z) (rest : bytes) : bytes :=
  if n <? 0 then rest else firstn (Z.to_nat n) rest.

(** The loop of [iter_file_range]; every round that goes on takes at
    least one byte off [remaining], so [rounds] starts at [remaining]. *)
Fixpoint read_range (rounds : nat) (rest : bytes) (remaining chunk_size : Z) : list bytes :=
  match rounds with
  | O => []
  | S rounds' =>
      if 0 <? remaining then
        let chunk_size := Z.min chunk_size remaining in
        let chunk := read chunk_size rest in
        match chunk with
        | [] => []
        | _ :: _ =>
            chunk :: read_range rounds' (skipn (List.length chunk) rest)
                       (remaining - Z.of_nat (List.length chunk)) chunk_size
        end
      else []
  end.

(** [iter_file_range(file_path, start, end, chunk_size)] on a file with
    the content [data]. *)
Definition iter_file_range (data : bytes) (start end_ chunk_size : Z) : list bytes :=
  read_range (Z.to_nat (end_ - start + 1)) (skipn (Z.to_nat start) data)
             (end_ - start + 1) chunk_size.

(** The loop of [iterfile]; every round that yields takes at least one
    byte, so [rounds] starts at the length of the file. *)
Fixpoint read_all (rounds : nat) (rest : bytes) (chunk_size : Z) : list bytes :=
  match rounds with
  | O => []
  | S rounds' =>
      match read chunk_size rest with
      | [] => []
      | chunk => chunk :: read_all rounds' (skipn (List.length chunk) rest) chunk_size
      end
  end.

Definition iterfile (data : bytes) (chunk_size : Z) : list bytes :=
  read_all (List.length data) data chunk_size.

Section Serve.

(** The decimal digits of the interpreter: the value of a character of
    category Nd, which is what [\d] matches and [int] reads. *)
Variable digit_value : char -> option Z.

Definition decimal (c : char) : bool :=
  match digit_value c with
  | Some _ => true
  | None => false
  end.

(** [int(x)] for a string of decimal digits. *)
Definition int_of (x : str) : Z :=
  fold_left (fun acc c => 10 * acc + match digit_value c with Some v => v | None => 0 end) x 0.

(** The pattern of the Range header: bytes=, group 1 of one or more
    digits, a hyphen, group 2 of any number of digits. *)
Definition range_pattern : re :=
  seq_of [lits "bytes="; Grp 1 (plus (table decimal)); lits "-"; Grp 2 (star (table decimal))].

Definition get_lesson_merged_audio (data : bytes) (range_header : option str) : response :=
  let file_size := Z.of_nat (List.length data) in
  let complete :=
    {| status_code := 200; content_range := None; content_length := file_size;
       body := iterfile data 8192 |} in
  match range_header with
  | Some (c :: h) =>
      match match_here range_pattern None (c :: h) false with
      | Some (_, range_match) =>
          let start := int_of (get_cap 1 range_match) in
          let end_ := match get_cap 2 range_match with
                      | [] => file_size - 1
                      | g => int_of g
                      end in
          let start := Z.max 0 (Z.min start (file_size - 1)) in
          let end_ := Z.max start (Z.min end_ (file_size - 1)) in
          let content_length := end_ - start + 1 in
          {| status_code := 206; content_range := Some (start, end_, file_size);
             content_length := content_length;
             body := iter_file_range data start end_ 8192 |}
      | None => complete
      end
  | _ => complete
  end.

End Serve.

(** The value of an ASCII digit, a digit table for examples. *)
Definition ascii_digit_value (c : char) : option Z :=
  if ((48 <=? c) && (c <=? 57))%N then Some (Z.of_N c - 48) else None.

(** A file of six bytes for examples. *)
Definition six_bytes : bytes :=
  [Byte.x52; Byte.x49; Byte.x46; Byte.x46; Byte.x00; Byte.x01].

End MergedAudio.

(* ===================================================================== *)
(** ** utils/audio_merger.py: merging with crossfade                     *)
(* ===================================================================== *)

Module Crossfade.

Import AudioMerger.

Local Open Scope Z_scope.

(** pydub's [a.append(b, crossfade=c)]; [None] when it raises (a
    crossfade longer than one of the two clips). *)
Class PydubAppend (P : Pydub) := {
  append : AudioSegment -> AudioSegment -> Z -> option AudioSegment
}.

(** What pydub documents about the length of a crossfaded append: the
    two clips overlap by the crossfade. *)
Class PydubAppendLength (P : Pydub) (A : PydubAppend P) : Prop := {
  ms_append : forall a b c r, append a b c = Some r -> ms r = ms a + ms b - c
}.

Section Merger.

Context {P : Pydub} {A : PydubAppend P}.

(** The loop over [enumerate(audio_file_paths[1:], 1)] of the crossfade
    branch; [n] is [len(audio_file_paths)]; [None] when a file cannot be
    decoded or the append raises. *)
Fixpoint crossfade_rest (fs : files) (m : merger) (segment_info : list segment)
         (n : Z) (i : nat) (rest : list str)
         (merged_audio : AudioSegment) (updated_segments : list segment) (current_time_ms : Z)
  : option (AudioSegment * list segment * Z) :=
  match rest with
  | [] => Some (merged_audio, updated_segments, current_time_ms)
  | audio_path :: rest' =>
      match from_file fs audio_path with
      | None => None
      | Some next_audio =>
          match append merged_audio next_audio (crossfade_duration_ms m) with
          | None => None
          | Some merged_audio =>
              match nth_error segment_info i with
              | Some info =>
                  let segment_duration_ms := ms next_audio in
                  let segment_duration_ms :=
                    if Z.of_nat i <? n - 1
                    then segment_duration_ms - crossfade_duration_ms m
                    else segment_duration_ms in
                  crossfade_rest fs m segment_info n (S i) rest' merged_audio
                    (updated_segments ++ [retimed info current_time_ms segment_duration_ms])
                    (current_time_ms + segment_duration_ms)
              | None =>
                  crossfade_rest fs m segment_info n (S i) rest' merged_audio
                    updated_segments current_time_ms
              end
          end
      end
  end.

(** [merge_audio_files]; [MergeFailed] stands for the exception the
    handler of either branch raises. *)
Definition merge_audio_files (fs : files) (m : merger)
           (audio_file_paths : list str) (output_path : str)
           (segment_info : list segment) (use_silence_padding : bool)
  : result (str * Q * list segment) :=
  if use_silence_padding
  then merge_audio_files_with_silence fs m audio_file_paths output_path segment_info 50
  else
    match audio_file_paths with
    | [] => Err NoAudioFiles
    | first_path :: rest =>
        match find (fun p => negb (path_exists fs p)) audio_file_paths with
        | Some missing => Err (AudioFileNotFound missing)
        | None =>
            match from_file fs first_path with
            | None => Err MergeFailed
            | Some merged_audio =>
                let n := Py.len_list audio_file_paths in
                let '(updated_segments, current_time_ms) :=
                  match segment_info with
                  | info :: _ =>
                      let segment_duration_ms := ms merged_audio in
                      let segment_duration_ms :=
                        if n >? 1 then segment_duration_ms - crossfade_duration_ms m
                        else segment_duration_ms in
                      ([retimed info 0 segment_duration_ms], 0 + segment_duration_ms)
                  | [] => ([], 0)
                  end in
                match crossfade_rest fs m segment_info n 1 rest
                        merged_audio updated_segments current_time_ms with
                | None => Err MergeFailed
                | Some (merged_audio, updated_segments, _) =>
                    if export_ok fs
                    then Ok (output_path, seconds (ms merged_audio), updated_segments)
                    else Err MergeFailed
                end
            end
        end
    end.

End Merger.

(** The crossfaded append of the example pydub, where an audio is its
    length: it raises when the crossfade is longer than a clip. *)
Definition ms_append_example : PydubAppend ms_pydub :=
  {| append := fun (a b : @AudioSegment ms_pydub) c =>
                 if (c >? a) || (c >? b) then None else Some (a + b - c) |}.

(** Each segment starts where the one before it ends. *)
Definition gapless (segs : list segment) : Prop :=
  forall k s1 s2,
    nth_error segs k = Some s1 -> nth_error segs (S k) = Some s2 ->
    start_time s2 = end_time s1.

End Crossfade.

(* ===================================================================== *)
(** * Verification                                                       *)
(* ===================================================================== *)

(** ** Facts about the Python built-ins *)

Module PyFacts.

Lemma py_eqb_eq a b : Py.eqb a b = true <-> a = b.
Proof. unfold Py.eqb. destruct (list_eq_dec N.eq_dec a b); split; congruence. Qed.

Lemma py_eqb_refl a : Py.eqb a a = true.
Proof. now apply py_eqb_eq. Qed.

Lemma sum_acc (l : list Q) (a : Q) : (fold_left Qplus l a == a + fold_left Qplus l 0)%Q.
Proof.
  revert a. induction l as [|x l IH]; intros a; simpl.
  - ring.
  - rewrite (IH (a + x)%Q), (IH (0 + x)%Q). ring.
Qed.

Lemma sum_cons (x : Q) (l : list Q) : (Py.sum (x :: l) == x + Py.sum l)%Q.
Proof. unfold Py.sum. simpl. rewrite sum_acc. ring. Qed.

Lemma sum_map_ext {A} (f g : A -> Q) (l : list A) :
  (forall a, In a l -> (f a == g a)%Q) -> (Py.sum (map f l) == Py.sum (map g l))%Q.
Proof.
  induction l as [|a l IH]; intros H; simpl.
  - reflexivity.
  - rewrite !sum_cons.
    assert (E1 : (f a == g a)%Q) by (apply H; simpl; auto).
    assert (E2 : (Py.sum (map f l) == Py.sum (map g l))%Q) by (apply IH; intros; apply H; simpl; auto).
    rewrite E1, E2. reflexivity.
Qed.

Lemma sum_map_scale {A} (f : A -> Q) (k : Q) (l : list A) :
  (Py.sum (map (fun a => f a * k) l) == Py.sum (map f l) * k)%Q.
Proof.
  induction l as [|a l IH]; simpl.
  - unfold Py.sum; simpl. ring.
  - rewrite !sum_cons, IH. ring.
Qed.

Lemma sum_map_le {A} (f g : A -> Q) (l : list A) :
  (forall a, In a l -> (f a <= g a)%Q) -> (Py.sum (map f l) <= Py.sum (map g l))%Q.
Proof.
  induction l as [|a l IH]; intros H; simpl.
  - apply Qle_refl.
  - rewrite !sum_cons. apply Qplus_le_compat.
    + apply H; simpl; auto.
    + apply IH. intros; apply H; simpl; auto.
Qed.

Lemma max2_ge_l a b : (a <= Py.max2 a b)%Q.
Proof.
  unfold Py.max2. destruct (Qle_bool b a) eqn:E.
  - apply Qle_refl.
  - apply Qlt_le_weak, Qnot_le_lt. intros H. apply Qle_bool_iff in H. congruence.
Qed.

Lemma max2_ge_r a b : (b <= Py.max2 a b)%Q.
Proof.
  unfold Py.max2. destruct (Qle_bool b a) eqn:E.
  - now apply Qle_bool_iff.
  - apply Qle_refl.
Qed.

Lemma max2_of_le a b : (a <= b)%Q -> (Py.max2 a b == b)%Q.
Proof.
  intros H. unfold Py.max2. destruct (Qle_bool b a) eqn:E.
  - apply Qle_bool_iff in E. now apply Qle_antisym.
  - reflexivity.
Qed.

Lemma len_app a b : Py.len (a ++ b) = Py.len a + Py.len b.
Proof. unfold Py.len. rewrite length_app. lia. Qed.

Lemma len_take_le_len n x : Py.len (Py.take n x) <= Py.len x.
Proof. unfold Py.len, Py.take. rewrite length_firstn. lia. Qed.

Lemma len_take_le n x : 0 <= n -> Py.len (Py.take n x) <= n.
Proof.
  intros Hn. unfold Py.len, Py.take, Py.slice_bound.
  destruct (n <? 0) eqn:E; [apply Z.ltb_lt in E; lia|].
  rewrite length_firstn. lia.
Qed.

Lemma len_take_exact n x : 0 <= n <= Py.len x -> Py.len (Py.take n x) = n.
Proof.
  intros Hn. unfold Py.len, Py.take, Py.slice_bound in *.
  destruct (n <? 0) eqn:E; [apply Z.ltb_lt in E; lia|].
  rewrite length_firstn. lia.
Qed.

End PyFacts.

(** ** Lesson structure planner *)

Module PlannerFacts.

Import PyFacts TemplateService LessonStructure.

(** *** Template catalog *)

Lemma fallback_some (c : cache) pid cat d :
  c <> [] -> exists t, get_template_with_fallback c pid cat d = Some t.
Proof.
  intros Hc. unfold get_template_with_fallback.
  destruct (get_template c pid); [eauto|].
  destruct (select_best_template c cat _); [eauto|].
  destruct (get_templates_by_category c cat); [|eauto].
  destruct c as [|[k t] c']; [congruence|eauto].
Qed.

Lemma select_optimal_some (c : cache) s d ta :
  c <> [] -> exists t, _select_optimal_template c s d ta = Some t.
Proof.
  intros Hc. unfold _select_optimal_template.
  destruct (select_best_template c (content_type s) _); [eauto|].
  now apply fallback_some.
Qed.

(** *** Planner *)

Lemma slide_loop_some c topic d ta mult scale n i rest :
  c <> [] ->
  exists sl, slide_loop c topic d ta mult scale n i rest = Some sl /\
    map ss_content_type sl = map content_type rest /\
    map estimated_duration sl = map (fun s => Py.max2 8 (scaled_duration mult scale s)) rest /\
    map slide_number sl = map (fun k => i + Z.of_nat k + 1) (seq 0 (List.length rest)).
Proof.
  intros Hc. revert i. induction rest as [|s rest IH]; intros i; simpl.
  - exists []. repeat split; reflexivity.
  - destruct (select_optimal_some c s d ta Hc) as [t ->].
    destruct (IH (i + 1)) as (sl & -> & H1 & H2 & H3).
    eexists. split; [reflexivity|]. simpl. rewrite H1, H2, H3.
    repeat split; f_equal; [f_equal; lia|].
    rewrite <- seq_shift, map_map. apply map_ext. intros k. lia.
Qed.

Lemma select_short target :
  (target < 90)%Q ->
  map content_type (_select_sections_for_duration target) = core4.
Proof.
  intros H. unfold _select_sections_for_duration.
  destruct (Qle_bool 90 target) eqn:E.
  - apply Qle_bool_iff in E. exfalso. eapply Qlt_irrefl, Qle_lt_trans; eauto.
  - reflexivity.
Qed.

(** C6.  For every topic and difficulty (and every topic analysis and
    non-empty template catalog), a target duration below 90 seconds makes
    the planner select exactly the four core sections title-objective,
    definition, examples and mini-recap, in catalog order: the lesson
    structure is returned, has [total_slides = 4], its [content_flow] is
    that sequence, and every slide's estimated duration is at least 8. *)
Theorem short_lesson_selects_core_sections :
  forall (c : cache) (llm : option topic_analysis) (topic difficulty : str) (target : Q),
    c <> [] -> (target < 90)%Q ->
    map content_type (_select_sections_for_duration target) = core4 /\
    exists ls, analyze_topic_structure c llm topic difficulty target = Some ls /\
      total_slides ls = 4 /\
      content_flow ls = core4 /\
      Forall (fun s => (8 <= estimated_duration s)%Q) (slides ls).
Proof.
  intros c llm tp d target Hc Ht. split; [now apply select_short|].
  unfold analyze_topic_structure, _generate_slide_structures.
  match goal with |- context [slide_loop ?c ?t ?d ?ta ?m ?s ?n ?i ?r] =>
    destruct (slide_loop_some c t d ta m s n i r Hc) as (sl & -> & H1 & H2 & _) end.
  eexists. split; [reflexivity|]. cbn [total_slides content_flow slides].
  rewrite select_short in H1 by assumption.
  repeat split.
  - rewrite <- (length_map ss_content_type), H1. reflexivity.
  - assumption.
  - apply Forall_forall. intros s Hs.
    apply (in_map estimated_duration) in Hs. rewrite H2 in Hs.
    apply in_map_iff in Hs. destruct Hs as (x & <- & _). apply max2_ge_l.
Qed.

Lemma total_base_pos difficulty target :
  In difficulty difficulties ->
  (0 < total_base_duration (Py.get_or difficulty_multipliers difficulty 1%Q) (_select_sections_for_duration target))%Q.
Proof.
  intros Hd. unfold _select_sections_for_duration.
  simpl in Hd.
  destruct Hd as [<-|[<-|[<-|[]]]];
    destruct (Qle_bool 90 target); destruct (Qle_bool 180 target); vm_compute; reflexivity.
Qed.

Lemma duration_scale_pos target tb :
  (0 < tb)%Q -> duration_scale target tb = (target / tb)%Q.
Proof.
  intros H. unfold duration_scale.
  destruct (Qle_bool tb 0) eqn:E; [|reflexivity].
  apply Qle_bool_iff in E. exfalso. eapply Qlt_irrefl, Qlt_le_trans; eauto.
Qed.

Lemma scaled_sum mult target (sel : list lesson_section) :
  (0 < total_base_duration mult sel)%Q ->
  (Py.sum (map (scaled_duration mult (target / total_base_duration mult sel)) sel) == target)%Q.
Proof.
  intros Hpos. unfold scaled_duration.
  rewrite (sum_map_scale (fun s => inject_Z (base_duration s) * mult)%Q).
  fold (total_base_duration mult sel).
  field. intros E. rewrite E in Hpos. now apply Qlt_irrefl in Hpos.
Qed.

(** C3.  For every topic, difficulty among beginner, intermediate and
    advanced, and positive target duration (and every non-empty template
    catalog), the planner returns a structure whose slide durations are the
    difficulty-adjusted base durations scaled by target / total base and
    clamped below at 8; every duration is at least 8, the total is never
    below the target, and when no scaled duration is below 8 the total
    equals the target. *)
Theorem duration_scaling_sums_to_target :
  forall (c : cache) (llm : option topic_analysis) (topic difficulty : str) (target : Q),
    c <> [] ->
    In difficulty difficulties ->
    (0 < target)%Q ->
    let selected := _select_sections_for_duration target in
    let mult := Py.get_or difficulty_multipliers difficulty 1%Q in
    let scale := (target / total_base_duration mult selected)%Q in
    let scaled := fun s => (inject_Z (base_duration s) * mult * scale)%Q in
    exists ls, analyze_topic_structure c llm topic difficulty target = Some ls /\
      map estimated_duration (slides ls) = map (fun s => Py.max2 8 (scaled s)) selected /\
      Forall (fun s => (8 <= estimated_duration s)%Q) (slides ls) /\
      estimated_total_duration ls = Py.sum (map estimated_duration (slides ls)) /\
      (target <= estimated_total_duration ls)%Q /\
      ((forall s, In s selected -> (8 <= scaled s)%Q) ->
       (estimated_total_duration ls == target)%Q).
Proof.
  intros c llm tp d target Hc Hd Ht selected mult scale scaled.
  pose proof (total_base_pos d target Hd) as Hpos. fold mult selected in Hpos.
  unfold analyze_topic_structure, _generate_slide_structures.
  fold selected mult. rewrite (duration_scale_pos _ _ Hpos). fold scale.
  match goal with |- context [slide_loop ?c ?t ?d ?ta ?m ?s ?n ?i ?r] =>
    destruct (slide_loop_some c t d ta m s n i r Hc) as (sl & -> & _ & H2 & _) end.
  eexists. split; [reflexivity|]. cbn [slides estimated_total_duration].
  assert (Hsum : (Py.sum (map scaled selected) == target)%Q) by (apply scaled_sum; exact Hpos).
  split; [exact H2|]. split; [|split; [reflexivity|split]].
  - apply Forall_forall. intros s Hs.
    apply (in_map estimated_duration) in Hs. rewrite H2 in Hs.
    apply in_map_iff in Hs. destruct Hs as (x & <- & _). apply max2_ge_l.
  - rewrite H2, <- Hsum. apply sum_map_le. intros a _. apply max2_ge_r.
  - intros Hfloor. rewrite H2, <- Hsum. apply sum_map_ext.
    intros a Ha. apply max2_of_le. now apply Hfloor.
Qed.

Lemma duration_scaling_witness :
  exists ls, analyze_topic_structure one_template_cache None (py "Photosynthesis") (py "beginner") 75 = Some ls /\
             (estimated_total_duration ls == 75)%Q.
Proof.
  destruct (duration_scaling_sums_to_target one_template_cache None (py "Photosynthesis") (py "beginner") 75)
    as (ls & H & _ & _ & _ & _ & Hs).
  - discriminate.
  - simpl; auto.
  - reflexivity.
  - exists ls. split; [exact H|]. apply Hs.
    intros s Hs'. vm_compute in Hs'.
    destruct Hs' as [<-|[<-|[<-|[<-|[]]]]]; vm_compute; discriminate.
Defined.

Lemma short_lesson_selects_core_sections_witness :
  exists ls,
    analyze_topic_structure one_template_cache None (py "Photosynthesis") (py "beginner") 75
    = Some ls /\
    total_slides ls = 4 /\ content_flow ls = core4.
Proof.
  destruct (short_lesson_selects_core_sections one_template_cache None
              (py "Photosynthesis") (py "beginner") 75) as (_ & ls & H & Hn & Hf & _).
  - discriminate.
  - reflexivity.
  - exists ls. auto.
Defined.

End PlannerFacts.

(** ** Template engine: heading font sizes and truncation *)

Module TemplateEngineFacts.

Import PyFacts TemplateService.

Lemma font_table_cases sm md lg xl xxl dflt label :
  In (font_table sm md lg xl xxl dflt label) [sm; md; lg; xl; xxl; dflt].
Proof.
  destruct label as [l|z]; [|simpl; tauto].
  unfold font_table, Py.get_or, Py.get.
  repeat match goal with |- context [Py.eqb ?a ?b] => destruct (Py.eqb a b) end;
    simpl; tauto.
Qed.

Lemma heading_font_size_table b label :
  14 <= b <= 18 ->
  exists sm md lg xl xxl,
    heading_font_size b label = Some (font_table sm md lg xl xxl (b * 2) label) /\
    16 <= sm /\ sm <= md /\ md <= lg /\ lg <= xl /\ xl <= xxl /\ xxl <= 46.
Proof.
  intros Hb.
  assert (Hc : b = 14 \/ b = 15 \/ b = 16 \/ b = 17 \/ b = 18) by lia.
  destruct Hc as [->|[->|[->|[->| ->]]]];
    [ exists 16, 21, 25, 30, 36 | exists 18, 22, 27, 33, 39 | exists 19, 24, 28, 35, 41
    | exists 20, 25, 30, 37, 44 | exists 21, 27, 32, 39, 46 ];
    (split; [destruct label; vm_compute; reflexivity | lia]).
Qed.

Lemma heading_font_size_14 label :
  heading_font_size 14 label = Some (font_table 16 21 25 30 36 28 label).
Proof. destruct label; vm_compute; reflexivity. Qed.

Lemma create_heading_font cfg text cs b el :
  _create_heading_element cfg text cs b = Some el ->
  heading_font_size b (Py.get_or cfg (py "fontSize") (JStr (py "large"))) = Some (fontSize el).
Proof.
  unfold _create_heading_element.
  destruct (heading_font_size b _) as [fs|]; [|discriminate].
  destruct (Py.get_or cfg (py "maxChars") (JInt 50)); [discriminate|].
  destruct (Py.get cfg (py "position")); [|discriminate].
  intros [= <-]. reflexivity.
Qed.

Lemma base_font_mobile cs : width cs < 768 -> 14 <= _calculate_base_font_size cs <= 18.
Proof.
  intros H. unfold _calculate_base_font_size.
  destruct (width cs <? 768) eqn:E; [lia|]. apply Z.ltb_ge in E. lia.
Qed.




(** For every mobile width the font size of a heading lies in
    [int(14 * 1.2), int(18 * 2.6)] = [16, 46]. *)
Lemma heading_font_size_mobile_band :
  forall (cfg : config) (text : str) (cs : ContainerSize) (el : TemplateElement),
    width cs < 768 ->
    _create_heading_element cfg text cs (_calculate_base_font_size cs) = Some el ->
    16 <= fontSize el <= 46.
Proof.
  intros cfg text cs el Hw H. apply create_heading_font in H.
  pose proof (base_font_mobile cs Hw) as Hb.
  destruct (heading_font_size_table (_calculate_base_font_size cs)
              (Py.get_or cfg (py "fontSize") (JStr (py "large"))) Hb)
    as (sm & md & lg & xl & xxl & E & Hs).
  rewrite E in H. injection H as <-.
  pose proof (font_table_cases sm md lg xl xxl (_calculate_base_font_size cs * 2)
                (Py.get_or cfg (py "fontSize") (JStr (py "large")))) as Hin.
  simpl in Hin. lia.
Qed.

(** C10.  For every text and positive [max_chars], [_truncate_text]
    returns the text unchanged when it is at most [max_chars] long, and
    otherwise a string that ends in "..." and is at most [max_chars + 3]
    long; a hard cut is exactly [max_chars + 3] long. *)
Theorem truncate_text_bound :
  forall (text : str) (max_chars : Z),
    0 < max_chars ->
    (Py.len text <= max_chars -> _truncate_text text max_chars = text) /\
    (max_chars < Py.len text ->
     (exists body, _truncate_text text max_chars = body ++ py "...") /\
     Py.len (_truncate_text text max_chars) <= max_chars + 3 /\
     (_truncate_text text max_chars = Py.take max_chars text ++ py "..." ->
      Py.len (_truncate_text text max_chars) = max_chars + 3)).
Proof.
  intros text m Hm. unfold _truncate_text. split.
  - intros H. apply Z.leb_le in H. now rewrite H.
  - intros H. destruct (Py.len text <=? m) eqn:E; [apply Z.leb_le in E; lia|].
    destruct (PyFloat.int_gt _ _).
    + split; [eexists; reflexivity|]. split.
      * rewrite len_app. change (Py.len ellipsis) with 3.
        pose proof (len_take_le_len (Py.rfind 32%N (Py.take m text)) (Py.take m text)).
        pose proof (len_take_le m text). lia.
      * intros ->. rewrite len_app, len_take_exact by lia. reflexivity.
    + split; [eexists; reflexivity|]. split.
      * rewrite len_app. change (Py.len ellipsis) with 3.
        pose proof (len_take_le m text). lia.
      * intros _. rewrite len_app, len_take_exact by lia. reflexivity.
Qed.

Lemma truncate_text_bound_witness :
  Py.len (_truncate_text (py "Photosynthesis") 10) <= 10 + 3 /\
  _truncate_text (py "Photosynthesis") 10 = py "Photosynth...".
Proof.
  split.
  - apply (truncate_text_bound (py "Photosynthesis") 10); vm_compute; reflexivity.
  - vm_compute. reflexivity.
Defined.

End TemplateEngineFacts.

(** ** Duration estimates *)

Module TTSFacts.

Import PyFacts TTS.

(** C7, counterexample.  A text of three spaces is estimated at 0.0
    seconds, below 1.0 and below the stated floor. *)
Lemma estimate_blank_text_is_zero :
  estimate_duration_with_calibration lessac_service (py "   ") None = Some 0%Q /\
  ~ (1 <= 0)%Q /\
  ~ (Py.max2 (Py.max2 0 (inject_Z (Py.len (py "   ")) * (5 # 100))) 1 <= 0)%Q.
Proof. repeat split; vm_compute; intros H; apply H; reflexivity. Qed.

(** C7, amended.  A text with no non-whitespace character is estimated at
    0.0.  For every other text and every voice whose speaking rate is not
    zero, the estimate is [max(computed, 0.05 * charCount, 1.0)] where
    [computed] is the word count over the rate, times 60, times the 1.3
    buffer; it is at least each of the three, in particular at least 1.0. *)
Theorem estimate_duration_floor :
  forall (sv : service) (text : str) (voice : option str),
    (Py.strip text = [] -> estimate_duration_with_calibration sv text voice = Some 0%Q) /\
    (Py.strip text <> [] ->
     ~ (get_voice_speaking_rate sv (effective_voice sv voice) == 0)%Q ->
     let rate := get_voice_speaking_rate sv (effective_voice sv voice) in
     let computed := (inject_Z (Py.len_list (Py.split_ws text)) / rate * 60 * (13 # 10))%Q in
     let floor_chars := (inject_Z (Py.len text) * (5 # 100))%Q in
     exists d, estimate_duration_with_calibration sv text voice = Some d /\
       d = Py.max2 (Py.max2 computed floor_chars) 1 /\
       (computed <= d)%Q /\ (floor_chars <= d)%Q /\ (1 <= d)%Q).
Proof.
  intros sv text voice. split.
  - unfold estimate_duration_with_calibration. intros ->. reflexivity.
  - intros Hne Hrate. cbv zeta.
    set (rate := get_voice_speaking_rate sv (effective_voice sv voice)) in *.
    set (computed := (inject_Z (Py.len_list (Py.split_ws text)) / rate * 60 * (13 # 10))%Q).
    set (floor_chars := (inject_Z (Py.len text) * (5 # 100))%Q).
    unfold estimate_duration_with_calibration.
    destruct (Py.strip text) as [|c r]; [congruence|].
    fold rate. unfold fdiv.
    destruct (Qeq_bool rate 0) eqn:E; [apply Qeq_bool_iff in E; contradiction|].
    eexists. split; [reflexivity|]. fold computed floor_chars.
    split; [reflexivity|]. repeat split.
    + eapply Qle_trans; [apply max2_ge_l|apply max2_ge_l].
    + eapply Qle_trans; [apply max2_ge_r|apply max2_ge_l].
    + apply max2_ge_r.
Qed.

Lemma estimate_duration_floor_witness :
  exists d, estimate_duration_with_calibration lessac_service (py "Plants make food from light") None = Some d /\
            (1 <= d)%Q.
Proof.
  destruct (estimate_duration_floor lessac_service (py "Plants make food from light") None) as [_ H].
  destruct H as (d & Hd & _ & _ & _ & H1).
  - vm_compute. discriminate.
  - vm_compute. discriminate.
  - exists d. split; assumption.
Defined.

End TTSFacts.

(** ** Audio merger *)

Module MergerFacts.

Import PyFacts AudioMerger.

(** *** The timeline laid out by the loop, in whole milliseconds *)

Lemma timeline_chain pause info c d items k s1 s2 :
  nth_error (retimed info c d :: timeline pause (c + d) items) k = Some s1 ->
  nth_error (retimed info c d :: timeline pause (c + d) items) (S k) = Some s2 ->
  exists e1, end_time s1 = seconds e1 /\ start_time s2 = seconds (e1 + pause).
Proof.
  revert info c d k. induction items as [|[info' d'] items IH]; intros info c d k H1 H2.
  - destruct k; simpl in H2; [discriminate|]. destruct k; discriminate.
  - destruct k as [|k].
    + simpl in H1, H2. injection H1 as <-. injection H2 as <-.
      exists (c + d). split; reflexivity.
    + simpl in H1. change (nth_error (timeline pause (c + d) ((info', d') :: items)) (S k) = Some s2) in H2.
      simpl timeline in H1, H2. eapply IH; eauto.
Qed.

Lemma timeline_ends pause c items s :
  In s (timeline pause c items) ->
  exists s0 d, start_time s = seconds s0 /\ duration s = seconds d /\
               end_time s = seconds (s0 + d).
Proof.
  revert c. induction items as [|[info d] items IH]; intros c H; simpl in H.
  - contradiction.
  - destruct H as [<-|H]; [|eauto]. exists (c + pause), d. repeat split.
Qed.

Lemma timeline_length pause c items : List.length (timeline pause c items) = List.length items.
Proof. revert c. induction items as [|[info d] items IH]; intros c; simpl; congruence. Qed.

Lemma timeline_durations pause c items :
  map duration (timeline pause c items) = map (fun x => seconds (snd x)) items.
Proof. revert c. induction items as [|[info d] items IH]; intros c; simpl; [|rewrite IH]; reflexivity. Qed.

Lemma padded_total pause ds :
  padded_ms pause ds = total_ms ds + Z.of_nat (List.length ds) * pause.
Proof.
  induction ds as [|d ds IH]; [reflexivity|].
  cbn [padded_ms total_ms fold_right List.length]. fold (padded_ms pause ds). fold (total_ms ds).
  rewrite IH. lia.
Qed.

Section Loop.

Context {P : Pydub} {L : PydubLengths P}.
Variables (fs : files) (m : merger) (fade : Z).
Hypothesis pause_nonneg : 0 <= pause_duration_ms m.

Lemma nth_error_skipn_cons {A} (l : list A) i x r :
  skipn i l = x :: r -> nth_error l i = Some x /\ skipn (S i) l = r.
Proof.
  revert l. induction i as [|i IH]; intros l H.
  - simpl in H. subst l. split; reflexivity.
  - destruct l as [|y l]; [discriminate|]. simpl in H. apply IH in H. exact H.
Qed.

Lemma merge_rest_timeline (segment_info : list segment) :
  forall (rest : list str) (raws : list AudioSegment) (infos more : list segment)
         (i : nat) (merged : AudioSegment) (updated : list segment) (current : Z),
    Forall2 (fun p a => from_file fs p = Some a) rest raws ->
    skipn i segment_info = infos ++ more ->
    List.length infos = List.length rest ->
    exists merged',
      merge_rest fs m segment_info fade i rest merged updated current
      = Some (merged',
              updated ++ timeline (pause_duration_ms m) current
                           (combine infos (map (fun a => ms (normalized a)) raws)),
              current + padded_ms (pause_duration_ms m) (map (fun a => ms (normalized a)) raws))
      /\ ms merged' = ms merged + padded_ms (pause_duration_ms m) (map (fun a => ms (normalized a)) raws).
Proof.
  induction rest as [|p rest IH]; intros raws infos more i merged updated current Hload Hskip Hlen.
  - inversion Hload; subst. destruct infos; [|discriminate].
    exists merged. simpl. rewrite app_nil_r, !Z.add_0_r. auto.
  - inversion Hload as [|? a ? raws' Hp Hrest]; subst.
    destruct infos as [|info infos]; [discriminate|].
    simpl in Hskip. apply nth_error_skipn_cons in Hskip. destruct Hskip as [Hnth Hskip].
    cbn [merge_rest]. rewrite Hp, Hnth.
    edestruct (IH raws' infos more (S i)) as (merged' & -> & Hms); [exact Hrest|exact Hskip|simpl in Hlen; lia|].
    exists merged'. split.
    + cbn [map combine timeline padded_ms fold_right].
      rewrite <- app_assoc. cbn [app]. do 2 f_equal. unfold padded_ms. lia.
    + rewrite Hms. cbn [map padded_ms fold_right]. fold (padded_ms (pause_duration_ms m) (map (fun a => ms (normalized a)) raws')).
      rewrite !ms_concat, ms_fade_in, ms_set_sample_width, ms_set_channels, ms_silent, ms_fade_out by exact pause_nonneg.
      lia.
Qed.

End Loop.

Lemma find_absent_none {A} (f : A -> bool) (l : list A) :
  Forall (fun x => f x = true) l -> find (fun x => negb (f x)) l = None.
Proof.
  induction 1 as [|x l Hx _ IH]; simpl; [reflexivity|]. now rewrite Hx.
Qed.

Lemma map_snd_combine_le {A B} (l1 : list A) (l2 : list B) :
  (List.length l2 <= List.length l1)%nat -> map snd (combine l1 l2) = l2.
Proof.
  revert l2. induction l1 as [|x l1 IH]; intros [|y l2] H; simpl in *; try reflexivity; try lia.
  f_equal. apply IH. lia.
Qed.


Lemma ms_pydub_lengths : PydubLengths ms_pydub.
Proof. split; simpl; intros; lia. Qed.



(** The float reading of the timeline.  Clips of 3.501 s and 3.011 s with
    the 500 ms pause: the first segment ends at 3501/1000.0, the second
    runs from 4001/1000.0 for 3011/1000.0 to 7012/1000.0, which is also
    the total.  In binary64 none of the three sums of the specification
    gives the other side: 3.501 + 0.5 is not 4.001, 4.001 + 3.011 is not
    7.012, and 3.501 + 3.011 + 0.5 is not 7.012.  They are equalities of
    millisecond counts, not of floats. *)
Lemma merged_times_differ_as_floats :
  exists s1 s2,
    merge_audio_files_with_silence (P := ms_pydub) two_clips default_merger
      [py "a.wav"; py "b.wav"] (py "out.wav") two_infos 50
    = Ok (py "out.wav", seconds 7012, [s1; s2]) /\
    end_time s1 = seconds 3501 /\
    start_time s2 = seconds 4001 /\ duration s2 = seconds 3011 /\ end_time s2 = seconds 7012 /\
    PrimFloat.eqb (as_float (start_time s2))
                  (as_float (end_time s1) + as_float (seconds 500)) = false /\
    PrimFloat.eqb (as_float (end_time s2))
                  (as_float (start_time s2) + as_float (duration s2)) = false /\
    PrimFloat.eqb (as_float (seconds 7012))
                  (as_float (duration s1) + as_float (duration s2) + as_float (seconds 500))
    = false.
Proof.
  do 2 eexists. split; [vm_compute; reflexivity|].
  repeat split; vm_compute; reflexivity.
Qed.

End MergerFacts.

(** ** Timing update of the lesson router *)

Module RouterFacts.

Import PyFacts AudioMerger LessonRouter.

(** *** In-place update of one index *)

Lemma set_nth_length i s l : List.length (set_nth i s l) = List.length l.
Proof. revert i. induction l as [|x l IH]; intros [|i]; simpl; auto. Qed.

Lemma nth_error_set_nth_eq i s l :
  (i < List.length l)%nat -> nth_error (set_nth i s l) i = Some s.
Proof.
  revert i. induction l as [|x l IH]; intros [|i] H; simpl in *; try lia; auto.
  apply IH. lia.
Qed.

Lemma nth_error_set_nth_ne i j s l :
  i <> j -> nth_error (set_nth i s l) j = nth_error l j.
Proof.
  revert i j. induction l as [|x l IH]; intros [|i] [|j] H; simpl; auto; try congruence.
Qed.

Lemma firstn_set_nth_ge i k s l :
  (k <= i)%nat -> firstn k (set_nth i s l) = firstn k l.
Proof.
  revert i k. induction l as [|x l IH]; intros [|i] [|k] H; simpl; auto; try lia.
  f_equal. apply IH. lia.
Qed.

(** *** The loop, index by index *)

Lemma steps_S U k l : steps U (S k) l = update_step U (steps U k l) k.
Proof. unfold steps. rewrite seq_S, fold_left_app. reflexivity. Qed.

Lemma update_step_length U l i : List.length (update_step U l i) = List.length l.
Proof.
  unfold update_step. destruct (nth_error l i); [|reflexivity].
  destruct (updated_segments_map U _); apply set_nth_length.
Qed.

Lemma update_step_other U l i j : i <> j -> nth_error (update_step U l i) j = nth_error l j.
Proof.
  intros H. unfold update_step. destruct (nth_error l i); [|reflexivity].
  destruct (updated_segments_map U _); now apply nth_error_set_nth_ne.
Qed.

Lemma update_step_firstn U l i k : (k <= i)%nat -> firstn k (update_step U l i) = firstn k l.
Proof.
  intros H. unfold update_step. destruct (nth_error l i); [|reflexivity].
  destruct (updated_segments_map U _); now apply firstn_set_nth_ge.
Qed.

Lemma steps_length U k l : List.length (steps U k l) = List.length l.
Proof. induction k; [reflexivity|]. now rewrite steps_S, update_step_length. Qed.

Lemma steps_untouched U k l j : (k <= j)%nat -> nth_error (steps U k l) j = nth_error l j.
Proof.
  induction k as [|k IH]; intros H; [reflexivity|].
  rewrite steps_S, update_step_other by lia. apply IH. lia.
Qed.

Lemma steps_settled U k k' l j :
  (j < k)%nat -> (k <= k')%nat -> nth_error (steps U k' l) j = nth_error (steps U k l) j.
Proof.
  intros Hj Hk. induction Hk as [|k' Hk IH]; [reflexivity|].
  rewrite steps_S, update_step_other by lia. exact IH.
Qed.

Lemma steps_firstn U k k' l :
  (k <= k')%nat -> firstn k (steps U k' l) = firstn k (steps U k l).
Proof.
  intros Hk. induction Hk as [|k' Hk IH]; [reflexivity|].
  rewrite steps_S, update_step_firstn by lia. exact IH.
Qed.

(** *** Nearest preceding segment with audio *)

Lemma find_rev_firstn (l : list segment) (i : nat) :
  (i <= List.length l)%nat ->
  match find has_audio (rev (firstn i l)) with
  | Some p =>
      exists j, (j < i)%nat /\ nth_error l j = Some p /\ has_audio p = true /\
                forall k q, (j < k < i)%nat -> nth_error l k = Some q -> has_audio q = false
  | None => forall k q, (k < i)%nat -> nth_error l k = Some q -> has_audio q = false
  end.
Proof.
  induction i as [|i IH]; intros Hi.
  - simpl. intros k q Hk. lia.
  - destruct (nth_error l i) as [x|] eqn:Ex; [|apply nth_error_None in Ex; lia].
    assert (Hf : firstn (S i) l = firstn i l ++ [x]).
    { clear IH. revert l Hi Ex. induction i as [|i IHi]; intros [|y l] Hi Ex; simpl in *; try discriminate.
      - now injection Ex as ->.
      - f_equal. apply IHi; [lia|exact Ex]. }
    rewrite Hf, rev_app_distr. simpl.
    destruct (has_audio x) eqn:Hx.
    + exists i. repeat split; auto. intros k q Hk. lia.
    + specialize (IH ltac:(lia)).
      destruct (find has_audio (rev (firstn i l))) as [p|].
      * destruct IH as (j & Hj & Hn & Hp & Hbetween).
        exists j. repeat split; auto.
        intros k q Hk Hq. destruct (Nat.eq_dec k i) as [->|Hne].
        -- rewrite Ex in Hq. now injection Hq as <-.
        -- apply (Hbetween k q); [lia|exact Hq].
      * intros k q Hk Hq. destruct (Nat.eq_dec k i) as [->|Hne].
        -- rewrite Ex in Hq. now injection Hq as <-.
        -- apply (IH k q); [lia|exact Hq].
Qed.

Lemma update_timing_silent U l i seg :
  nth_error l i = Some seg ->
  updated_segments_map U (slide_number seg) = None ->
  exists seg',
    nth_error (update_timing U l) i = Some seg' /\
    slide_number seg' = slide_number seg /\
    audio_id seg' = audio_id seg /\
    duration seg' = duration seg /\
    anchored_after (update_timing U l) i (start_time seg') /\
    end_time seg' = (start_time seg' + duration seg)%Q.
Proof.
  intros Hseg Hmap.
  assert (Hi : (i < List.length l)%nat) by (apply nth_error_Some; congruence).
  change (update_timing U l) with (steps U (List.length l) l).
  set (final := steps U (List.length l) l).
  assert (Hfin : nth_error final i = nth_error (update_step U (steps U i l) i) i).
  { unfold final. rewrite (steps_settled U (S i) (List.length l)) by lia. now rewrite steps_S. }
  assert (Hpre : firstn i (steps U i l) = firstn i final).
  { unfold final. symmetry. apply steps_firstn. lia. }
  rewrite Hfin. unfold update_step.
  rewrite steps_untouched, Hseg, Hmap by lia.
  rewrite nth_error_set_nth_eq by (rewrite steps_length; exact Hi).
  eexists. split; [reflexivity|]. cbn.
  repeat split.
  unfold last_audio_end_time. rewrite Hpre.
  pose proof (find_rev_firstn final i) as Hfind.
  assert (Hlen : (i <= List.length final)%nat) by (unfold final; rewrite steps_length; lia).
  specialize (Hfind Hlen).
  destruct (find has_audio (rev (firstn i final))) as [p|].
  - destruct Hfind as (j & Hj & Hn & Hp & Hb). left. exists j, p. auto.
  - right. auto.
Qed.

Lemma updated_map_none U n :
  (forall u, In u U -> slide_number u <> n) -> updated_segments_map U n = None.
Proof.
  intros H. unfold updated_segments_map.
  destruct (find _ (rev U)) as [u|] eqn:E; [|reflexivity].
  apply find_some in E. destruct E as [Hin Heq].
  apply in_rev in Hin. apply Z.eqb_eq in Heq. now apply H in Hin.
Qed.

(** *** What the merger returns are retimed copies of its segment infos *)

Section MergeKeepsInfos.

Context {P : Pydub}.

Lemma merge_rest_infos fs m infos fade :
  forall rest i merged updated current merged' updated' current',
    merge_rest fs m infos fade i rest merged updated current = Some (merged', updated', current') ->
    forall u, In u updated' ->
      In u updated \/ exists s, In s infos /\ slide_number u = slide_number s.
Proof.
  induction rest as [|p rest IH]; intros i merged updated current merged' updated' current' H u Hu.
  - simpl in H. injection H as <- <- <-. now left.
  - cbn [merge_rest] in H. destruct (from_file fs p) as [raw|]; [|discriminate].
    destruct (nth_error infos i) as [info|] eqn:En.
    + eapply IH in H; [|exact Hu]. destruct H as [H|H]; [|now right].
      apply in_app_or in H. destruct H as [H|[<-|[]]]; [now left|].
      right. exists info. split; [eapply nth_error_In; eauto|reflexivity].
    + eapply IH in H; eauto.
Qed.

Lemma merge_infos fs m paths out infos fade o total updated :
  merge_audio_files_with_silence fs m paths out infos fade = Ok (o, total, updated) ->
  forall u, In u updated -> exists s, In s infos /\ slide_number u = slide_number s.
Proof.
  unfold merge_audio_files_with_silence. intros H u Hu.
  destruct paths as [|p0 rest]; [discriminate|].
  destruct (find _ _); [discriminate|].
  destruct (from_file fs p0) as [a0|]; [|discriminate].
  destruct infos as [|info0 infos'].
  - destruct (merge_rest _ _ _ _ _ _ _ _ _) as [[[mm uu] cc]|] eqn:E; [|discriminate].
    destruct (export_ok fs); [|discriminate]. injection H as _ _ <-.
    eapply merge_rest_infos in E; [|exact Hu]. destruct E as [[]|E]; exact E.
  - destruct (merge_rest _ _ _ _ _ _ _ _ _) as [[[mm uu] cc]|] eqn:E; [|discriminate].
    destruct (export_ok fs); [|discriminate]. injection H as _ _ <-.
    eapply merge_rest_infos in E; [|exact Hu]. destruct E as [[<-|[]]|E]; [|exact E].
    exists info0. split; [now left|reflexivity].
Qed.

Lemma collect_audio_sound gp fs l ps :
  In ps (collect_audio gp fs l) -> In (snd ps) l /\ has_audio (snd ps) = true.
Proof.
  induction l as [|s l IH]; simpl; [contradiction|].
  destruct (has_audio s) eqn:Hs.
  - destruct (match audio_id s with Some a => gp a | None => None end) as [ap|].
    + destruct (path_exists fs ap).
      * intros [<-|H]; [simpl; auto|]. apply IH in H. tauto.
      * intros H. apply IH in H. tauto.
    + intros H. apply IH in H. tauto.
  - intros H. apply IH in H. tauto.
Qed.

End MergeKeepsInfos.

Lemma nodup_map_inj {A B} (f : A -> B) (l : list A) a b :
  NoDup (map f l) -> In a l -> In b l -> f a = f b -> a = b.
Proof.
  induction l as [|x l IH]; simpl; [contradiction|].
  intros Hnd Ha Hb E. inversion Hnd as [|? ? Hnot Hnd']; subst.
  destruct Ha as [->|Ha], Hb as [->|Hb]; auto.
  - exfalso. apply Hnot. rewrite E. now apply in_map.
  - exfalso. apply Hnot. rewrite <- E. now apply in_map.
Qed.

(** C2.  After the timing update that follows a successful merge in
    [generate_lesson_merged_audio] (slide numbers being distinct, as the
    lesson model requires), every segment whose [audio_id] is [None] starts
    at the updated end time of the nearest preceding segment that has an
    audio id, or at 0 when there is none, and ends at that start time plus
    its own, unchanged, estimated duration. *)
Theorem silent_segment_anchored_to_preceding_audio :
  forall (P : Pydub) (get_audio_file_path : str -> option str) (fs : files)
         (merged_audio_path : str) (audio_segments : list segment) (current_time : Q)
         (o : str) (total : Q) (updated : list segment),
    NoDup (map slide_number audio_segments) ->
    collect_audio get_audio_file_path fs audio_segments <> [] ->
    merge_audio_files_padded fs router_merger
      (map fst (collect_audio get_audio_file_path fs audio_segments)) merged_audio_path
      (map snd (collect_audio get_audio_file_path fs audio_segments)) = Ok (o, total, updated) ->
    let final := fst (merge_and_retime get_audio_file_path fs merged_audio_path
                        audio_segments current_time) in
    forall (i : nat) (seg : segment),
      nth_error audio_segments i = Some seg ->
      audio_id seg = None ->
      exists seg',
        nth_error final i = Some seg' /\
        audio_id seg' = None /\
        anchored_after final i (start_time seg') /\
        end_time seg' = (start_time seg' + duration seg)%Q /\
        duration seg' = duration seg.
Proof.
  intros P gp fs out l ct o total U Hnd Hcol Hmerge final i seg Hseg Hnone.
  assert (Hfinal : final = update_timing U l).
  { unfold final, merge_and_retime.
    destruct (collect_audio gp fs l) as [|c cs] eqn:Ec; [congruence|].
    rewrite Hmerge. reflexivity. }
  rewrite Hfinal.
  destruct (update_timing_silent U l i seg Hseg) as (seg' & H1 & _ & H3 & H4 & H5 & H6).
  - apply updated_map_none. intros u Hu Heq.
    destruct (merge_infos _ _ _ _ _ _ _ _ _ Hmerge u Hu) as (s & Hs & Hsn).
    apply in_map_iff in Hs. destruct Hs as (ps & <- & Hps).
    apply collect_audio_sound in Hps. destruct Hps as [Hin Haud].
    assert (snd ps = seg).
    { apply (nodup_map_inj slide_number l); auto.
      - eapply nth_error_In; eauto.
      - congruence. }
    subst seg. unfold has_audio in Haud. rewrite Hnone in Haud. discriminate.
  - exists seg'. rewrite H3. auto.
Qed.

Lemma silent_segment_anchored_witness :
  let final := fst (merge_and_retime (P := ms_pydub) example_paths three_clips (py "merged.wav")
                      example_segments 17) in
  map start_time final = [0%Q; seconds 0; seconds 5000; seconds 5500; seconds 8700] /\
  exists seg',
    nth_error final 2 = Some seg' /\
    audio_id seg' = None /\
    anchored_after final 2 (start_time seg') /\
    end_time seg' = (start_time seg' + 3)%Q /\
    duration seg' = 3%Q.
Proof.
  split; [vm_compute; reflexivity|].
  eapply (silent_segment_anchored_to_preceding_audio ms_pydub example_paths three_clips
            (py "merged.wav") example_segments 17)
    with (i := 2%nat) (seg := info_for 3 None 9 3).
  - repeat constructor; simpl; intuition discriminate.
  - vm_compute. discriminate.
  - vm_compute. reflexivity.
  - reflexivity.
  - reflexivity.
Defined.

End RouterFacts.

(** ** Narration sanitizers *)

Module SanitizerFacts.

Import PyFacts Regex Sanitizer.

Local Open Scope N_scope.

Lemma atom_within_sound rs a c :
  atom_within rs a = true -> atom_match a c = true -> in_ranges rs c = true.
Proof.
  destruct a; simpl; try discriminate.
  - intros H E. apply N.eqb_eq in E. now subst.
  - intros H E. unfold in_ranges. apply existsb_exists in H. destruct H as (r & Hr & Hb).
    apply existsb_exists. exists r. split; [exact Hr|].
    apply andb_true_iff in Hb, E. destruct Hb as [H1 H2], E as [E1 E2].
    apply N.leb_le in H1, H2, E1, E2. apply andb_true_iff. split; apply N.leb_le; lia.
Qed.

Lemma cls_within_sound rs cl c :
  cls_within rs cl = true -> cls_match cl c = true -> in_ranges rs c = true.
Proof.
  unfold cls_within, cls_match. intros H E. apply andb_true_iff in H. destruct H as [Hn Hall].
  destruct (negated cl); [discriminate|]. simpl in E.
  apply existsb_exists in E. destruct E as (a & Ha & Hm).
  rewrite forallb_forall in Hall. eapply atom_within_sound; eauto.
Qed.

Lemma suffix_refl s : suffix s s.
Proof. now exists []. Qed.

Lemma suffix_cons c rest s : suffix rest s -> suffix rest (c :: s).
Proof. intros [pre ->]. now exists (c :: pre). Qed.

Lemma suffix_trans a b c : suffix a b -> suffix b c -> suffix a c.
Proof. intros [p ->] [q ->]. exists (q ++ p). now rewrite app_assoc. Qed.

Lemma rep_greedy_fails p lo prev s k :
  (forall p' rest, suffix rest s -> k p' rest = None) -> rep_greedy p lo prev s k = None.
Proof.
  revert lo prev. induction s as [|c t IH]; intros lo prev Hk; simpl.
  - destruct lo; [apply Hk, suffix_refl|reflexivity].
  - assert (Hstop : match lo with O => k prev (c :: t) | S _ => None end = None).
    { destruct lo; [apply Hk, suffix_refl|reflexivity]. }
    destruct (cls_match p c); [|exact Hstop].
    rewrite IH; [exact Hstop|]. intros p' rest Hs. apply Hk. now apply suffix_cons.
Qed.

Lemma rep_lazy_fails p lo prev s k :
  (forall p' rest, suffix rest s -> k p' rest = None) -> rep_lazy p lo prev s k = None.
Proof.
  revert lo prev. induction s as [|c t IH]; intros lo prev Hk; simpl.
  - destruct lo; [rewrite Hk by apply suffix_refl|]; reflexivity.
  - assert (Hmore : (if cls_match p c then rep_lazy p (Nat.pred lo) (Some c) t k else None) = None).
    { destruct (cls_match p c); [|reflexivity]. apply IH.
      intros p' rest Hs. apply Hk. now apply suffix_cons. }
    destruct lo; [rewrite Hk by apply suffix_refl|]; exact Hmore.
Qed.

(** A pattern fails when what has to follow it fails on every suffix. *)
Lemma exec_fails r : forall prev s cs k,
  (forall p' rest cs', suffix rest s -> k p' rest cs' = None) -> exec r prev s cs k = None.
Proof.
  induction r as [|p|g lo p|a IHa b IHb|a IHa b IHb|n a IHa|ml|ml]; intros prev s cs k Hk; simpl.
  - apply Hk, suffix_refl.
  - destruct s as [|c t]; [reflexivity|]. destruct (cls_match p c); [|reflexivity].
    apply Hk. apply suffix_cons, suffix_refl.
  - destruct g; [apply rep_greedy_fails|apply rep_lazy_fails]; intros; now apply Hk.
  - apply IHa. intros p' rest cs' Hs. apply IHb. intros p'' rest' cs'' Hs'.
    apply Hk. eapply suffix_trans; eauto.
  - rewrite IHa by exact Hk. now apply IHb.
  - apply IHa. intros p' rest cs' Hs. now apply Hk.
  - destruct (at_bol ml prev); [apply Hk, suffix_refl|reflexivity].
  - destruct (at_eol ml s); [apply Hk, suffix_refl|reflexivity].
Qed.

Lemma free_suffix rs rest s : suffix rest s -> free rs s -> free rs rest.
Proof. intros [pre ->] H. unfold free in *. apply Forall_app in H. tauto. Qed.

Lemma rep_needs_fails rs (g : bool) lo p prev s k :
  negb (Nat.eqb lo 0) && cls_within rs p = true -> free rs s ->
  (if g then rep_greedy else rep_lazy) p lo prev s k = None.
Proof.
  intros H Hs. apply andb_true_iff in H. destruct H as [Hlo Hp].
  destruct lo as [|lo]; [discriminate|].
  assert (Hc : forall c t, s = c :: t -> cls_match p c = false).
  { intros c t ->. inversion Hs; subst.
    destruct (cls_match p c) eqn:E; [|reflexivity].
    apply (cls_within_sound rs) in E; [congruence|exact Hp]. }
  destruct g; destruct s as [|c t]; simpl; try reflexivity; now rewrite (Hc c t eq_refl).
Qed.

(** A pattern that needs a code point of the ranges does not match in a
    string without one. *)
Lemma needs_fails rs r : forall prev s cs k,
  needs rs r = true -> free rs s -> exec r prev s cs k = None.
Proof.
  induction r as [|p|g lo p|a IHa b IHb|a IHa b IHb|n a IHa|ml|ml];
    intros prev s cs k Hn Hs; simpl in Hn; try discriminate.
  - simpl. destruct s as [|c t]; [reflexivity|]. inversion Hs; subst.
    destruct (cls_match p c) eqn:E; [|reflexivity].
    apply (cls_within_sound rs) in E; [congruence|exact Hn].
  - simpl. now apply (rep_needs_fails rs).
  - simpl. apply orb_true_iff in Hn. destruct Hn as [Hn|Hn].
    + now apply IHa.
    + apply exec_fails. intros p' rest cs' Hsuf. apply IHb; [exact Hn|].
      eapply free_suffix; eauto.
  - simpl. apply andb_true_iff in Hn. destruct Hn as [Ha Hb].
    rewrite IHa by assumption. now apply IHb.
  - simpl. now apply IHa.
Qed.

Lemma sub_no_match rs r repl s :
  needs rs r = true -> free rs s -> sub r repl s = s.
Proof.
  intros Hn. unfold sub. generalize (@None char) as prev.
  induction s as [|c t IH]; intros prev Hs; simpl;
    unfold match_here; rewrite (needs_fails rs) by assumption.
  - reflexivity.
  - f_equal. apply IH. now inversion Hs.
Qed.

Lemma run_no_match rs steps s :
  forallb (fun st => needs rs (fst st)) steps = true -> free rs s -> run steps s = s.
Proof.
  unfold run. induction steps as [|[r repl] steps IH]; intros H Hs; simpl; [reflexivity|].
  simpl in H. apply andb_true_iff in H. destruct H as [H1 H2].
  rewrite (sub_no_match rs) by assumption. now apply IH.
Qed.

(** *** The whitespace statement *)

Lemma space_match c : cls_match space c = Py.isspace c.
Proof. unfold cls_match, space. simpl. now rewrite orb_false_r. Qed.

Lemma rep_greedy_space lo prev s cs :
  rep_greedy space lo prev s (fun _ rest => Some (rest, cs))
  = if (lo <=? span s)%nat then Some (skipn (span s) s, cs) else None.
Proof.
  revert lo prev. induction s as [|c t IH]; intros lo prev; simpl.
  - destruct lo; reflexivity.
  - rewrite space_match. destruct (Py.isspace c).
    + rewrite IH. destruct lo as [|lo]; simpl.
      * reflexivity.
      * destruct (lo <=? span t)%nat; reflexivity.
    + destruct lo; reflexivity.
Qed.

Lemma skipn_span_length s : (List.length s - List.length (skipn (span s) s) = span s)%nat.
Proof.
  rewrite length_skipn.
  assert (span s <= List.length s)%nat.
  { induction s as [|c t IH]; simpl; [lia|]. destruct (Py.isspace c); simpl; lia. }
  lia.
Qed.

Lemma match_here_space prev s :
  match_here (plus space) prev s false
  = match span s with O => None | S n => Some (S n, []) end.
Proof.
  unfold match_here, plus. cbn [exec andb].
  rewrite (rep_greedy_space 1 prev s []).
  pose proof (skipn_span_length s) as Hl.
  destruct (span s) as [|n] eqn:E; [reflexivity|].
  cbn [Nat.leb]. cbv beta iota. rewrite Hl. reflexivity.
Qed.

Lemma collapse_true_skip s : collapse true s = collapse false (skipn (span s) s).
Proof.
  induction s as [|c t IH]; simpl; [reflexivity|].
  destruct (Py.isspace c) eqn:E; simpl; [exact IH|now rewrite E].
Qed.

Lemma sub_go_skip r repl n : forall s prev,
  (n <= List.length s)%nat ->
  exists prev', sub_go r repl prev s n = sub_go r repl prev' (skipn n s) 0.
Proof.
  induction n as [|n IH]; intros s prev H.
  - exists prev. reflexivity.
  - destruct s as [|c t]; [simpl in H; lia|]. simpl in H.
    destruct (IH t (Some c)) as [prev' E]; [lia|]. exists prev'. exact E.
Qed.

Lemma span_le s : (span s <= List.length s)%nat.
Proof. induction s as [|c t IH]; simpl; [lia|]. destruct (Py.isspace c); simpl; lia. Qed.

Lemma sub_go_whitespace : forall (n : nat) s prev,
  (List.length s <= n)%nat -> sub_go (plus space) [TLit (py " ")] prev s 0 = collapse false s.
Proof.
  induction n as [|n IH]; intros s prev Hlen.
  - destruct s; [|simpl in Hlen; lia]. reflexivity.
  - destruct s as [|c t]; [reflexivity|].
    cbn [sub_go]. rewrite match_here_space. cbn [span collapse].
    destruct (Py.isspace c) eqn:E.
    + cbn [expand flat_map app Nat.pred]. change (py " ") with [32].
      cbn [app]. f_equal.
      destruct (sub_go_skip (plus space) [TLit [32]] (span t) t (Some c) (span_le t)) as [prev' ->].
      rewrite IH.
      * symmetry. apply collapse_true_skip.
      * rewrite length_skipn. simpl in Hlen. lia.
    + f_equal. apply IH. simpl in Hlen. lia.
Qed.

Lemma whitespace_step_collapse s : run [whitespace_step] s = collapse false s.
Proof.
  unfold run, whitespace_step, put, sub. simpl.
  apply (sub_go_whitespace (List.length s)). lia.
Qed.

(** *** Collapsed and stripped strings *)

Lemma collapse_is_collapsed b s : is_collapsed b (collapse b s) = true.
Proof.
  revert b. induction s as [|c t IH]; intros b; simpl; [reflexivity|].
  destruct (Py.isspace c) eqn:E.
  - destruct b; [apply IH|]. simpl. apply IH.
  - simpl. rewrite E. apply IH.
Qed.

Lemma collapsed_fixed b x : is_collapsed b x = true -> collapse b x = x.
Proof.
  revert b. induction x as [|c t IH]; intros b H; simpl in *; [reflexivity|].
  destruct (Py.isspace c).
  - apply andb_true_iff in H. destruct H as [H Ht].
    apply andb_true_iff in H. destruct H as [Hc Hb].
    apply N.eqb_eq in Hc. subst c. destruct b; [discriminate|].
    f_equal. now apply IH.
  - f_equal. now apply IH.
Qed.

Lemma collapsed_weaken x : is_collapsed true x = true -> is_collapsed false x = true.
Proof.
  destruct x as [|c t]; simpl; [reflexivity|].
  destruct (Py.isspace c); [|tauto]. rewrite andb_false_r. discriminate.
Qed.

Lemma lstrip_collapsed b x : is_collapsed b x = true -> is_collapsed false (Py.lstrip x) = true.
Proof.
  revert b. induction x as [|c t IH]; intros b H; simpl in *; [reflexivity|].
  destruct (Py.isspace c) eqn:E.
  - apply andb_true_iff in H. destruct H as [_ Ht]. eapply IH; eauto.
  - simpl. now rewrite E.
Qed.

Lemma lstrip_all_space a : forallb Py.isspace a = true -> Py.lstrip a = [].
Proof.
  induction a as [|c t IH]; simpl; [reflexivity|].
  intros H. apply andb_true_iff in H. destruct H as [-> H]. auto.
Qed.

Lemma lstrip_app a b :
  Py.lstrip (a ++ b) = if forallb Py.isspace a then Py.lstrip b else Py.lstrip a ++ b.
Proof.
  induction a as [|c t IH]; simpl; [reflexivity|].
  destruct (Py.isspace c); simpl; [exact IH|reflexivity].
Qed.

Lemma forallb_rev {A} (f : A -> bool) (l : list A) : forallb f (rev l) = forallb f l.
Proof.
  induction l as [|x l IH]; simpl; [reflexivity|].
  rewrite forallb_app, IH. simpl. rewrite andb_true_r. apply andb_comm.
Qed.

Lemma rstrip_cons c t :
  Py.rstrip (c :: t) = if forallb Py.isspace (c :: t) then [] else c :: Py.rstrip t.
Proof.
  unfold Py.rstrip. simpl rev. rewrite lstrip_app, forallb_rev. simpl forallb.
  destruct (forallb Py.isspace t) eqn:Et.
  - rewrite (lstrip_all_space (rev t)) by (now rewrite forallb_rev).
    simpl. destruct (Py.isspace c); reflexivity.
  - rewrite andb_false_r, rev_app_distr. reflexivity.
Qed.

Lemma rstrip_collapsed b x : is_collapsed b x = true -> is_collapsed b (Py.rstrip x) = true.
Proof.
  revert b. induction x as [|c t IH]; intros b H; [reflexivity|].
  rewrite rstrip_cons. destruct (forallb Py.isspace (c :: t)); [reflexivity|].
  simpl in *. destruct (Py.isspace c).
  - apply andb_true_iff in H. destruct H as [H Ht]. rewrite H. simpl. now apply IH.
  - now apply IH.
Qed.

Lemma lstrip_starts_clean x : starts_clean (Py.lstrip x).
Proof.
  induction x as [|c t IH]; simpl; [exact I|].
  destruct (Py.isspace c) eqn:E; [exact IH|exact E].
Qed.

Lemma lstrip_clean y : starts_clean y -> Py.lstrip y = y.
Proof. destruct y as [|c t]; simpl; [reflexivity|]. now intros ->. Qed.

Lemma rstrip_starts_clean y : starts_clean y -> starts_clean (Py.rstrip y).
Proof.
  destruct y as [|c t]; [intros; exact I|]. rewrite rstrip_cons.
  destruct (forallb _ _); [intros; exact I|]. simpl. tauto.
Qed.

Lemma rstrip_idem y : Py.rstrip (Py.rstrip y) = Py.rstrip y.
Proof.
  unfold Py.rstrip. rewrite rev_involutive.
  now rewrite (lstrip_clean _ (lstrip_starts_clean (rev y))).
Qed.

Lemma strip_idem x : Py.strip (Py.strip x) = Py.strip x.
Proof.
  unfold Py.strip.
  rewrite (lstrip_clean (Py.rstrip (Py.lstrip x))).
  - apply rstrip_idem.
  - apply rstrip_starts_clean, lstrip_starts_clean.
Qed.

Lemma strip_collapsed x : is_collapsed false x = true -> is_collapsed false (Py.strip x) = true.
Proof. intros H. unfold Py.strip. now apply rstrip_collapsed, (lstrip_collapsed false). Qed.

(** Collapsing and stripping is idempotent. *)
Lemma normal_form_idem s :
  Py.strip (collapse false (Py.strip (collapse false s))) = Py.strip (collapse false s).
Proof.
  rewrite (collapsed_fixed false).
  - apply strip_idem.
  - apply strip_collapsed, collapse_is_collapsed.
Qed.

(** *** Strings free of the ranges stay free *)

Lemma free_collapse rs b s :
  in_ranges rs 32 = false -> free rs s -> free rs (collapse b s).
Proof.
  intros H32. revert b. induction s as [|c t IH]; intros b Hs; simpl; [constructor|].
  inversion Hs; subst. destruct (Py.isspace c).
  - destruct b; [now apply IH|]. constructor; [exact H32|now apply IH].
  - constructor; [assumption|now apply IH].
Qed.

Lemma free_lstrip rs s : free rs s -> free rs (Py.lstrip s).
Proof.
  induction s as [|c t IH]; intros Hs; simpl; [constructor|].
  destruct (Py.isspace c); [|exact Hs]. apply IH. now inversion Hs.
Qed.

Lemma free_strip rs s : free rs s -> free rs (Py.strip s).
Proof.
  intros H. unfold Py.strip, Py.rstrip, free.
  apply Forall_rev. apply free_lstrip. apply Forall_rev. now apply free_lstrip.
Qed.

(** *** [str.replace] without an occurrence *)

Lemma startswith_in p x c : Py.startswith p x = true -> In c p -> In c x.
Proof.
  revert x. induction p as [|a p IH]; intros x H Hin; [contradiction|].
  destruct x as [|b x]; [discriminate|]. simpl in H.
  apply andb_true_iff in H. destruct H as [E H]. apply N.eqb_eq in E. subst b.
  destruct Hin as [->|Hin]; [now left|right; eauto].
Qed.

Lemma replace_absent old new x c :
  In c old -> ~ In c x -> Py.replace old new x = x.
Proof.
  intros Hc Hx. unfold Py.replace. destruct old as [|a old']; [reflexivity|].
  induction x as [|b x IH]; [reflexivity|].
  cbn [Py.replace_go].
  destruct (Py.startswith (a :: old') (b :: x)) eqn:E.
  - exfalso. apply Hx. eapply startswith_in; eauto.
  - f_equal. apply IH. intros H. apply Hx. now right.
Qed.

Lemma free_not_in rs s c : in_ranges rs c = true -> free rs s -> ~ In c s.
Proof.
  intros Hc Hs Hin. unfold free in Hs. rewrite Forall_forall in Hs.
  apply Hs in Hin. congruence.
Qed.

(** *** Patterns that do not match: a general scheme *)

Lemma sub_go_unmatched (Inv : option char -> str -> Prop) r repl :
  (forall prev c t, Inv prev (c :: t) -> Inv (Some c) t) ->
  (forall prev x cs k, Inv prev x -> exec r prev x cs k = None) ->
  forall x prev, Inv prev x -> sub_go r repl prev x 0 = x.
Proof.
  intros Hstep Hfail. induction x as [|c t IH]; intros prev Hinv; simpl;
    unfold match_here; rewrite Hfail by assumption.
  - reflexivity.
  - f_equal. apply IH. eapply Hstep; eauto.
Qed.

Lemma rep_greedy_fails_run lo prev x k :
  (forall j p', (j <= span x)%nat -> k p' (skipn j x) = None) ->
  rep_greedy space lo prev x k = None.
Proof.
  revert lo prev. induction x as [|c t IH]; intros lo prev Hk.
  - simpl. destruct lo; [apply (Hk 0%nat prev); simpl; lia|reflexivity].
  - simpl. rewrite space_match.
    assert (Hstop : match lo with O => k prev (c :: t) | S _ => None end = None).
    { destruct lo; [apply (Hk 0%nat prev); lia|reflexivity]. }
    destruct (Py.isspace c) eqn:E; [|exact Hstop].
    rewrite IH; [exact Hstop|].
    intros j p' Hj. apply (Hk (S j) p'). simpl. rewrite E. lia.
Qed.

Lemma lit_match a c : cls_match (lit a) c = (c =? a).
Proof. unfold cls_match, lit. simpl. now rewrite orb_false_r. Qed.

Lemma skipn_suffix j (x : str) : suffix (skipn j x) x.
Proof. exists (firstn j x). symmetry. apply firstn_skipn. Qed.

(** *** The bullet statement *)

Lemma glued_skip : forall j x,
  glued false x = true -> (j <= span x)%nat -> glued false (skipn j x) = true.
Proof.
  induction j as [|j IH]; intros x H Hj; [exact H|].
  destruct x as [|c t]; [simpl in Hj; lia|].
  simpl in Hj. destruct (Py.isspace c) eqn:E; [|lia].
  simpl in H. rewrite E in H. simpl in H. apply andb_true_iff in H. destruct H as [_ H].
  simpl. apply IH; [exact H|lia].
Qed.

Lemma bullet_fails prev x cs k :
  free markup_ranges x -> glued (prev_is_word prev) x = true ->
  exec bullet_pattern prev x cs k = None.
Proof.
  intros Hf Hg.
  change bullet_pattern with
    (Seq (Bol true) (Seq (star space)
       (Seq (Chr (any_of [Lit 45; Lit 42; Lit 43])) (plus space)))).
  cbn [exec star].
  destruct (at_bol true prev) eqn:Eb; [|reflexivity].
  assert (Hw : prev_is_word prev = false).
  { destruct prev as [c|]; [|reflexivity]. simpl in Eb. apply N.eqb_eq in Eb. now subst. }
  rewrite Hw in Hg.
  apply rep_greedy_fails_run. intros j p' Hj.
  pose proof (glued_skip j x Hg Hj) as Hg'.
  pose proof (free_suffix _ _ _ (skipn_suffix j x) Hf) as Hf'.
  destruct (skipn j x) as [|c t]; [reflexivity|].
  destruct (cls_match (any_of [Lit 45; Lit 42; Lit 43]) c) eqn:Ec; [|reflexivity].
  exfalso. inversion Hf' as [|? ? Hc _]; subst.
  simpl in Hg'. apply andb_true_iff in Hg'. destruct Hg' as [Hs _].
  unfold cls_match, any_of in Ec. simpl in Ec.
  destruct (c =? 45) eqn:E1.
  - apply N.eqb_eq in E1. subst c. discriminate Hs.
  - destruct (c =? 42) eqn:E2.
    + apply N.eqb_eq in E2. subst c. discriminate Hc.
    + destruct (c =? 43) eqn:E3; [|discriminate Ec].
      apply N.eqb_eq in E3. subst c. discriminate Hs.
Qed.

Lemma bullet_step_prose s :
  free markup_ranges s -> glued false s = true -> sub bullet_pattern [] s = s.
Proof.
  intros Hf Hg. unfold sub.
  apply (sub_go_unmatched
           (fun prev x => free markup_ranges x /\ glued (prev_is_word prev) x = true)).
  - intros prev c t [Hfx Hgx]. split; [now inversion Hfx|].
    simpl in Hgx. apply andb_true_iff in Hgx. tauto.
  - intros prev x cs k [Hfx Hgx]. now apply bullet_fails.
  - split; assumption.
Qed.

(** *** The period statements *)

Lemma dots_skip b : forall j x,
  dots_apart b x = true -> (j <= span x)%nat -> dots_apart b (skipn j x) = true.
Proof.
  induction j as [|j IH]; intros x H Hj; [exact H|].
  destruct x as [|c t]; [simpl in Hj; lia|].
  simpl in Hj. destruct (Py.isspace c) eqn:E; [|lia].
  simpl in H. destruct (c =? ch ".") eqn:Ed.
  - apply N.eqb_eq in Ed. subst c. discriminate E.
  - rewrite E in H. simpl. apply IH; [exact H|lia].
Qed.

Lemma dots_tail b c t : dots_apart b (c :: t) = true -> exists b', dots_apart b' t = true.
Proof.
  simpl. destruct (c =? ch ".").
  - intros H. apply andb_true_iff in H. exists true. tauto.
  - destruct (Py.isspace c); eauto.
Qed.

Lemma dots_no_second b t :
  dots_apart b (46 :: t) = true -> match t with c :: _ => (c =? 46) = false | [] => True end.
Proof.
  simpl. intros H. apply andb_true_iff in H. destruct H as [_ H].
  destruct t as [|c t']; [exact I|]. simpl in H.
  change (ch ".") with 46 in H. destruct (c =? 46); [discriminate H|reflexivity].
Qed.

Lemma dots_fails b prev x cs k :
  dots_apart b x = true -> exec dots_pattern prev x cs k = None.
Proof.
  intros H. change dots_pattern with (Rep true 2 (lit 46)). cbn [exec].
  destruct x as [|c t]; [reflexivity|]. simpl. rewrite lit_match.
  destruct (c =? 46) eqn:Ec; [|reflexivity]. apply N.eqb_eq in Ec. subst c.
  apply dots_no_second in H.
  destruct t as [|c' t']; [reflexivity|]. simpl. rewrite lit_match, H. reflexivity.
Qed.

Lemma spaced_dots_fails b prev x cs k :
  dots_apart b x = true -> exec spaced_dots_pattern prev x cs k = None.
Proof.
  intros H.
  change spaced_dots_pattern with
    (Seq (star space) (Seq (Chr (lit 46)) (Seq (star space) (Chr (lit 46))))).
  cbn [exec star].
  apply rep_greedy_fails_run. intros j p' Hj.
  pose proof (dots_skip b j x H Hj) as H'.
  destruct (skipn j x) as [|c t]; [reflexivity|].
  rewrite lit_match. destruct (c =? 46) eqn:Ec; [|reflexivity].
  apply N.eqb_eq in Ec. subst c.
  assert (Ht : dots_apart true t = true).
  { simpl in H'. apply andb_true_iff in H'. tauto. }
  apply rep_greedy_fails_run. intros j2 p2 Hj2.
  pose proof (dots_skip true j2 t Ht Hj2) as H2.
  destruct (skipn j2 t) as [|c2 t2]; [reflexivity|].
  rewrite lit_match. simpl in H2. change (ch ".") with 46 in H2.
  destruct (c2 =? 46); [discriminate H2|reflexivity].
Qed.

Lemma period_steps_prose s : dots_apart false s = true -> run period_steps s = s.
Proof.
  intros H. unfold run, period_steps, put, sub. simpl.
  rewrite (sub_go_unmatched (fun _ x => exists b, dots_apart b x = true) dots_pattern).
  - apply (sub_go_unmatched (fun _ x => exists b, dots_apart b x = true)).
    + intros prev c t [b Hb]. eapply dots_tail; eauto.
    + intros prev x cs k [b Hb]. eapply spaced_dots_fails; eauto.
    + eauto.
  - intros prev c t [b Hb]. eapply dots_tail; eauto.
  - intros prev x cs k [b Hb]. eapply dots_fails; eauto.
  - eauto.
Qed.

(** *** The abbreviations *)

Lemma replace_no_occurrence old new x : Py.contains old x = false -> Py.replace old new x = x.
Proof.
  unfold Py.replace. destruct old as [|a old]; [reflexivity|].
  induction x as [|c r IH]; intros H; [reflexivity|].
  simpl in H. apply orb_false_iff in H. destruct H as [H1 H2].
  cbn [Py.replace_go]. cbn [Py.startswith]. rewrite H1. f_equal. now apply IH.
Qed.

Lemma expand_abbreviations_prose s :
  forallb (fun a => negb (Py.contains a s)) abbreviations = true -> expand_abbreviations s = s.
Proof.
  intros H. unfold abbreviations in H. cbn [forallb] in H.
  repeat (apply andb_true_iff in H; destruct H as [?H H]).
  apply negb_true_iff in H0, H1, H2.
  unfold expand_abbreviations.
  rewrite (replace_no_occurrence _ _ s H0), (replace_no_occurrence _ _ s H1).
  now apply replace_no_occurrence.
Qed.

Lemma solid_head a p : solid (a :: p) = true -> (a =? 32) = false.
Proof.
  unfold solid. simpl. intros H. apply andb_true_iff in H. destruct H as [H _].
  destruct (a =? 32) eqn:E; [|reflexivity]. apply N.eqb_eq in E. subst a. discriminate H.
Qed.

Lemma startswith_collapse : forall p t,
  solid p = true -> Py.startswith p (collapse false t) = true -> Py.startswith p t = true.
Proof.
  induction p as [|a q IH]; intros t Hp H; [reflexivity|].
  destruct t as [|c r]; [discriminate H|].
  pose proof (solid_head _ _ Hp) as Ha.
  simpl in H. destruct (Py.isspace c) eqn:E.
  - simpl in H. rewrite Ha in H. discriminate H.
  - simpl in H. apply andb_true_iff in H. destruct H as [H1 H2].
    simpl. rewrite H1. simpl. apply IH; [|exact H2].
    unfold solid in *. simpl in Hp. apply andb_true_iff in Hp. tauto.
Qed.

Lemma contains_cons p c x : Py.contains p x = true -> Py.contains p (c :: x) = true.
Proof. intros H. simpl. rewrite H. apply orb_true_r. Qed.

Lemma contains_collapse p : forall x b,
  p <> [] -> solid p = true ->
  Py.contains p (collapse b x) = true -> Py.contains p x = true.
Proof.
  intros x b Hne Hp. revert b. induction x as [|c r IH]; intros b H.
  - exact H.
  - destruct p as [|a q]; [congruence|].
    simpl in H. destruct (Py.isspace c) eqn:E.
    + apply contains_cons. destruct b; [now apply (IH true)|].
      simpl in H. rewrite (solid_head _ _ Hp) in H. simpl in H. now apply (IH true).
    + change (Py.contains (a :: q) (c :: collapse false r))
        with (Py.startswith (a :: q) (c :: collapse false r)
              || Py.contains (a :: q) (collapse false r)) in H.
      apply orb_true_iff in H. destruct H as [H|H].
      * assert (Hs : Py.startswith (a :: q) (c :: r) = true).
        { apply startswith_collapse; [exact Hp|]. simpl. rewrite E. exact H. }
        change (Py.contains (a :: q) (c :: r))
          with (Py.startswith (a :: q) (c :: r) || Py.contains (a :: q) r).
        rewrite Hs. reflexivity.
      * apply contains_cons. now apply (IH false).
Qed.

Lemma contains_suffix p x y : suffix y x -> Py.contains p y = true -> Py.contains p x = true.
Proof.
  intros [pre ->] H. induction pre as [|c pre IH]; [exact H|].
  simpl app. now apply contains_cons.
Qed.

Lemma startswith_app p : forall a r, Py.startswith p a = true -> Py.startswith p (a ++ r) = true.
Proof.
  induction p as [|c q IH]; intros a r H; [reflexivity|].
  destruct a as [|d a]; [discriminate H|].
  simpl in H. apply andb_true_iff in H. destruct H as [H1 H2].
  simpl. rewrite H1. simpl. now apply IH.
Qed.

Lemma contains_app p r : forall a, p <> [] -> Py.contains p a = true -> Py.contains p (a ++ r) = true.
Proof.
  intros a Hne. induction a as [|c a IH]; intros H.
  - destruct p; [congruence|discriminate H].
  - change (Py.contains p (c :: a)) with (Py.startswith p (c :: a) || Py.contains p a) in H.
    apply orb_true_iff in H. destruct H as [H|H].
    + change (Py.contains p ((c :: a) ++ r))
        with (Py.startswith p ((c :: a) ++ r) || Py.contains p (a ++ r)).
      rewrite (startswith_app _ _ _ H). reflexivity.
    + simpl app. apply contains_cons. now apply IH.
Qed.

Lemma lstrip_suffix x : suffix (Py.lstrip x) x.
Proof.
  induction x as [|c r [pre IH]]; [now exists []|].
  simpl. destruct (Py.isspace c).
  - exists (c :: pre). simpl. now f_equal.
  - now exists [].
Qed.

Lemma rstrip_prefix : forall x, exists r, x = Py.rstrip x ++ r.
Proof.
  induction x as [|c t [r IH]]; [now exists []|].
  rewrite rstrip_cons. destruct (forallb Py.isspace (c :: t)).
  - now exists (c :: t).
  - exists r. simpl. now f_equal.
Qed.

Lemma contains_strip p x : p <> [] -> Py.contains p (Py.strip x) = true -> Py.contains p x = true.
Proof.
  intros Hne H. apply (contains_suffix p x (Py.lstrip x) (lstrip_suffix x)).
  unfold Py.strip in H. destruct (rstrip_prefix (Py.lstrip x)) as [r Hr].
  rewrite Hr. now apply contains_app.
Qed.

Lemma abbreviations_normal s :
  forallb (fun a => negb (Py.contains a s)) abbreviations = true ->
  forallb (fun a => negb (Py.contains a (collapse false s))) abbreviations = true /\
  forallb (fun a => negb (Py.contains a (Py.strip (collapse false s)))) abbreviations = true.
Proof.
  intros H. rewrite forallb_forall in H. split; apply forallb_forall; intros a Ha;
    specialize (H a Ha); apply negb_true_iff in H; apply negb_true_iff;
    assert (Hs : a <> [] /\ solid a = true)
      by (unfold abbreviations in Ha; simpl in Ha;
          repeat (destruct Ha as [<-|Ha]; [split; [discriminate|reflexivity]|]);
          contradiction);
    destruct Hs as [Hne Hs].
  - destruct (Py.contains a (collapse false s)) eqn:E; [|reflexivity].
    apply contains_collapse in E; congruence.
  - destruct (Py.contains a (Py.strip (collapse false s))) eqn:E; [|reflexivity].
    apply contains_strip in E; [|exact Hne]. apply contains_collapse in E; congruence.
Qed.

(** *** Signs and periods after normalisation *)

Lemma sign_not_space c : is_sign c = true -> Py.isspace c = false.
Proof.
  unfold is_sign. intros H. apply orb_true_iff in H.
  destruct H as [H|H]; apply N.eqb_eq in H; subst; reflexivity.
Qed.

Lemma glued_weaken b x : glued false x = true -> glued b x = true.
Proof.
  destruct x as [|c t]; [reflexivity|]. simpl. intros H.
  apply andb_true_iff in H. destruct H as [H1 H2]. rewrite H2.
  destruct (is_sign c); [discriminate H1|reflexivity].
Qed.

Lemma glued_collapse : forall s b r, glued b s = true -> glued b (collapse r s) = true.
Proof.
  induction s as [|c t IH]; intros b r H; [reflexivity|].
  simpl in H. apply andb_true_iff in H. destruct H as [H1 H2].
  simpl. destruct (Py.isspace c) eqn:E; simpl in H2.
  - destruct r.
    + apply glued_weaken. now apply IH.
    + simpl. now apply IH.
  - simpl. rewrite E, H1. simpl. now apply IH.
Qed.

Lemma glued_lstrip : forall s, glued false s = true -> glued false (Py.lstrip s) = true.
Proof.
  induction s as [|c t IH]; intros H; [reflexivity|].
  simpl. destruct (Py.isspace c) eqn:E; [|exact H].
  simpl in H. rewrite E in H. apply andb_true_iff in H. apply IH. tauto.
Qed.

Lemma glued_prefix r : forall a b, glued b (a ++ r) = true -> glued b a = true.
Proof.
  induction a as [|c a IH]; intros b H; [reflexivity|].
  simpl in H. apply andb_true_iff in H. destruct H as [H1 H2].
  simpl. rewrite H1. simpl. now apply IH.
Qed.

Lemma glued_strip s : glued false s = true -> glued false (Py.strip s) = true.
Proof.
  intros H. apply glued_lstrip in H. unfold Py.strip.
  destruct (rstrip_prefix (Py.lstrip s)) as [r Hr]. rewrite Hr in H.
  now apply glued_prefix in H.
Qed.

Lemma dots_collapse : forall s b r, dots_apart b s = true -> dots_apart b (collapse r s) = true.
Proof.
  induction s as [|c t IH]; intros b r H; [reflexivity|].
  simpl in H. simpl. destruct (c =? ch ".") eqn:Ed.
  - apply N.eqb_eq in Ed. subst c. simpl.
    apply andb_true_iff in H. destruct H as [H1 H2]. rewrite H1. simpl. now apply IH.
  - destruct (Py.isspace c) eqn:E.
    + destruct r; [now apply IH|]. simpl. now apply IH.
    + simpl. rewrite Ed, E. now apply IH.
Qed.

Lemma dots_lstrip b : forall s, dots_apart b s = true -> dots_apart b (Py.lstrip s) = true.
Proof.
  induction s as [|c t IH]; intros H; [reflexivity|].
  simpl. destruct (Py.isspace c) eqn:E; [|exact H].
  simpl in H. destruct (c =? ch ".") eqn:Ed.
  - apply N.eqb_eq in Ed. subst c. discriminate E.
  - rewrite E in H. now apply IH.
Qed.

Lemma dots_prefix r : forall a b, dots_apart b (a ++ r) = true -> dots_apart b a = true.
Proof.
  induction a as [|c a IH]; intros b H; [reflexivity|].
  simpl in H. simpl. destruct (c =? ch ".").
  - apply andb_true_iff in H. destruct H as [H1 H2]. rewrite H1. simpl. now apply IH.
  - destruct (Py.isspace c); now apply IH.
Qed.

Lemma dots_strip s : dots_apart false s = true -> dots_apart false (Py.strip s) = true.
Proof.
  intros H. apply dots_lstrip in H. unfold Py.strip.
  destruct (rstrip_prefix (Py.lstrip s)) as [r Hr]. rewrite Hr in H.
  now apply dots_prefix in H.
Qed.

(** Normalising prose gives prose. *)
Lemma prose_normal s : prose s -> prose (Py.strip (collapse false s)).
Proof.
  intros (Hf & Hg & Hd & Ha). repeat split.
  - apply free_strip, free_collapse; [reflexivity|exact Hf].
  - now apply glued_strip, glued_collapse.
  - now apply dots_strip, dots_collapse.
  - now apply abbreviations_normal.
Qed.

Lemma free_forallb rs s : forallb (fun c => negb (in_ranges rs c)) s = true -> free rs s.
Proof.
  intros H. apply Forall_forall. intros c Hc.
  rewrite forallb_forall in H. apply negb_true_iff. now apply H.
Qed.

(** *** The sanitizers on prose *)

Section Prose.

Variable decimal : char -> bool.

Lemma run_app a b s : run (a ++ b) s = run b (run a s).
Proof. unfold run. apply fold_left_app. Qed.

Lemma sanitize_prose s :
  prose s -> _sanitize_text_for_tts decimal s = Py.strip (collapse false s).
Proof.
  intros (Hf & Hg & Hd & Ha). unfold _sanitize_text_for_tts.
  destruct s as [|c t] eqn:Es; [reflexivity|].
  rewrite <- Es in *. clear Es.
  rewrite (run_no_match markup_ranges emoji_steps) by (try reflexivity; exact Hf).
  rewrite (run_no_match markup_ranges (prefix_steps decimal)) by (try reflexivity; exact Hf).
  unfold markdown_steps. rewrite run_app.
  rewrite (run_no_match markup_ranges markup_steps) by (try reflexivity; exact Hf).
  change (run [remove bullet_pattern] s) with (sub bullet_pattern [] s).
  rewrite bullet_step_prose by assumption.
  rewrite whitespace_step_collapse.
  rewrite period_steps_prose by now apply dots_collapse.
  rewrite expand_abbreviations_prose by now apply abbreviations_normal.
  reflexivity.
Qed.

Lemma tts_sanitize_prose s :
  prose s -> tts_sanitize_text_for_tts decimal s = Py.strip (collapse false s).
Proof.
  intros (Hf & _). unfold tts_sanitize_text_for_tts. destruct s as [|c t] eqn:Es; [reflexivity|].
  rewrite <- Es in *. clear Es.
  rewrite (run_no_match markup_ranges emoji_steps) by (try reflexivity; exact Hf).
  rewrite (run_no_match markup_ranges (prefix_steps decimal)) by (try reflexivity; exact Hf).
  now rewrite whitespace_step_collapse.
Qed.

End Prose.




End SanitizerFacts.

(** ** Template filling *)

Module FillingFacts.

Import PyFacts Regex TemplateService TemplateFilling.

Section Loop.

Variable decimal : char -> bool.
Variable svc : option llm.

Lemma fill_placeholders_fails sl topic limits : forall ps n filled,
  (exists k prompt lim, In (k, prompt, lim) (requests_from sl topic limits n ps) /\
                        _call_llm svc k prompt lim = None) ->
  fill_placeholders decimal svc sl topic limits n ps filled = None.
Proof.
  induction ps as [|[key dflt] ps IH]; intros n filled (k & prompt & lim & Hin & Hfail).
  - contradiction.
  - cbn [fill_placeholders requests_from] in *.
    destruct (Py.get (s_llmPrompts sl) key) as [pt|].
    + destruct Hin as [E|Hin].
      * injection E as <- <- <-. now rewrite Hfail.
      * destruct (_call_llm svc n _ _); [|reflexivity].
        apply IH. eauto.
    + apply IH. eauto.
Qed.

Lemma fill_placeholders_succeeds sl topic limits : forall ps n filled,
  (forall k prompt lim, In (k, prompt, lim) (requests_from sl topic limits n ps) ->
                        _call_llm svc k prompt lim <> None) ->
  exists content, fill_placeholders decimal svc sl topic limits n ps filled = Some content.
Proof.
  induction ps as [|[key dflt] ps IH]; intros n filled Hok.
  - eexists. reflexivity.
  - cbn [fill_placeholders requests_from] in *.
    destruct (Py.get (s_llmPrompts sl) key) as [pt|].
    + destruct (_call_llm svc n _ _) eqn:E.
      * apply IH. intros k prompt lim Hin. apply Hok. now right.
      * exfalso. eapply Hok; [left; reflexivity|exact E].
    + apply IH. exact Hok.
Qed.

End Loop.

Lemma collaborator_exception_fails_call (mk : llm) n prompt lim :
  mk n (enhanced_prompt prompt lim) = LlmRaises ->
  _call_llm (Some mk) n prompt lim = None.
Proof. intros H. unfold _call_llm. now rewrite H. Qed.

(** C4.  For every template, topic and valid slide index (and a container
    size whose constraints resolve): if the LLM call raises for any
    placeholder of the fill (an exception of the collaborator, or any other
    failure of [_call_llm]), [fill_template] returns a template whose
    [filled_content] is the slide's [fallbackData] and whose [is_fallback]
    is true; if no LLM call raises, it returns the generated content with
    [is_fallback] false. *)
Theorem fill_template_all_or_nothing :
  forall (decimal : char -> bool) (svc : option llm) (t : template) (topic : str)
         (slide_index : Z) (container_size : option config) (sl : slide)
         (limits : list (str * config)),
    slide_at t slide_index = Some sl ->
    _get_responsive_constraints sl container_size = Some limits ->
    ((exists n prompt lim,
         In (n, prompt, lim) (requests sl topic limits) /\
         ((exists mk, svc = Some mk /\ mk n (enhanced_prompt prompt lim) = LlmRaises) \/
          _call_llm svc n prompt lim = None)) ->
     exists ft,
       fill_template decimal svc t topic slide_index container_size = Some ft /\
       filled_content ft = fallback_data_of sl /\
       is_fallback ft = true) /\
    ((forall n prompt lim,
         In (n, prompt, lim) (requests sl topic limits) -> _call_llm svc n prompt lim <> None) ->
     exists ft,
       fill_template decimal svc t topic slide_index container_size = Some ft /\
       _generate_content_with_llm decimal svc sl topic limits = Some (filled_content ft) /\
       is_fallback ft = false).
Proof.
  intros decimal svc t topic idx cs sl limits Hsl Hlim. unfold fill_template.
  rewrite Hsl, Hlim. split.
  - intros (n & prompt & lim & Hin & Hraise). unfold _generate_content_with_llm.
    assert (Hfail : _call_llm svc n prompt lim = None).
    { destruct Hraise as [(mk & -> & Hmk)|H]; [|exact H].
      now apply collaborator_exception_fails_call. }
    rewrite (fill_placeholders_fails decimal svc sl topic limits _ _ _
               (ex_intro _ n (ex_intro _ prompt (ex_intro _ lim (conj Hin Hfail))))).
    eexists. split; [reflexivity|]. split; reflexivity.
  - intros Hok. unfold _generate_content_with_llm.
    destruct (fill_placeholders_succeeds decimal svc sl topic limits (s_placeholders sl) 0%nat [] Hok)
      as [content ->].
    eexists. split; [reflexivity|]. split; reflexivity.
Qed.

Lemma fill_template_all_or_nothing_witness :
  (exists ft,
      fill_template Sanitizer.ascii_digit (Some failing_second) example_template
        (py "Photosynthesis") 0 None = Some ft /\
      filled_content ft = [ (py "heading", py "Key Concept");
                            (py "content", py "An overview of the concept.") ] /\
      is_fallback ft = true) /\
  (exists ft,
      fill_template Sanitizer.ascii_digit (Some answering) example_template
        (py "Photosynthesis") 0 None = Some ft /\
      is_fallback ft = false).
Proof.
  pose proof (fill_template_all_or_nothing Sanitizer.ascii_digit (Some failing_second)
                example_template (py "Photosynthesis") 0 None example_slide
                (_extract_constraints (s_layout example_slide)) eq_refl eq_refl) as [Hfail _].
  pose proof (fill_template_all_or_nothing Sanitizer.ascii_digit (Some answering)
                example_template (py "Photosynthesis") 0 None example_slide
                (_extract_constraints (s_layout example_slide)) eq_refl eq_refl) as [_ Hok].
  split.
  - destruct Hfail as (ft & H1 & H2 & H3).
    + exists 1%nat. do 2 eexists. split.
      * right. left. reflexivity.
      * left. exists failing_second. split; reflexivity.
    + exists ft. repeat split; assumption.
  - destruct Hok as (ft & H1 & _ & H3).
    + intros n prompt lim Hin.
      vm_compute in Hin. destruct Hin as [E|[E|[]]]; injection E as <- <- <-; vm_compute; discriminate.
    + exists ft. split; assumption.
Defined.

End FillingFacts.

(** ** The cached template as shared objects *)

Module StoreFacts.

Import PyFacts TemplateService TemplateStore.

Local Open Scope nat_scope.

(** C9, the failing input.  A fill at a mobile container size writes the
    mobile override into the cached layout: the heading's [maxChars] is 50
    before the call and 30 after it, and a later fill without a container
    size gets the mobile limit. *)
Lemma fill_template_mutates_cached_layout :
  exists h',
    fill_template_store cached_slide 0 mobile_container = Some h' /\
    option_map (fun cfg => Py.get cfg (py "maxChars")) (deref cached_slide 2)
      = Some (Some (VScalar (JInt 50%Z))) /\
    option_map (fun cfg => Py.get cfg (py "maxChars")) (deref h' 2)
      = Some (Some (VScalar (JInt 30%Z))) /\
    deref h' 2 <> deref cached_slide 2 /\
    (* a later fill without a container size now sees the mobile limit *)
    option_map (fun r => Py.get (snd r) (py "heading")) (_get_responsive_constraints h' 0 None)
      = Some (Some [ (py "maxChars", VScalar (JInt 30%Z));
                     (py "maxLines", VScalar (JInt 5%Z));
                     (py "format", VScalar (JStr (py "text"))) ]).
Proof.
  eexists. split; [vm_compute; reflexivity|].
  repeat split; vm_compute; congruence.
Qed.

(** *** [_merge_layout_config] leaves every existing object alone *)

Lemma write_length h l o : List.length (write h l o) = List.length h.
Proof. revert l. induction h as [|x h IH]; intros [|l]; simpl; auto. Qed.

Lemma deref_write_other h l l' o : l <> l' -> deref (write h l o) l' = deref h l'.
Proof.
  unfold deref. revert l l'. induction h as [|x h IH]; intros [|l] [|l'] H; simpl; auto; try congruence.
Qed.

Lemma deref_alloc_old h o l : (l < List.length h)%nat -> deref (fst (alloc h o)) l = deref h l.
Proof. intros H. unfold deref, alloc. simpl. now apply nth_error_app1. Qed.

Lemma update_at_frame h t o h' l :
  update_at h t o = Some h' -> l <> t ->
  deref h' l = deref h l /\ List.length h' = List.length h.
Proof.
  unfold update_at. destruct (deref h t); [|discriminate]. destruct (deref h o); [|discriminate].
  intros [= <-] Hne. split; [now apply deref_write_other|apply write_length].
Qed.

Lemma merge_loop_frame (n0 : nat) merged ov : forall items h h',
  merge_loop h merged ov items = Some h' ->
  (n0 <= merged)%nat -> (n0 <= List.length h)%nat ->
  forall l, (l < n0)%nat -> deref h' l = deref h l.
Proof.
  induction items as [|[k cv] items IH]; intros h h' H Hm Hn l Hl.
  - simpl in H. now injection H as <-.
  - cbn [merge_loop] in H. destruct cv as [|c]; [discriminate|].
    destruct (deref h c) as [cfg|] eqn:Ec; [|discriminate].
    destruct (deref h merged) as [mo|] eqn:Em; [|discriminate].
    cbn [alloc] in H.
    set (h1 := h ++ [cfg]) in *.
    set (h2 := write h1 merged (dict_set mo k (VRef (List.length h)))) in *.
    assert (Hh2 : deref h2 l = deref h l).
    { unfold h2. rewrite deref_write_other by lia.
      apply (deref_alloc_old h cfg l). lia. }
    assert (Hlen2 : List.length h2 = S (List.length h)).
    { unfold h2, h1. rewrite write_length, length_app. simpl. lia. }
    destruct (Py.get ov k) as [[|o]|].
    + discriminate.
    + destruct (update_at h2 (List.length h) o) as [h3|] eqn:Eu; [|discriminate].
      destruct (update_at_frame _ _ _ _ l Eu) as [Hd Hlen3]; [lia|].
      rewrite (IH h3 h' H Hm ltac:(lia) l Hl). now rewrite Hd.
    + rewrite (IH h2 h' H Hm ltac:(lia) l Hl). exact Hh2.
Qed.

(** X29.  The template engine's own merge,
    [TemplateService._merge_layout_config], copies every config before it
    applies the overrides: no object that existed before the call is
    changed. *)
Theorem merge_layout_config_frame :
  forall (h h' : store) (base_layout responsive_overrides merged : loc),
    _merge_layout_config h base_layout responsive_overrides = Some (h', merged) ->
    forall l, (l < List.length h)%nat -> deref h' l = deref h l.
Proof.
  intros h h' b r merged H l Hl. unfold _merge_layout_config in H.
  destruct (deref h b) as [bo|]; [|discriminate].
  destruct (deref h r) as [ro|]; [|discriminate].
  cbv beta iota zeta delta [alloc] in H.
  destruct (merge_loop _ _ _ _) as [hh|] eqn:E;
    cbn [option_map] in H; [|discriminate].
  injection H as <- <-.
  rewrite (merge_loop_frame (List.length h) _ _ _ _ _ E (Nat.le_refl _)
             ltac:(rewrite length_app; simpl; lia) l Hl).
  unfold deref. now apply nth_error_app1.
Qed.

Lemma merge_layout_config_frame_witness :
  exists h' merged,
    _merge_layout_config cached_slide 1 4 = Some (h', merged) /\
    option_map (fun cfg => Py.get cfg (py "maxChars")) (deref h' merged)
      = Some None /\
    deref h' 2 = deref cached_slide 2.
Proof.
  do 2 eexists. split; [vm_compute; reflexivity|].
  split; [vm_compute; reflexivity|].
  eapply (merge_layout_config_frame cached_slide _ 1 4 _).
  - vm_compute. reflexivity.
  - vm_compute. lia.
Defined.

End StoreFacts.

(** ** The template engine: wrapping and bullets *)

Module RenderFacts.

Import PyFacts Regex Sanitizer SanitizerFacts TemplateService TemplateRender.

Local Open Scope Z_scope.

(** *** [str.split()] and [str.split(sep)] *)

Lemma split_ws_aux_words : forall x cur w,
  solid cur = true -> In w (Py.split_ws_aux cur x) -> w <> [] /\ solid w = true.
Proof.
  induction x as [|c r IH]; intros cur w Hc Hw.
  - simpl in Hw. destruct cur as [|a cur]; [contradiction|].
    destruct Hw as [<-|[]]. split.
    + intros E. apply (f_equal (@List.length _)) in E.
      rewrite length_rev in E. discriminate E.
    + unfold solid in *. now rewrite forallb_rev.
  - simpl in Hw. destruct (Py.isspace c) eqn:E.
    + destruct cur as [|a cur]; [now apply (IH [] w)|].
      destruct Hw as [<-|Hw]; [|now apply (IH [] w)]. split.
      * intros E'. apply (f_equal (@List.length _)) in E'.
        rewrite length_rev in E'. discriminate E'.
      * unfold solid in *. now rewrite forallb_rev.
    + apply (IH (c :: cur) w); [|exact Hw].
      unfold solid in *. simpl. now rewrite E.
Qed.

Lemma split_ws_words x w : In w (Py.split_ws x) -> w <> [] /\ solid w = true.
Proof. now apply split_ws_aux_words. Qed.

Lemma split_on_aux_pieces sep : forall x cur p,
  ~ In sep cur -> In p (Py.split_on_aux sep cur x) -> ~ In sep p.
Proof.
  induction x as [|c r IH]; intros cur p Hc Hp.
  - simpl in Hp. destruct Hp as [<-|[]]. now rewrite <- in_rev.
  - simpl in Hp. destruct (c =? sep)%N eqn:E.
    + destruct Hp as [<-|Hp]; [now rewrite <- in_rev|]. now apply (IH [] p).
    + apply (IH (c :: cur) p); [|exact Hp].
      intros [->|H]; [now rewrite N.eqb_refl in E|contradiction].
Qed.

Lemma split_on_pieces sep x p : In p (Py.split_on sep x) -> ~ In sep p.
Proof. apply split_on_aux_pieces. intros []. Qed.

Lemma split_on_aux_nonempty sep x cur : Py.split_on_aux sep cur x <> [].
Proof.
  revert cur. induction x as [|c r IH]; intros cur; simpl; [discriminate|].
  destruct (c =? sep)%N; [discriminate|apply IH].
Qed.

Lemma split_on_aux_app sep : forall l cur rest,
  ~ In sep l -> Py.split_on_aux sep cur (l ++ rest) = Py.split_on_aux sep (rev l ++ cur) rest.
Proof.
  induction l as [|c l IH]; intros cur rest Hl; [reflexivity|].
  simpl. destruct (c =? sep)%N eqn:E.
  - apply N.eqb_eq in E. subst. exfalso. apply Hl. now left.
  - rewrite IH by (intros H; apply Hl; now right).
    now rewrite <- app_assoc.
Qed.

Lemma split_on_join sep : forall ls,
  ls <> [] -> (forall l, In l ls -> ~ In sep l) ->
  Py.split_on sep (Py.join [sep] ls) = ls.
Proof.
  unfold Py.split_on.
  induction ls as [|l ls IH]; intros Hne Hl; [congruence|].
  destruct ls as [|l2 ls].
  - simpl. rewrite <- (app_nil_r l) at 1.
    rewrite split_on_aux_app by (apply Hl; now left).
    simpl. now rewrite app_nil_r, rev_involutive.
  - change (Py.join [sep] (l :: l2 :: ls)) with (l ++ [sep] ++ Py.join [sep] (l2 :: ls)).
    rewrite split_on_aux_app by (apply Hl; now left).
    simpl. rewrite N.eqb_refl, app_nil_r, rev_involutive. f_equal.
    apply IH; [discriminate|]. intros x Hx. apply Hl. now right.
Qed.

(** *** [str.strip()] *)

Lemma in_lstrip c x : In c (Py.lstrip x) -> In c x.
Proof. destruct (lstrip_suffix x) as [pre E]. intros H. rewrite E. apply in_or_app. now right. Qed.

Lemma in_strip c x : In c (Py.strip x) -> In c x.
Proof.
  unfold Py.strip. intros H. apply in_lstrip.
  destruct (rstrip_prefix (Py.lstrip x)) as [r E]. rewrite E. apply in_or_app. now left.
Qed.

Lemma strip_lstrip_fixed x : Py.lstrip (Py.strip x) = Py.strip x.
Proof. apply lstrip_clean, rstrip_starts_clean, lstrip_starts_clean. Qed.

Lemma strip_rstrip_fixed x : Py.rstrip (Py.strip x) = Py.strip x.
Proof. unfold Py.strip. apply rstrip_idem. Qed.

Lemma strip_not_blank x : Py.strip x <> [] -> forallb Py.isspace (Py.strip x) = false.
Proof.
  intros H. destruct (forallb Py.isspace (Py.strip x)) eqn:E; [|reflexivity].
  apply lstrip_all_space in E. rewrite strip_lstrip_fixed in E. contradiction.
Qed.

(** *** [_format_bullets] *)

Lemma format_line_idem x : format_line (format_line x) = format_line x.
Proof.
  assert (H : forall y, y = format_line x -> format_line y = y); [|now apply H].
  intros y Hy. unfold format_line in Hy.
  destruct (Py.strip x) as [|c t] eqn:E; [subst y; reflexivity|].
  assert (Hl : Py.lstrip (c :: t) = c :: t) by (rewrite <- E; apply strip_lstrip_fixed).
  assert (Hr : Py.rstrip (c :: t) = c :: t) by (rewrite <- E; apply strip_rstrip_fixed).
  assert (Hb : forallb Py.isspace (c :: t) = false)
    by (rewrite <- E; apply strip_not_blank; rewrite E; discriminate).
  assert (Hs : Py.strip (c :: t) = c :: t) by (unfold Py.strip; now rewrite Hl, Hr).
  destruct (negb (Py.startswith bullet (c :: t)) && negb (Py.startswith (py "-") (c :: t)))
    eqn:Ec; subst y.
  - unfold format_line.
    assert (Hs' : Py.strip (bullet ++ py " " ++ c :: t) = bullet ++ py " " ++ c :: t).
    { unfold Py.strip. change (bullet ++ py " " ++ c :: t) with (8226%N :: 32%N :: c :: t).
      change (Py.lstrip (8226%N :: 32%N :: c :: t)) with (8226%N :: 32%N :: c :: t).
      rewrite rstrip_cons.
      change (forallb Py.isspace (8226%N :: 32%N :: c :: t)) with false. cbv iota.
      rewrite rstrip_cons.
      change (forallb Py.isspace (32%N :: c :: t)) with (forallb Py.isspace (c :: t)).
      now rewrite Hb, Hr. }
    rewrite Hs'. change (bullet ++ py " " ++ c :: t) with (8226%N :: 32%N :: c :: t).
    cbn [Py.startswith bullet]. rewrite N.eqb_refl. reflexivity.
  - unfold format_line. rewrite Hs, Ec. reflexivity.
Qed.

Lemma format_line_no_newline x : ~ In 10%N x -> ~ In 10%N (format_line x).
Proof.
  intros Hx H. unfold format_line in H.
  destruct (Py.strip x) as [|c t] eqn:E; [contradiction|].
  assert (Hs : ~ In 10%N (c :: t)) by (rewrite <- E; intros H'; now apply in_strip in H').
  destruct (negb _ && negb _); [|contradiction].
  change (bullet ++ py " " ++ c :: t) with (8226%N :: 32%N :: c :: t) in H.
  destruct H as [H|[H|H]]; [discriminate H|discriminate H|contradiction].
Qed.

(** X1.  [_format_bullets] is idempotent: formatting an already formatted
    text changes nothing.  Every line of the result is stripped, and a
    line that is not empty begins with the bullet U+2022 or with a hyphen;
    the number of lines is that of the input. *)
Theorem format_bullets_idempotent :
  forall text : str,
    _format_bullets (_format_bullets text) = _format_bullets text /\
    List.length (Py.split_on 10%N (_format_bullets text))
    = List.length (Py.split_on 10%N text) /\
    Forall (fun line => Py.strip line = line /\
                        (line = [] \/ Py.startswith bullet line = true
                         \/ Py.startswith (py "-") line = true))
           (Py.split_on 10%N (_format_bullets text)).
Proof.
  intros text. unfold _format_bullets.
  assert (Hsplit : Py.split_on 10%N
                     (Py.join newline (map format_line (Py.split_on 10%N text)))
                   = map format_line (Py.split_on 10%N text)).
  { apply split_on_join.
    - intros E. apply map_eq_nil in E. now apply split_on_aux_nonempty in E.
    - intros l Hl. apply in_map_iff in Hl. destruct Hl as (x & <- & Hx).
      apply format_line_no_newline. now apply split_on_pieces in Hx. }
  rewrite Hsplit. repeat split.
  - rewrite map_map. f_equal. apply map_ext. intros x. apply format_line_idem.
  - apply length_map.
  - apply Forall_forall. intros l Hl. apply in_map_iff in Hl. destruct Hl as (x & <- & _).
    unfold format_line. destruct (Py.strip x) as [|c t] eqn:E; [split; [reflexivity|now left]|].
    assert (Hl : Py.lstrip (c :: t) = c :: t) by (rewrite <- E; apply strip_lstrip_fixed).
    assert (Hr : Py.rstrip (c :: t) = c :: t) by (rewrite <- E; apply strip_rstrip_fixed).
    assert (Hb : forallb Py.isspace (c :: t) = false)
      by (rewrite <- E; apply strip_not_blank; rewrite E; discriminate).
    destruct (Py.startswith bullet (c :: t)) eqn:E1; cbn [negb andb].
    + split; [unfold Py.strip; now rewrite Hl, Hr|]. right. now left.
    + destruct (Py.startswith (py "-") (c :: t)) eqn:E2; cbn [negb].
      * split; [unfold Py.strip; now rewrite Hl, Hr|]. right. now right.
      * split; [|right; left; reflexivity].
        unfold Py.strip. change (bullet ++ py " " ++ c :: t) with (8226%N :: 32%N :: c :: t).
        change (Py.lstrip (8226%N :: 32%N :: c :: t)) with (8226%N :: 32%N :: c :: t).
        rewrite rstrip_cons.
        change (forallb Py.isspace (8226%N :: 32%N :: c :: t)) with false. cbv iota.
        rewrite rstrip_cons.
        change (forallb Py.isspace (32%N :: c :: t)) with (forallb Py.isspace (c :: t)).
        now rewrite Hb, Hr.
Qed.

(** *** [_wrap_single_line] *)

Lemma join_merge sep a b : forall L R,
  Py.join sep (L ++ (a ++ sep ++ b) :: R) = Py.join sep (L ++ a :: b :: R).
Proof.
  induction L as [|x L IH]; intros R.
  - destruct R as [|r R]; [reflexivity|].
    change (((a ++ sep ++ b) ++ sep ++ Py.join sep (r :: R))
            = a ++ sep ++ (b ++ sep ++ Py.join sep (r :: R))).
    now rewrite <- !app_assoc.
  - change (Py.join sep ((x :: L) ++ (a ++ sep ++ b) :: R))
      with (Py.join sep (x :: (L ++ (a ++ sep ++ b) :: R))).
    change (Py.join sep ((x :: L) ++ a :: b :: R))
      with (Py.join sep (x :: (L ++ a :: b :: R))).
    destruct (L ++ (a ++ sep ++ b) :: R) as [|y Y] eqn:E1;
      [now destruct L|].
    destruct (L ++ a :: b :: R) as [|z Z] eqn:E2; [now destruct L|].
    change (x ++ sep ++ Py.join sep (y :: Y) = x ++ sep ++ Py.join sep (z :: Z)).
    rewrite <- E1, <- E2. now rewrite IH.
Qed.

(** What one word does to the lines: it opens a new line, or it is
    appended to the current one, which then fits. *)
Lemma flush_wrap_word n st w :
  w <> [] ->
  flush (wrap_word n st w) = flush st ++ [w] \/
  exists cur, cur <> [] /\ flush st = fst st ++ [cur] /\
              flush (wrap_word n st w) = fst st ++ [cur ++ py " " ++ w] /\
              Py.len (cur ++ py " " ++ w) <= n.
Proof.
  intros Hw. destruct st as [lines cur]. unfold wrap_word.
  destruct (Py.len (cur ++ py " " ++ w) <=? n) eqn:E.
  - destruct cur as [|c cur].
    + left. unfold flush. simpl. destruct w; [congruence|reflexivity].
    + right. exists (c :: cur). apply Z.leb_le in E.
      split; [discriminate|]. split; [reflexivity|]. split; [reflexivity|exact E].
  - left. unfold flush. cbn [fst snd]. destruct w as [|d w]; [congruence|].
    destruct cur; reflexivity.
Qed.

Lemma wrap_fold_join n : forall words st,
  (forall w, In w words -> w <> []) ->
  Py.join (py " ") (flush (fold_left (wrap_word n) words st))
  = Py.join (py " ") (flush st ++ words).
Proof.
  induction words as [|w ws IH]; intros st Hw; [now rewrite app_nil_r|].
  cbn [fold_left]. rewrite IH by (intros x Hx; apply Hw; now right).
  destruct (flush_wrap_word n st w (Hw w (or_introl eq_refl)))
    as [E|(cur & _ & E1 & E2 & _)].
  - rewrite E. now rewrite <- app_assoc.
  - rewrite E1, E2, <- !app_assoc. apply join_merge.
Qed.

Lemma wrap_fold_lines n (P : str -> Prop) : forall words st,
  (forall w, In w words -> w <> [] /\ P w) ->
  (forall a b, a <> [] -> P a -> P b -> Py.len (a ++ py " " ++ b) <= n -> P (a ++ py " " ++ b)) ->
  Forall (fun l => l <> [] /\ P l) (flush st) ->
  Forall (fun l => l <> [] /\ P l) (flush (fold_left (wrap_word n) words st)).
Proof.
  induction words as [|w ws IH]; intros st Hw Hj Hst; [exact Hst|].
  cbn [fold_left]. apply IH; [intros x Hx; apply Hw; now right|exact Hj|].
  destruct (Hw w (or_introl eq_refl)) as [Hne HP].
  destruct (flush_wrap_word n st w Hne) as [E|(cur & Hc & E1 & E2 & Hlen)].
  - rewrite E. apply Forall_app. split; [exact Hst|]. now constructor.
  - rewrite E2. rewrite E1 in Hst. apply Forall_app in Hst. destruct Hst as [H1 H2].
    apply Forall_app. split; [exact H1|]. constructor; [|constructor].
    inversion H2 as [|? ? [_ Hpc] _]; subst. split.
    + destruct cur; [congruence|discriminate].
    + now apply Hj.
Qed.

(** X2.  [_wrap_single_line] keeps the words: the lines joined by single
    spaces are the words of the text joined by single spaces, for every
    text and every line width. *)
Theorem wrap_single_line_keeps_words :
  forall (text : str) (chars_per_line : Z),
    Py.join (py " ") (_wrap_single_line text chars_per_line)
    = Py.join (py " ") (Py.split_ws text).
Proof.
  intros text n. unfold _wrap_single_line.
  rewrite wrap_fold_join by (intros w Hw; now apply split_ws_words in Hw).
  reflexivity.
Qed.

(** X3.  No line [_wrap_single_line] returns is empty, and a line longer
    than [chars_per_line] is a single word of the text: words are never
    split, and no line exceeds the width by joining words. *)
Theorem wrap_single_line_widths :
  forall (text : str) (chars_per_line : Z),
    Forall (fun line => line <> [] /\
                        (Py.len line <= chars_per_line \/ In line (Py.split_ws text)))
           (_wrap_single_line text chars_per_line).
Proof.
  intros text n. unfold _wrap_single_line.
  apply (wrap_fold_lines n
           (fun l => Py.len l <= n \/ In l (Py.split_ws text))).
  - intros w Hw. split; [now apply split_ws_words in Hw|now right].
  - intros a b _ _ _ H. now left.
  - constructor.
Qed.

Lemma wrap_lines_no_newline text n :
  Forall (fun l => l <> [] /\ ~ In 10%N l) (_wrap_single_line text n).
Proof.
  unfold _wrap_single_line. apply (wrap_fold_lines n (fun l => ~ In 10%N l)).
  - intros w Hw. apply split_ws_words in Hw. destruct Hw as [Hne Hs]. split; [exact Hne|].
    intros H. unfold solid in Hs. rewrite forallb_forall in Hs.
    apply Hs in H. discriminate H.
  - intros a b _ Ha Hb _ H. apply in_app_or in H. destruct H as [H|H]; [contradiction|].
    apply in_app_or in H. destruct H as [H|H]; [|contradiction].
    destruct H as [H|[]]. discriminate H.
  - constructor.
Qed.

Lemma wrap_blank text n : Py.split_ws text = [] -> _wrap_single_line text n = [].
Proof. unfold _wrap_single_line. now intros ->. Qed.

(** *** [_calculate_wrapped_lines] *)

Lemma contains_char c x : Py.contains [c] x = true <-> In c x.
Proof.
  induction x as [|d x IH]; [simpl; split; [discriminate|tauto]|].
  change (Py.contains [c] (d :: x))
    with (((c =? d)%N && true) || Py.contains [c] x).
  rewrite orb_true_iff, andb_true_r, IH, N.eqb_eq. simpl. split; intros [H|H]; auto.
Qed.

(** X4.  The lines [_calculate_wrapped_lines] returns hold no line feed:
    joined with line feeds, as the content element stores them, they
    split back into the same lines, so the text of the element has as
    many lines as its height counts. *)
Theorem wrapped_lines_round_trip :
  forall (text : str) (chars_per_line : Z),
    _calculate_wrapped_lines text chars_per_line <> [] ->
    Py.split_on 10%N (Py.join newline (_calculate_wrapped_lines text chars_per_line))
    = _calculate_wrapped_lines text chars_per_line.
Proof.
  intros text n Hne. apply split_on_join; [exact Hne|].
  intros l Hl. unfold _calculate_wrapped_lines in Hl.
  destruct (Py.contains newline text).
  - apply in_flat_map in Hl. destruct Hl as (p & Hp & Hl).
    destruct (Py.len p <=? n).
    + destruct Hl as [<-|[]]. now apply split_on_pieces in Hp.
    + pose proof (wrap_lines_no_newline p n) as H. rewrite Forall_forall in H.
      now apply H.
  - pose proof (wrap_lines_no_newline text n) as H. rewrite Forall_forall in H.
    now apply H.
Qed.

Lemma wrapped_lines_round_trip_witness :
  Py.split_on 10%N (Py.join newline (_calculate_wrapped_lines (py "plants make food from light") 12))
  = [py "plants make"; py "food from"; py "light"].
Proof.
  rewrite (wrapped_lines_round_trip (py "plants make food from light") 12).
  - vm_compute. reflexivity.
  - vm_compute. discriminate.
Defined.

(** *** [_create_content_element] *)

(** X5.  A blank content text cannot be rendered: for a text without a
    line feed and without a word that is not longer than [maxChars],
    [_create_content_element] raises (there is no line whose length
    [max] could take), whatever the layout, the container and the font
    size. *)
Theorem content_element_blank_text_raises :
  forall (cfg : config) (text : str) (cs : ContainerSize) (base_font_size : Z)
         (heading_height : float),
    Py.split_ws text = [] ->
    Py.contains newline text = false ->
    (forall m, Py.get_or cfg (py "maxChars") (JInt 300) = JInt m -> Py.len text <= m) ->
    _create_content_element cfg text cs base_font_size heading_height = None.
Proof.
  intros cfg text cs b hh Hblank Hnl Hmax. unfold _create_content_element.
  destruct (Py.get_or cfg (py "maxChars") (JInt 300)) as [|m] eqn:Em; [reflexivity|].
  specialize (Hmax m eq_refl).
  assert (Ht : _truncate_text text m = text).
  { unfold _truncate_text. apply Z.leb_le in Hmax. now rewrite Hmax. }
  rewrite Ht.
  assert (Hlines : forall n,
            _calculate_wrapped_lines
              match Py.get cfg (py "format") with
              | Some (JStr f) => if Py.eqb f (py "bullets") then _format_bullets text else text
              | _ => text
              end n = []).
  { intros n.
    assert (Hplain : _calculate_wrapped_lines text n = []).
    { unfold _calculate_wrapped_lines. rewrite Hnl. now apply wrap_blank. }
    destruct (Py.get cfg (py "format")) as [[f|]|]; try exact Hplain.
    destruct (Py.eqb f (py "bullets")); [|exact Hplain].
    assert (Hs : Py.split_on 10%N text = [text]).
    { unfold Py.split_on. rewrite <- (app_nil_r text) at 1.
      rewrite split_on_aux_app.
      - simpl. now rewrite app_nil_r, rev_involutive.
      - intros H. apply contains_char in H. unfold newline in Hnl. congruence. }
    unfold _format_bullets. rewrite Hs. cbn [map Py.join].
    assert (Hstrip : Py.strip text = []).
    { revert Hblank. clear. unfold Py.split_ws, Py.strip.
      assert (H : forall x cur, Py.split_ws_aux cur x = [] -> cur = [] /\ Py.lstrip x = []).
      { induction x as [|c r IH]; intros cur H.
        - simpl in H. destruct cur; [auto|discriminate].
        - simpl in H. simpl. destruct (Py.isspace c).
          + destruct cur; [|discriminate]. split; [reflexivity|]. now apply (IH []).
          + apply IH in H. destruct H as [H _]. discriminate H. }
      intros Hb. apply H in Hb. destruct Hb as [_ ->]. reflexivity. }
    unfold format_line. rewrite Hstrip. reflexivity. }
  destruct (fdiv _ _) as [q|]; [|reflexivity].
  destruct (PyFloat.to_int q) as [n|]; [|reflexivity].
  rewrite Hlines. reflexivity.
Qed.

Lemma content_element_blank_text_raises_witness :
  _create_content_element left_content (py "   ") desktop 20 0%float = None /\
  exists el, _create_content_element left_content (py "Plants") desktop 20 0%float = Some el.
Proof.
  split.
  - apply content_element_blank_text_raises; try reflexivity.
    intros m H. vm_compute in H. injection H as <-. vm_compute. discriminate.
  - eexists. vm_compute. reflexivity.
Defined.

End RenderFacts.

(** ** The template catalog: selection and fallback *)

Module CatalogFacts.

Import PyFacts TemplateService TemplateRender TemplateCatalog.

Local Open Scope Z_scope.

(** *** The stable sort by score *)

Lemma insert_by_score_in {T} (x y : T * Q) l :
  In y (insert_by_score x l) <-> y = x \/ In y l.
Proof.
  induction l as [|z l IH]; simpl; [intuition congruence|].
  destruct (Qle_bool (snd x) (snd z)); simpl; rewrite ?IH; intuition congruence.
Qed.

Lemma sort_by_score_in {T} (y : T * Q) : forall l acc,
  In y (fold_left (fun acc x => insert_by_score x acc) l acc) <-> In y l \/ In y acc.
Proof.
  induction l as [|x l IH]; intros acc; simpl; [tauto|].
  rewrite IH, insert_by_score_in. intuition congruence.
Qed.

Lemma insert_by_score_head {T} (x : T * Q) l :
  head_is_best l -> head_is_best (insert_by_score x l).
Proof.
  destruct l as [|z l]; simpl; [intros _ y []|].
  intros H. destruct (Qle_bool (snd x) (snd z)) eqn:E; simpl.
  - intros y Hy. apply insert_by_score_in in Hy. destruct Hy as [->|Hy]; [|now apply H].
    now apply Qle_bool_iff.
  - assert (Hlt : (snd z < snd x)%Q).
    { apply Qnot_le_lt. intros Hle. apply Qle_bool_iff in Hle. congruence. }
    intros y [<-|Hy]; [now apply Qlt_le_weak|].
    apply Qle_trans with (snd z); [now apply H|now apply Qlt_le_weak].
Qed.

Lemma sort_by_score_head {T} : forall (l acc : list (T * Q)),
  head_is_best acc -> head_is_best (fold_left (fun acc x => insert_by_score x acc) l acc).
Proof.
  induction l as [|x l IH]; intros acc H; simpl; [exact H|].
  apply IH. now apply insert_by_score_head.
Qed.

Lemma in_category c category t :
  In t (get_templates_by_category c category) -> ti_category t = category.
Proof.
  unfold get_templates_by_category. intros H. apply in_map_iff in H.
  destruct H as (x & <- & Hx). apply filter_In in Hx. destruct Hx as [_ Hx].
  apply py_eqb_eq in Hx. exact Hx.
Qed.

Lemma select_best_in c category ctx best :
  select_best_template c category ctx = Some best ->
  In best (get_templates_by_category c category).
Proof.
  unfold select_best_template.
  destruct (get_templates_by_category c category) as [|t1 [|t2 rest]]; [discriminate| |].
  - intros [= <-]. now left.
  - set (l := t1 :: t2 :: rest).
    destruct (sort_by_score_desc _) as [|[b sc] r] eqn:Es; [discriminate|].
    intros [= <-].
    assert (H : In (b, sc) (sort_by_score_desc
                              (map (fun t => (t, _calculate_template_score t ctx)) l)))
      by (rewrite Es; now left).
    unfold sort_by_score_desc in H. apply sort_by_score_in in H.
    destruct H as [H|[]]. apply in_map_iff in H. now destruct H as (x & [= -> _] & Hx).
Qed.

(** X6.  [select_best_template] returns nothing exactly when the category
    has no template.  What it returns is a template of the category whose
    score no other template of the category exceeds. *)
Theorem select_best_template_is_best :
  forall (c : cache) (category : str) (ctx : score_context),
    (select_best_template c category ctx = None
     <-> get_templates_by_category c category = []) /\
    (forall best, select_best_template c category ctx = Some best ->
       In best (get_templates_by_category c category) /\
       ti_category best = category /\
       forall t, In t (get_templates_by_category c category) ->
         (_calculate_template_score t ctx <= _calculate_template_score best ctx)%Q).
Proof.
  intros c category ctx. unfold select_best_template.
  destruct (get_templates_by_category c category) as [|t1 [|t2 rest]] eqn:E.
  - split; [tauto|discriminate].
  - split; [split; discriminate|]. intros best [= <-].
    split; [now left|]. split.
    + apply (in_category c category). rewrite E. now left.
    + intros t [<-|[]]. apply Qle_refl.
  - set (l := t1 :: t2 :: rest) in *.
    set (scored := map (fun t => (t, _calculate_template_score t ctx)) l).
    pose proof (sort_by_score_head scored [] I) as Hhead.
    assert (Hin : forall y, In y (sort_by_score_desc scored) <-> In y scored).
    { intros y. unfold sort_by_score_desc. rewrite sort_by_score_in. simpl. tauto. }
    fold (sort_by_score_desc scored) in Hhead.
    destruct (sort_by_score_desc scored) as [|[best sc] r] eqn:Es.
    + exfalso. apply (proj2 (Hin (t1, _calculate_template_score t1 ctx))).
      subst scored l. now left.
    + split; [split; discriminate|]. intros b [= <-].
      assert (Hb : In (best, sc) scored) by (apply Hin; now left).
      apply in_map_iff in Hb. destruct Hb as (x & [= -> <-] & Hx).
      split; [exact Hx|]. split.
      * apply (in_category c category). rewrite E. exact Hx.
      * intros t Ht.
        assert (Hy : In (t, _calculate_template_score t ctx) scored)
          by (apply in_map_iff; eauto).
        apply Hin in Hy. destruct Hy as [[= -> _]|Hy]; [apply Qle_refl|].
        exact (Hhead _ Hy).
Qed.

Lemma select_best_template_is_best_witness :
  exists best,
    select_best_template two_definitions (py "definition") intermediate_context = Some best /\
    ti_id best = py "definition-2" /\
    forall t, In t (get_templates_by_category two_definitions (py "definition")) ->
      (_calculate_template_score t intermediate_context
       <= _calculate_template_score best intermediate_context)%Q.
Proof.
  eexists. split; [vm_compute; reflexivity|]. split; [reflexivity|].
  apply (proj2 (select_best_template_is_best two_definitions (py "definition")
                  intermediate_context)).
  vm_compute. reflexivity.
Defined.

(** X7.  [get_template_with_fallback] raises only for an empty catalog.
    When the primary template exists it is the one returned; otherwise
    the result is a template of the requested category whenever the
    category has one. *)
Theorem template_fallback_total :
  forall (c : cache) (primary_template_id category difficulty_level : str),
    (get_template_with_fallback c primary_template_id category difficulty_level = None
     <-> c = []) /\
    (forall t, get_template c primary_template_id = Some t ->
       get_template_with_fallback c primary_template_id category difficulty_level
       = Some (info_of t)) /\
    (get_template c primary_template_id = None ->
     get_templates_by_category c category <> [] ->
     exists t, get_template_with_fallback c primary_template_id category difficulty_level
               = Some t /\ ti_category t = category).
Proof.
  intros c pid cat d. unfold get_template_with_fallback. repeat split.
  - destruct (get_template c pid) eqn:Eg; [discriminate|].
    destruct (select_best_template c cat _); [discriminate|].
    destruct (get_templates_by_category c cat); [|discriminate].
    destruct c as [|[k t] c']; [reflexivity|discriminate].
  - intros ->. reflexivity.
  - intros t ->. reflexivity.
  - intros -> Hne.
    destruct (select_best_template c cat _) as [b|] eqn:Es.
    + exists b. split; [reflexivity|].
      apply (in_category c cat). eapply select_best_in; eauto.
    + destruct (get_templates_by_category c cat) as [|t r] eqn:E; [congruence|].
      exists t. split; [reflexivity|]. apply (in_category c cat). rewrite E. now left.
Qed.

Lemma template_fallback_total_witness :
  exists t, get_template_with_fallback two_definitions (py "definition-9") (py "definition")
              (py "intermediate") = Some t /\ ti_category t = py "definition".
Proof.
  apply (proj2 (proj2 (template_fallback_total two_definitions (py "definition-9")
                         (py "definition") (py "intermediate")))).
  - reflexivity.
  - vm_compute. discriminate.
Defined.

(** *** Font sizes *)

Lemma heading_font_size_bounds b label :
  14 <= b <= 24 ->
  exists fs, heading_font_size b label = Some fs /\ (16 <= fs <= 62) /\
             (b <= 18 -> fs <= 46) /\ (17 <= b -> 20 <= fs) /\ (18 <= b -> 21 <= fs) /\
             (b <= 20 -> fs <= 52).
Proof.
  intros Hb.
  assert (Hc : b = 14 \/ b = 15 \/ b = 16 \/ b = 17 \/ b = 18 \/ b = 19 \/ b = 20 \/
               b = 21 \/ b = 22 \/ b = 23 \/ b = 24) by lia.
  assert (Hl : forall sm md lg xl xxl dflt,
             In (font_table sm md lg xl xxl dflt label) [sm; md; lg; xl; xxl; dflt]).
  { intros. destruct label as [l|z]; [|simpl; tauto].
    unfold font_table, Py.get_or, Py.get.
    repeat match goal with |- context [Py.eqb ?a ?b] => destruct (Py.eqb a b) end;
      simpl; tauto. }
  repeat (destruct Hc as [->|Hc]); [..|subst b];
    match goal with |- context [heading_font_size ?n _] =>
      let m := eval vm_compute in
        (heading_font_size n (JStr (py "small")), heading_font_size n (JStr (py "medium")),
         heading_font_size n (JStr (py "large")), heading_font_size n (JStr (py "xlarge")),
         heading_font_size n (JStr (py "xxlarge"))) in
      match m with
      | (Some ?sm, Some ?md, Some ?lg, Some ?xl, Some ?xxl) =>
          exists (font_table sm md lg xl xxl (n * 2) label);
          split; [destruct label; vm_compute; reflexivity|];
          specialize (Hl sm md lg xl xxl (n * 2));
          set (f := font_table sm md lg xl xxl (n * 2) label) in *;
          cbn [In] in Hl; lia
      end
    end.
Qed.

Lemma base_font_size_range cs :
  (14 <= _calculate_base_font_size cs <= 24) /\
  (width cs < 768 -> _calculate_base_font_size cs <= 18) /\
  (1024 <= width cs -> 18 <= _calculate_base_font_size cs).
Proof.
  unfold _calculate_base_font_size.
  destruct (width cs <? 768) eqn:E1; [apply Z.ltb_lt in E1; lia|].
  apply Z.ltb_ge in E1. destruct (width cs <? 1024) eqn:E2.
  - apply Z.ltb_lt in E2. lia.
  - apply Z.ltb_ge in E2. lia.
Qed.

(** X8.  The base font size follows the breakpoint: 14 to 18 on a mobile
    container, 17 to 20 on a tablet, 18 to 24 on a desktop, so 14 to 24
    for every width (also a width of zero or below). *)
Theorem base_font_size_by_breakpoint :
  forall cs : ContainerSize,
    (14 <= _calculate_base_font_size cs <= 24) /\
    (breakpoint cs = py "mobile" -> _calculate_base_font_size cs <= 18) /\
    (breakpoint cs = py "tablet" -> 17 <= _calculate_base_font_size cs <= 20) /\
    (breakpoint cs = py "desktop" -> 18 <= _calculate_base_font_size cs).
Proof.
  intros cs. unfold _calculate_base_font_size, breakpoint.
  destruct (width cs <? 768) eqn:E1.
  - repeat split; try lia; discriminate.
  - apply Z.ltb_ge in E1. destruct (width cs <? 1024) eqn:E2.
    + apply Z.ltb_lt in E2.
      assert (17 <= width cs / 45) by (apply Z.div_le_lower_bound; lia).
      repeat split; try lia; discriminate.
    + apply Z.ltb_ge in E2.
      assert (17 <= width cs / 60) by (apply Z.div_le_lower_bound; lia).
      repeat split; try lia; discriminate.
Qed.

Lemma base_font_size_by_breakpoint_witness :
  17 <= _calculate_base_font_size {| width := 800; height := 600 |} <= 20.
Proof.
  apply (proj1 (proj2 (proj2 (base_font_size_by_breakpoint {| width := 800; height := 600 |})))).
  reflexivity.
Defined.

(** X9.  For every container and every heading layout for which
    [_create_heading_element] returns, the heading's font size is an
    integer from 16 to 62; it is at most 46 on a mobile container and at
    least 21 on a desktop. *)
Theorem heading_font_size_every_width :
  forall (cfg : config) (text : str) (cs : ContainerSize) (el : TemplateElement),
    _create_heading_element cfg text cs (_calculate_base_font_size cs) = Some el ->
    (16 <= fontSize el <= 62) /\
    (width cs < 768 -> fontSize el <= 46) /\
    (1024 <= width cs -> 21 <= fontSize el).
Proof.
  intros cfg text cs el H.
  unfold _create_heading_element in H.
  destruct (base_font_size_range cs) as (Hb & Hm & Hd).
  destruct (heading_font_size_bounds (_calculate_base_font_size cs)
              (Py.get_or cfg (py "fontSize") (JStr (py "large"))) Hb)
    as (fs & E & Hfs & H18 & _ & H21 & _).
  rewrite E in H.
  destruct (Py.get_or cfg (py "maxChars") (JInt 50)); [discriminate|].
  destruct (Py.get cfg (py "position")); [|discriminate].
  injection H as <-. cbn [fontSize]. repeat split; lia.
Qed.

Lemma heading_font_size_every_width_witness :
  exists el, _create_heading_element small_heading (py "Photosynthesis") desktop
               (_calculate_base_font_size desktop) = Some el /\
             16 <= fontSize el <= 62.
Proof.
  eexists. split; [vm_compute; reflexivity|].
  eapply (proj1 (heading_font_size_every_width small_heading (py "Photosynthesis") desktop _ _)).
  Unshelve. vm_compute. reflexivity.
Defined.

End CatalogFacts.

(** ** The lesson planner and the catalog it reads *)

Module StructureFacts.

Import PyFacts TemplateService TemplateCatalog LessonStructure PlannerFacts CatalogFacts.

Local Open Scope Z_scope.

(** *** Loading the catalog *)

Lemma dict_set_in {V} (d : list (str * V)) k v kv :
  In kv (dict_set d k v) -> kv = (k, v) \/ In kv d.
Proof.
  induction d as [|[k' v'] d IH]; simpl.
  - intros [<-|[]]. now left.
  - destruct (Py.eqb k' k) eqn:E.
    + apply py_eqb_eq in E. subst k'. intros [<-|H]; [now left|right; now right].
    + intros [<-|H]; [right; now left|]. apply IH in H. tauto.
Qed.

Lemma get_dict_set_same {V} (d : list (str * V)) k v : Py.get (dict_set d k v) k = Some v.
Proof.
  induction d as [|[k' v'] d IH]; simpl; [now rewrite py_eqb_refl|].
  destruct (Py.eqb k' k) eqn:E; simpl; now rewrite E.
Qed.

Lemma get_dict_set_other {V} (d : list (str * V)) k v k' :
  k <> k' -> Py.get (dict_set d k v) k' = Py.get d k'.
Proof.
  intros Hk. induction d as [|[k0 v0] d IH]; simpl.
  - destruct (Py.eqb k k') eqn:E; [apply py_eqb_eq in E; congruence|reflexivity].
  - destruct (Py.eqb k0 k) eqn:E; simpl.
    + apply py_eqb_eq in E. subst k0.
      destruct (Py.eqb k k') eqn:E'; [apply py_eqb_eq in E'; congruence|reflexivity].
    + destruct (Py.eqb k0 k'); [reflexivity|exact IH].
Qed.

Lemma dict_set_nonempty {V} (d : list (str * V)) k v : dict_set d k v <> [].
Proof. destruct d as [|[k' v'] d]; simpl; [discriminate|]. destruct (Py.eqb k' k); discriminate. Qed.

Lemma get_in {V} (d : list (str * V)) k v : Py.get d k = Some v -> In (k, v) d.
Proof.
  induction d as [|[k' v'] d IH]; simpl; [discriminate|].
  destruct (Py.eqb k' k) eqn:E.
  - apply py_eqb_eq in E. subst. intros [= <-]. now left.
  - intros H. right. now apply IH.
Qed.

Lemma in_get {V} (d : list (str * V)) k v : In (k, v) d -> exists v', Py.get d k = Some v'.
Proof.
  induction d as [|[k' v'] d IH]; simpl; [tauto|].
  intros [[= -> ->]|H].
  - rewrite py_eqb_refl. eauto.
  - destruct (Py.eqb k' k); [eauto|now apply IH].
Qed.

Lemma load_fold (templates : list template) : forall c0,
  let c := fold_left (fun tc t => dict_set tc (t_id t) t) templates c0 in
  (keyed_by_id c0 -> keyed_by_id c) /\
  (forall kt, In kt c -> In kt c0 \/ In (snd kt) templates) /\
  (forall t, In t templates -> exists t', Py.get c (t_id t) = Some t' /\ t_id t' = t_id t) /\
  (forall k t0, Py.get c0 k = Some t0 -> t_id t0 = k ->
                exists t', Py.get c k = Some t' /\ t_id t' = k) /\
  (templates <> [] -> c <> []).
Proof.
  induction templates as [|t ts IH]; intros c0; cbn zeta.
  - simpl. repeat split; try tauto; try congruence. intros k t0 H1 H2. eauto.
  - cbn [fold_left]. specialize (IH (dict_set c0 (t_id t) t)). cbn zeta in IH.
    destruct IH as (I1 & I2 & I3 & I4 & I5). repeat split.
    + intros Hk. apply I1. apply Forall_forall. intros kt Hkt.
      apply dict_set_in in Hkt. destruct Hkt as [->|Hkt]; [reflexivity|].
      unfold keyed_by_id in Hk. rewrite Forall_forall in Hk. now apply Hk.
    + intros kt Hkt. apply I2 in Hkt. destruct Hkt as [Hkt|Hkt]; [|right; now right].
      apply dict_set_in in Hkt. destruct Hkt as [->|Hkt]; [right; now left|now left].
    + intros x [<-|Hx]; [|now apply I3].
      apply (I4 (t_id t) t); [apply get_dict_set_same|reflexivity].
    + intros k t0 H1 H2. destruct (list_eq_dec N.eq_dec (t_id t) k) as [E|E].
      * apply (I4 k t); [rewrite <- E; apply get_dict_set_same|exact E].
      * apply (I4 k t0); [|exact H2]. now rewrite get_dict_set_other.
    + intros _. destruct ts as [|t2 ts]; [apply dict_set_nonempty|].
      apply I5. discriminate.
Qed.

(** X10.  After [_load_templates] every template of the file is found under
    its id, and what [get_template] finds under an id is a template of
    the file with that id; an id the file does not list is not found. *)
Theorem load_templates_lookup :
  forall (templates : list template),
    (forall t, In t templates ->
       exists t', get_template (_load_templates templates) (t_id t) = Some t' /\
                  t_id t' = t_id t /\ In t' templates) /\
    (forall id t', get_template (_load_templates templates) id = Some t' ->
       t_id t' = id /\ In t' templates).
Proof.
  intros templates. unfold _load_templates, get_template.
  destruct (load_fold templates []) as (H1 & H2 & H3 & _).
  assert (Hfound : forall id t',
             Py.get (fold_left (fun tc t => dict_set tc (t_id t) t) templates []) id = Some t' ->
             t_id t' = id /\ In t' templates).
  { intros id t' Hg. apply get_in in Hg. split.
    - specialize (H1 (Forall_nil _)). unfold keyed_by_id in H1.
      rewrite Forall_forall in H1. symmetry. exact (H1 _ Hg).
    - apply H2 in Hg. destruct Hg as [[]|Hg]. exact Hg. }
  split; [|exact Hfound].
  intros t Ht. destruct (H3 t Ht) as (t' & Hg & Hid).
  exists t'. repeat split; auto. now apply (Hfound (t_id t)).
Qed.

Lemma load_templates_lookup_witness :
  exists t', get_template (_load_templates (map snd one_template_cache)) (py "definition-1")
             = Some t' /\ t_id t' = py "definition-1".
Proof.
  destruct (proj1 (load_templates_lookup (map snd one_template_cache))
              (snd (hd (py "", Build_template [] [] [] None None []) one_template_cache)))
    as (t' & H1 & H2 & _).
  - vm_compute. now left.
  - exists t'. split; [exact H1|exact H2].
Defined.

(** *** Section selection *)

(** X11.  The sections grow with the target duration: a longer lesson keeps
    every section of a shorter one, every lesson has the four core
    sections, and a lesson has 4, 6 or 9 sections. *)
Theorem sections_grow_with_duration :
  forall d1 d2 : Q,
    (d1 <= d2)%Q ->
    incl (_select_sections_for_duration d1) (_select_sections_for_duration d2) /\
    incl (sections_in core4) (_select_sections_for_duration d1) /\
    In (List.length (_select_sections_for_duration d1)) [4; 6; 9]%nat.
Proof.
  intros d1 d2 H. unfold _select_sections_for_duration.
  assert (H90 : Qle_bool 90 d1 = true -> Qle_bool 90 d2 = true).
  { intros E. apply Qle_bool_iff. apply Qle_bool_iff in E. eapply Qle_trans; eauto. }
  assert (H180 : Qle_bool 180 d1 = true -> Qle_bool 180 d2 = true).
  { intros E. apply Qle_bool_iff. apply Qle_bool_iff in E. eapply Qle_trans; eauto. }
  assert (H18090 : Qle_bool 180 d1 = true -> Qle_bool 90 d1 = true).
  { intros E. apply Qle_bool_iff. apply Qle_bool_iff in E.
    eapply Qle_trans; [|exact E]. discriminate. }
  destruct (Qle_bool 90 d1) eqn:E1; cbn [negb].
  - rewrite (H90 eq_refl). cbn [negb].
    destruct (Qle_bool 180 d1) eqn:E2; cbn [negb].
    + rewrite (H180 eq_refl). cbn [negb]. repeat split.
      * apply incl_refl.
      * vm_compute. intuition.
      * vm_compute. intuition.
    + repeat split.
      * destruct (Qle_bool 180 d2); cbn [negb]; [vm_compute; intuition|apply incl_refl].
      * vm_compute. intuition.
      * vm_compute. intuition.
  - repeat split.
    + destruct (Qle_bool 90 d2); cbn [negb]; [|apply incl_refl].
      destruct (Qle_bool 180 d2); cbn [negb]; vm_compute; intuition.
    + apply incl_refl.
    + vm_compute. intuition.
Qed.

Lemma sections_grow_with_duration_witness :
  incl (_select_sections_for_duration 60) (_select_sections_for_duration 120).
Proof.
  apply (proj1 (sections_grow_with_duration 60 120 ltac:(discriminate))).
Defined.

(** *** The slides of a lesson structure *)

Lemma category_in_cache c category t :
  In t (get_templates_by_category c category) ->
  exists x, In x (map snd c) /\ t = info_of x.
Proof.
  unfold get_templates_by_category. intros H. apply in_map_iff in H.
  destruct H as (x & <- & Hx). apply filter_In in Hx. exists x. tauto.
Qed.

Lemma fallback_in_cache c pid cat d t :
  get_template_with_fallback c pid cat d = Some t ->
  exists x, In x (map snd c) /\ t = info_of x.
Proof.
  unfold get_template_with_fallback.
  destruct (get_template c pid) as [x|] eqn:Eg.
  - intros [= <-]. exists x. split; [|reflexivity].
    apply get_in in Eg. apply in_map_iff. now exists (pid, x).
  - destruct (select_best_template c cat _) as [b|] eqn:Es.
    + intros [= <-]. apply select_best_in in Es. eapply category_in_cache; eauto.
    + destruct (get_templates_by_category c cat) as [|b r] eqn:Ec.
      * destruct c as [|[k x] c']; [discriminate|].
        intros [= <-]. exists x. split; [now left|reflexivity].
      * intros [= <-]. apply (category_in_cache c cat). rewrite Ec. now left.
Qed.

Lemma optimal_in_cache c s d ta t :
  _select_optimal_template c s d ta = Some t ->
  exists x, In x (map snd c) /\ t = info_of x.
Proof.
  unfold _select_optimal_template.
  destruct (select_best_template c (content_type s) _) as [b|] eqn:Es.
  - intros [= <-]. apply select_best_in in Es. eapply category_in_cache; eauto.
  - apply fallback_in_cache.
Qed.

Lemma slide_loop_slides c topic d ta mult scale n : forall rest i sl,
  slide_loop c topic d ta mult scale n i rest = Some sl ->
  Forall (fun s => (exists x, In x (map snd c) /\ ss_template_id s = t_id x /\
                              ss_template_name s = t_name x) /\
                   slide_position (layout_hints s) = slide_number s - 1 /\
                   lh_total_slides (layout_hints s) = n) sl.
Proof.
  induction rest as [|s rest IH]; intros i sl H; simpl in H.
  - injection H as <-. constructor.
  - destruct (_select_optimal_template c s d ta) as [t|] eqn:Et; [|discriminate].
    destruct (slide_loop c topic d ta mult scale n (i + 1) rest) as [more|] eqn:Em;
      [|discriminate].
    injection H as <-. constructor; [|eapply IH; eauto].
    cbn [ss_template_id ss_template_name layout_hints slide_position lh_total_slides
         slide_number].
    apply optimal_in_cache in Et. destruct Et as (x & Hx & ->).
    split; [exists x; auto|]. split; [lia|reflexivity].
Qed.

Lemma slide_loop_empty_cache topic d ta mult scale n i s rest :
  slide_loop [] topic d ta mult scale n i (s :: rest) = None.
Proof. reflexivity. Qed.

Lemma keyed_lookup c x :
  keyed_by_id c -> In x (map snd c) -> exists t, get_template c (t_id x) = Some t.
Proof.
  intros Hk Hx. apply in_map_iff in Hx. destruct Hx as ([k y] & <- & Hin).
  unfold keyed_by_id in Hk. rewrite Forall_forall in Hk. pose proof (Hk _ Hin) as E.
  simpl in E. subst k. simpl. unfold get_template. eapply in_get; eauto.
Qed.

(** X12.  For a catalog loaded from a file with at least one template,
    [analyze_topic_structure] returns for every topic, difficulty and
    target duration; the structure has one slide per selected section, in
    order and numbered 1, 2, ..., its [layout_hints] carry the position
    and the number of slides, and [get_template] finds the template of
    every slide.  With an empty catalog it raises. *)
Theorem lesson_structure_is_consistent :
  forall (templates : list template) (llm : option topic_analysis)
         (topic difficulty : str) (target : Q),
    analyze_topic_structure [] llm topic difficulty target = None /\
    (templates <> [] ->
     exists ls,
       analyze_topic_structure (_load_templates templates) llm topic difficulty target
       = Some ls /\
       total_slides ls = Z.of_nat (List.length (slides ls)) /\
       content_flow ls = map content_type (_select_sections_for_duration target) /\
       map slide_number (slides ls)
       = map (fun k => Z.of_nat k + 1) (seq 0 (List.length (slides ls))) /\
       Forall (fun s =>
                 (exists t, get_template (_load_templates templates) (ss_template_id s)
                            = Some t) /\
                 slide_position (layout_hints s) = slide_number s - 1 /\
                 lh_total_slides (layout_hints s) = total_slides ls)
              (slides ls)).
Proof.
  intros templates llm tp d target. split.
  - unfold analyze_topic_structure, _generate_slide_structures.
    assert (Hs : exists s rest, _select_sections_for_duration target = s :: rest).
    { unfold _select_sections_for_duration.
      destruct (negb (Qle_bool 90 target)); [vm_compute; eauto|].
      destruct (negb (Qle_bool 180 target)); vm_compute; eauto. }
    destruct Hs as (s & rest & ->). reflexivity.
  - intros Hne.
    destruct (load_fold templates []) as (Hk & _ & _ & _ & Hc).
    specialize (Hk (Forall_nil _)). specialize (Hc Hne).
    fold (_load_templates templates) in Hk, Hc.
    unfold analyze_topic_structure, _generate_slide_structures.
    match goal with |- context [slide_loop ?c ?t ?d ?ta ?m ?s ?n ?i ?r] =>
      destruct (slide_loop_some c t d ta m s n i r Hc) as (sl & E & H1 & _ & H3);
      pose proof (slide_loop_slides c t d ta m s n r i sl E) as H4;
      rewrite E
    end.
    eexists. split; [reflexivity|].
    cbn [total_slides content_flow slides].
    assert (Hlen : List.length sl = List.length (_select_sections_for_duration target)).
    { rewrite <- (length_map ss_content_type sl), H1. apply length_map. }
    repeat split.
    + exact H1.
    + rewrite H3, Hlen. apply map_ext. intros k. lia.
    + eapply Forall_impl; [|exact H4]. cbv beta.
      intros s ((x & Hx & Hid & _) & Hp & Ht). repeat split.
      * rewrite Hid. now apply keyed_lookup.
      * exact Hp.
      * rewrite Ht, Hlen. reflexivity.
Qed.

Lemma lesson_structure_is_consistent_witness :
  exists ls,
    analyze_topic_structure (_load_templates (map snd one_template_cache)) None
      (py "Photosynthesis") (py "beginner") 60 = Some ls /\
    content_flow ls = core4.
Proof.
  destruct (proj2 (lesson_structure_is_consistent (map snd one_template_cache) None
                     (py "Photosynthesis") (py "beginner") 60))
    as (ls & H & _ & Hf & _).
  - discriminate.
  - exists ls. split; [exact H|]. rewrite Hf. reflexivity.
Defined.

End StructureFacts.

(** ** Prompts written by the planner and read back by the tutor *)

Module PromptFacts.

Import PyFacts PyText Sanitizer SanitizerFacts RenderFacts TemplateService LessonStructure AITutor.

Local Open Scope Z_scope.

(** *** [str.find] *)

Lemma startswith_self p r : Py.startswith p (p ++ r) = true.
Proof. induction p as [|a p IH]; [reflexivity|]. simpl. now rewrite N.eqb_refl. Qed.

Lemma contains_prefix p r : Py.contains p (p ++ r) = true.
Proof.
  destruct (p ++ r) as [|c x] eqn:E; simpl; rewrite <- E, startswith_self; reflexivity.
Qed.

Lemma startswith_straddle c : forall p v Y,
  ~ In c p -> Py.startswith p (v ++ c :: Y) = true -> Py.startswith p v = true.
Proof.
  induction p as [|a p IH]; intros v Y Hc H; [reflexivity|].
  destruct v as [|b v]; simpl in H; apply andb_true_iff in H; destruct H as [H1 H2].
  - apply N.eqb_eq in H1. subst a. exfalso. apply Hc. now left.
  - simpl. rewrite H1. simpl. apply (IH v Y); [|exact H2].
    intros Hin. apply Hc. now right.
Qed.

Lemma contains_starts p x : Py.startswith p x = true -> Py.contains p x = true.
Proof. intros H. destruct x; simpl in *; rewrite H; reflexivity. Qed.

(** The search passes over a stretch in which [p] does not occur and
    which is followed by a character that [p] does not have. *)
Lemma find_go_pass c p : forall u Y i,
  p <> [] -> ~ In c p -> Py.contains p u = false ->
  find_go p (u ++ c :: Y) i = find_go p (c :: Y) (i + Py.len u).
Proof.
  induction u as [|a u IH]; intros Y i Hp Hc Hu.
  - change ([] ++ c :: Y) with (c :: Y).
    replace (i + Py.len []) with i by (unfold Py.len; simpl; lia). reflexivity.
  - change (Py.contains p (a :: u)) with (Py.startswith p (a :: u) || Py.contains p u) in Hu.
    apply orb_false_iff in Hu. destruct Hu as [H1 H2].
    change ((a :: u) ++ c :: Y) with (a :: (u ++ c :: Y)).
    cbn [find_go].
    destruct (Py.startswith p (a :: u ++ c :: Y)) eqn:E.
    + apply (startswith_straddle c p (a :: u) Y Hc) in E. congruence.
    + replace (i + Py.len (a :: u)) with (i + 1 + Py.len u)
        by (unfold Py.len; cbn [List.length]; lia).
      now apply IH.
Qed.

Lemma find_go_here p x i : Py.startswith p x = true -> find_go p x i = i.
Proof. intros H. destruct x; simpl; now rewrite H. Qed.

Lemma find_go_miss p c x i :
  Py.startswith p (c :: x) = false -> find_go p (c :: x) i = find_go p x (i + 1).
Proof. intros H. cbn [find_go]. now rewrite H. Qed.

Lemma contains_no_char c p u : In c p -> ~ In c u -> Py.contains p u = false.
Proof.
  intros Hp Hu. destruct (Py.contains p u) eqn:E; [|reflexivity]. exfalso.
  revert Hu E. induction u as [|a u IH]; intros Hu E.
  - destruct p; [contradiction|discriminate E].
  - change (Py.contains p (a :: u)) with (Py.startswith p (a :: u) || Py.contains p u) in E.
    apply orb_true_iff in E. destruct E as [E|E].
    + apply Hu. eapply startswith_in; eauto.
    + apply IH; [|exact E]. intros H. apply Hu. now right.
Qed.

Lemma find_go_char c : forall u Y i,
  ~ In c u -> find_go [c] (u ++ c :: Y) i = i + Py.len u.
Proof.
  induction u as [|a u IH]; intros Y i Hu.
  - change ([] ++ c :: Y) with (c :: Y). rewrite find_go_here.
    + unfold Py.len. simpl. lia.
    + simpl. now rewrite N.eqb_refl.
  - change ((a :: u) ++ c :: Y) with (a :: (u ++ c :: Y)).
    rewrite find_go_miss.
    + rewrite IH by (intros H; apply Hu; now right).
      unfold Py.len. cbn [List.length]. lia.
    + simpl. destruct (c =? a)%N eqn:E; [|reflexivity].
      apply N.eqb_eq in E. subst a. exfalso. apply Hu. now left.
Qed.

(** What follows a marker up to the next period is what the slice takes. *)
Lemma slice_after_marker (pre marker body rest : str) :
  ~ In 46%N body ->
  let x := pre ++ marker ++ body ++ 46%N :: rest in
  let start := Py.len pre + Py.len marker in
  find (py ".") x start <> -1 /\
  slice start (find (py ".") x start) x = body.
Proof.
  intros Hb x start.
  assert (Hlen : Py.len x = start + Py.len body + 1 + Py.len rest).
  { unfold x, start, Py.len. rewrite !length_app. simpl List.length. lia. }
  assert (Hskip : skipn (Z.to_nat start) x = body ++ 46%N :: rest).
  { unfold x, start, Py.len. rewrite <- Nat2Z.inj_add, Nat2Z.id, app_assoc, <- length_app.
    rewrite skipn_app, skipn_all, Nat.sub_diag. reflexivity. }
  assert (Hpos : 0 <= start) by (unfold start, Py.len; lia).
  assert (Hlb : 0 <= Py.len body /\ 0 <= Py.len rest) by (unfold Py.len; lia).
  assert (Hfind : find (py ".") x start = start + Py.len body).
  { unfold find. destruct (start <? 0) eqn:E; [apply Z.ltb_lt in E; lia|].
    destruct (Py.len x <? start) eqn:E2; [apply Z.ltb_lt in E2; lia|].
    rewrite Hskip.
    apply (find_go_char 46%N body rest start Hb). }
  rewrite Hfind. split; [lia|].
  unfold slice, bound.
  destruct (start <? 0) eqn:E; [apply Z.ltb_lt in E; lia|].
  destruct (start + Py.len body <? 0) eqn:E2; [apply Z.ltb_lt in E2; lia|].
  rewrite !Z.min_l by lia. rewrite Hskip.
  replace (start + Py.len body - start) with (Py.len body) by lia.
  unfold Py.len. rewrite Nat2Z.id. rewrite firstn_app, Nat.sub_diag, firstn_all.
  simpl. apply app_nil_r.
Qed.

(** The text before the first period, as [x.split(".")[0]]. *)
Lemma split_on_aux_first sep : forall x cur,
  exists first rest tail,
    x = first ++ rest /\ ~ In sep first /\ (rest = [] \/ exists r, rest = sep :: r) /\
    Py.split_on_aux sep cur x = (rev cur ++ first) :: tail.
Proof.
  induction x as [|c x IH]; intros cur.
  - exists [], [], []. simpl. rewrite app_nil_r. repeat split; auto.
  - destruct (c =? sep)%N eqn:E.
    + exists [], (c :: x), (Py.split_on_aux sep [] x).
      rewrite app_nil_r. cbn [Py.split_on_aux]. rewrite E.
      apply N.eqb_eq in E. subst c. repeat split; eauto.
    + destruct (IH (c :: cur)) as (first & rest & tail & Hx & Hf & Hr & Hs).
      exists (c :: first), rest, tail.
      cbn [Py.split_on_aux]. rewrite E. split; [now rewrite Hx|].
      split; [intros [->|H]; [now rewrite N.eqb_refl in E|contradiction]|].
      split; [exact Hr|].
      etransitivity; [exact Hs|]. cbn [rev]. now rewrite <- app_assoc.
Qed.

(** *** The prompts of a section *)

Lemma section_prompts_shape section_type topic difficulty ta :
  exists h c,
    _generate_section_prompts section_type topic difficulty ta
    = [ (py "heading", (py "Topic: " ++ topic ++ py ". Difficulty: " ++ difficulty ++ py ".") ++ h);
        (py "content", (py "Topic: " ++ topic ++ py ". Difficulty: " ++ difficulty ++ py ".") ++ c) ].
Proof.
  unfold _generate_section_prompts. cbv zeta. unfold Py.get_or. cbn [Py.get].
  repeat match goal with
         | |- context [Py.eqb ?a section_type] => destruct (Py.eqb a section_type)
         end; eexists; eexists; reflexivity.
Qed.

(** X13.  The topic the tutor reads back from the prompts the planner wrote
    is the topic up to its first period, stripped: for every section
    type, difficulty and topic analysis,
    [_extract_topic_from_prompts(_generate_section_prompts(...))] equals
    [topic.split(".")[0].strip()].  A topic without a period is read back
    unchanged, apart from white space at its ends. *)
Theorem topic_read_back_from_prompts :
  forall (section_type topic difficulty : str) (ta : topic_analysis),
    _extract_topic_from_prompts (_generate_section_prompts section_type topic difficulty ta)
    = Py.strip (hd [] (Py.split_on 46%N topic)).
Proof.
  intros st topic d ta.
  destruct (section_prompts_shape st topic d ta) as (h & c & ->).
  destruct (split_on_aux_first 46%N topic []) as (first & rest & tail & Et & Hf & Hr & Hs).
  unfold Py.split_on. rewrite Hs. cbn [hd rev app].
  cbn [_extract_topic_from_prompts].
  set (prompt := (py "Topic: " ++ topic ++ py ". Difficulty: " ++ d ++ py ".") ++ h).
  assert (Hshape : exists R, prompt = [] ++ py "Topic: " ++ first ++ 46%N :: R).
  { unfold prompt. rewrite Et. destruct Hr as [->|(r & ->)].
    - exists (py " Difficulty: " ++ d ++ py "." ++ h).
      rewrite app_nil_r, <- !app_assoc. reflexivity.
    - exists (r ++ py ". Difficulty: " ++ d ++ py "." ++ h).
      rewrite <- !app_assoc. reflexivity. }
  destruct Hshape as (R & HR).
  assert (Hc : Py.contains (py "Topic: ") prompt = true)
    by (rewrite HR; apply (contains_prefix (py "Topic: "))).
  rewrite Hc.
  assert (Hfind : find (py "Topic: ") prompt 0 = 0).
  { unfold find. cbn [Z.ltb Z.compare]. 
    destruct (Py.len prompt <? 0) eqn:E; [apply Z.ltb_lt in E; unfold Py.len in E; lia|].
    apply find_go_here. cbn [Z.to_nat skipn]. rewrite HR.
    apply (startswith_self (py "Topic: ")). }
  rewrite Hfind.
  destruct (slice_after_marker [] (py "Topic: ") first R Hf) as [H1 H2].
  cbv zeta in H1, H2.
  change (Py.len [] + Py.len (py "Topic: ")) with 7 in H1, H2.
  change (0 + 7) with 7.
  clearbody prompt. subst prompt.
  match goal with |- context [negb (?a =? -1)] => destruct (a =? -1) eqn:E end.
  - apply Z.eqb_eq in E. exfalso. apply H1. exact E.
  - cbn [negb]. f_equal. exact H2.
Qed.

(** X14.  [_extract_difficulty_from_prompts] returns one of "beginner",
    "intermediate" and "advanced" for every dict of prompts.  From the
    prompts the planner wrote for one of the three difficulties it reads
    that difficulty back, provided the topic does not contain
    "Difficulty: ". *)
Theorem difficulty_read_back_from_prompts :
  forall (content_prompts : list (str * str)),
    In (_extract_difficulty_from_prompts content_prompts) difficulties /\
    forall (section_type topic difficulty : str) (ta : topic_analysis),
      In difficulty difficulties ->
      Py.contains (py "Difficulty: ") topic = false ->
      _extract_difficulty_from_prompts
        (_generate_section_prompts section_type topic difficulty ta) = difficulty.
Proof.
  intros cp. split.
  - induction cp as [|[k prompt] rest IH]; [simpl; tauto|].
    cbn [_extract_difficulty_from_prompts].
    destruct (Py.contains (py "Difficulty: ") prompt); [|exact IH].
    destruct (negb _); [|exact IH].
    match goal with |- context [existsb ?f ?l] => destruct (existsb f l) eqn:E end;
      [|exact IH].
    apply existsb_exists in E. destruct E as (x & Hx & Ex).
    apply py_eqb_eq in Ex. rewrite Ex. exact Hx.
  - intros st topic d ta Hd Ht.
    destruct (section_prompts_shape st topic d ta) as (h & c & ->).
    cbn [_extract_difficulty_from_prompts].
    set (prompt := (py "Topic: " ++ topic ++ py ". Difficulty: " ++ d ++ py ".") ++ h).
    set (pre := py "Topic: " ++ topic ++ py ". ").
    assert (HR : prompt = pre ++ py "Difficulty: " ++ d ++ 46%N :: h).
    { unfold prompt, pre. rewrite <- !app_assoc. reflexivity. }
    assert (Hdot : ~ In 46%N d).
    { unfold difficulties in Hd. simpl in Hd.
      destruct Hd as [<-|[<-|[<-|[]]]]; vm_compute; intuition discriminate. }
    assert (Hfg : forall i, find_go (py "Difficulty: ") prompt i = i + Py.len pre).
    { intros i. rewrite HR. unfold pre.
      change (py "Topic: ") with [84; 111; 112; 105; 99; 58; 32]%N.
      cbn [app].
      do 7 (rewrite find_go_miss by reflexivity).
      rewrite <- !app_assoc.
      change (py ". " ++ py "Difficulty: " ++ d ++ 46%N :: h)
        with (46%N :: 32%N :: py "Difficulty: " ++ d ++ 46%N :: h).
      rewrite (find_go_pass 46%N (py "Difficulty: ") topic); try discriminate; try exact Ht.
      - rewrite find_go_miss by reflexivity. rewrite find_go_miss by reflexivity.
        rewrite find_go_here by apply startswith_self.
        unfold Py.len. cbn [List.length]. rewrite length_app. simpl List.length. lia.
      - vm_compute. intuition discriminate. }
    assert (Hc : Py.contains (py "Difficulty: ") prompt = true).
    { rewrite HR. revert Ht. clear. intros Ht.
      assert (G : forall u Y, Py.contains (py "Difficulty: ") Y = true ->
                              Py.contains (py "Difficulty: ") (u ++ Y) = true).
      { induction u as [|a u IH]; intros Y HY; [exact HY|].
        change ((a :: u) ++ Y) with (a :: (u ++ Y)).
        change (Py.contains (py "Difficulty: ") (a :: u ++ Y))
          with (Py.startswith (py "Difficulty: ") (a :: u ++ Y)
                || Py.contains (py "Difficulty: ") (u ++ Y)).
        rewrite IH by exact HY. apply orb_true_r. }
      apply G. apply contains_prefix. }
    rewrite Hc.
    assert (Hfind : find (py "Difficulty: ") prompt 0 = Py.len pre).
    { unfold find. cbn [Z.ltb Z.compare].
      destruct (Py.len prompt <? 0) eqn:E; [apply Z.ltb_lt in E; unfold Py.len in E; lia|].
      cbn [Z.to_nat skipn]. rewrite Hfg. lia. }
    rewrite Hfind.
    destruct (slice_after_marker pre (py "Difficulty: ") d h Hdot) as [H1 H2].
    cbv zeta in H1, H2.
    change (Py.len (py "Difficulty: ")) with 12 in H1, H2.
    clearbody prompt. subst prompt.
    match goal with |- context [negb (?a =? -1)] => destruct (a =? -1) eqn:E end.
    + apply Z.eqb_eq in E. exfalso. apply H1. exact E.
    + cbn [negb].
      match goal with |- context [Py.strip ?x] =>
        assert (Hx : x = d) by exact H2; rewrite Hx end.
      assert (Hs : Py.strip d = d).
      { unfold difficulties in Hd. simpl in Hd.
        destruct Hd as [<-|[<-|[<-|[]]]]; reflexivity. }
      rewrite Hs.
      assert (He : existsb (Py.eqb d) [py "beginner"; py "intermediate"; py "advanced"] = true).
      { apply existsb_exists. exists d. split; [exact Hd|apply py_eqb_refl]. }
      now rewrite He.
Qed.

Lemma difficulty_read_back_from_prompts_witness :
  _extract_difficulty_from_prompts
    (_generate_section_prompts (py "definition") (py "Photosynthesis") (py "advanced")
       (_fallback_topic_analysis (py "Photosynthesis") (py "advanced")))
  = py "advanced".
Proof.
  apply (proj2 (difficulty_read_back_from_prompts [])).
  - vm_compute. tauto.
  - vm_compute. reflexivity.
Defined.

End PromptFacts.

(** ** The LLM's answer: JSON extraction *)

Module AnalysisFacts.

Import PyFacts PyText Regex Sanitizer SanitizerFacts RenderFacts PromptFacts LessonAnalysis.

Local Open Scope Z_scope.

(** *** First and last occurrence of a character *)

Lemma find_go_char_none c : forall x i, ~ In c x -> find_go [c] x i = -1.
Proof.
  induction x as [|a x IH]; intros i Hx; [reflexivity|].
  rewrite find_go_miss.
  - apply IH. intros H. apply Hx. now right.
  - simpl. destruct (c =? a)%N eqn:E; [|reflexivity].
    apply N.eqb_eq in E. subst a. exfalso. apply Hx. now left.
Qed.

Lemma split_first (c : char) : forall x,
  In c x -> exists u Y, x = u ++ c :: Y /\ ~ In c u.
Proof.
  induction x as [|a x IH]; intros H; [contradiction|].
  destruct (N.eq_dec a c) as [->|Hne].
  - exists [], x. split; [reflexivity|intros []].
  - destruct H as [H|H]; [congruence|].
    destruct (IH H) as (u & Y & -> & Hu). exists (a :: u), Y. split; [reflexivity|].
    intros [E|E]; [congruence|contradiction].
Qed.

Lemma split_last (c : char) : forall x,
  In c x -> exists u Y, x = u ++ c :: Y /\ ~ In c Y.
Proof.
  intros x H. apply in_rev in H. destruct (split_first c (rev x) H) as (u & Y & E & Hu).
  exists (rev Y), (rev u). split.
  - rewrite <- (rev_involutive x), E, rev_app_distr. simpl. now rewrite <- app_assoc.
  - now rewrite <- in_rev.
Qed.

Lemma rfind_from_none c : forall x i last, ~ In c x -> Py.rfind_from i c x last = last.
Proof.
  induction x as [|a x IH]; intros i last Hx; [reflexivity|].
  simpl. rewrite IH by (intros H; apply Hx; now right).
  destruct (a =? c)%N eqn:E; [|reflexivity].
  apply N.eqb_eq in E. subst a. exfalso. apply Hx. now left.
Qed.

Lemma rfind_from_last c Y : forall u i last,
  ~ In c Y -> Py.rfind_from i c (u ++ c :: Y) last = i + Py.len u.
Proof.
  induction u as [|a u IH]; intros i last HY.
  - simpl. rewrite N.eqb_refl, rfind_from_none by exact HY. unfold Py.len. simpl. lia.
  - simpl. rewrite IH by exact HY. unfold Py.len. cbn [List.length]. lia.
Qed.

Lemma find_char_spec c x :
  (~ In c x /\ find [c] x 0 = -1) \/
  (exists u Y, x = u ++ c :: Y /\ ~ In c u /\ find [c] x 0 = Py.len u).
Proof.
  unfold find. cbn [Z.ltb Z.compare Z.to_nat skipn].
  destruct (Py.len x <? 0) eqn:E; [apply Z.ltb_lt in E; unfold Py.len in E; lia|].
  destruct (in_dec N.eq_dec c x) as [H|H].
  - right. destruct (split_first c x H) as (u & Y & -> & Hu).
    exists u, Y. repeat split; auto. now rewrite find_go_char.
  - left. split; [exact H|]. now apply find_go_char_none.
Qed.

Lemma rfind_spec c x :
  (~ In c x /\ Py.rfind c x = -1) \/
  (exists u Y, x = u ++ c :: Y /\ ~ In c Y /\ Py.rfind c x = Py.len u).
Proof.
  unfold Py.rfind. destruct (in_dec N.eq_dec c x) as [H|H].
  - right. destruct (split_last c x H) as (u & Y & -> & HY).
    exists u, Y. repeat split; auto. now rewrite rfind_from_last.
  - left. split; [exact H|]. now apply rfind_from_none.
Qed.

Lemma len_nonneg x : 0 <= Py.len x.
Proof. unfold Py.len. lia. Qed.

(** Two ways to cut the same string, the first cut further left. *)
Lemma cuts_nest (a : char) (u Y v W : str) (b : char) :
  u ++ a :: Y = v ++ b :: W -> Py.len u < Py.len v ->
  exists body, v = u ++ a :: body /\ Y = body ++ b :: W.
Proof.
  revert v. induction u as [|x u IH]; intros v E Hl.
  - destruct v as [|y v]; [unfold Py.len in Hl; simpl in Hl; lia|].
    simpl in E. injection E as -> ->. exists v. split; reflexivity.
  - destruct v as [|y v]; [unfold Py.len in Hl; simpl in Hl; lia|].
    simpl in E. injection E as -> E.
    destruct (IH v E) as (body & -> & ->).
    + unfold Py.len in *. cbn [List.length] in Hl. lia.
    + exists body. split; reflexivity.
Qed.

Lemma slice_middle (pre mid post : str) :
  slice (Py.len pre) (Py.len pre + Py.len mid) (pre ++ mid ++ post) = mid.
Proof.
  pose proof (len_nonneg pre). pose proof (len_nonneg mid). pose proof (len_nonneg post).
  assert (Hlen : Py.len (pre ++ mid ++ post) = Py.len pre + Py.len mid + Py.len post).
  { unfold Py.len. rewrite !length_app. lia. }
  unfold slice, bound.
  destruct (Py.len pre <? 0) eqn:E1; [apply Z.ltb_lt in E1; lia|].
  destruct (Py.len pre + Py.len mid <? 0) eqn:E2; [apply Z.ltb_lt in E2; lia|].
  rewrite !Z.min_l by lia.
  replace (Py.len pre + Py.len mid - Py.len pre) with (Py.len mid) by lia.
  unfold Py.len. rewrite !Nat2Z.id.
  rewrite skipn_app, skipn_all, Nat.sub_diag. cbn [skipn app].
  rewrite firstn_app, Nat.sub_diag, firstn_all. cbn [firstn]. apply app_nil_r.
Qed.

(** *** No fence, no match *)

Lemma search_go_no_fence : forall s prev,
  ~ In 96%N s -> search_go markdown_pattern prev s = None.
Proof.
  assert (Hfree : forall s, ~ In 96%N s -> free [(96%N, 96%N)] s).
  { intros s H. apply Forall_forall. intros c Hc. unfold in_ranges. simpl.
    rewrite orb_false_r. apply andb_false_iff.
    destruct (N.eq_dec c 96) as [->|Hne]; [contradiction|].
    destruct (N.lt_ge_cases c 96) as [Hlt|Hge].
    - left. apply N.leb_gt. exact Hlt.
    - right. apply N.leb_gt. lia. }
  induction s as [|c t IH]; intros prev Hs; cbn [search_go]; unfold match_here;
    rewrite (needs_fails [(96%N, 96%N)]) by (try reflexivity; now apply Hfree).
  - reflexivity.
  - apply IH. intros H. apply Hs. now right.
Qed.

Lemma strip_braced body : Py.strip (123%N :: body ++ [125%N]) = 123%N :: body ++ [125%N].
Proof.
  unfold Py.strip. change (Py.lstrip (123%N :: body ++ [125%N])) with (123%N :: body ++ [125%N]).
  unfold Py.rstrip.
  assert (E : rev (123%N :: body ++ [125%N]) = 125%N :: rev body ++ [123%N]).
  { cbn [rev]. rewrite rev_app_distr. reflexivity. }
  rewrite E. change (Py.lstrip (125%N :: rev body ++ [123%N])) with (125%N :: rev body ++ [123%N]).
  rewrite <- E. apply rev_involutive.
Qed.

Lemma extract_braced (text pre body post : str) :
  text = pre ++ 123%N :: body ++ 125%N :: post -> ~ In 123%N pre -> ~ In 125%N post ->
  find (py "{") text 0 = Py.len pre /\
  Py.rfind 125%N text = Py.len pre + 1 + Py.len body /\
  slice (find (py "{") text 0) (Py.rfind 125%N text + 1) text = 123%N :: body ++ [125%N].
Proof.
  intros -> Hpre Hpost.
  assert (Hf : find (py "{") (pre ++ 123%N :: body ++ 125%N :: post) 0 = Py.len pre).
  { unfold find. cbn [Z.ltb Z.compare Z.to_nat skipn].
    match goal with |- context [Py.len ?x <? 0] =>
      destruct (Py.len x <? 0) eqn:E; [apply Z.ltb_lt in E; unfold Py.len in E; lia|] end.
    change (py "{") with [123%N]. now rewrite find_go_char. }
  assert (Hr : Py.rfind 125%N (pre ++ 123%N :: body ++ 125%N :: post)
               = Py.len pre + 1 + Py.len body).
  { unfold Py.rfind.
    replace (pre ++ 123%N :: body ++ 125%N :: post)
      with ((pre ++ 123%N :: body) ++ 125%N :: post) by (now rewrite <- app_assoc).
    rewrite rfind_from_last by exact Hpost.
    unfold Py.len. rewrite length_app. cbn [List.length]. lia. }
  rewrite Hf, Hr. repeat split.
  replace (Py.len pre + 1 + Py.len body + 1) with (Py.len pre + Py.len (123%N :: body ++ [125%N]))
    by (unfold Py.len; cbn [List.length]; rewrite length_app; simpl; lia).
  replace (pre ++ 123%N :: body ++ 125%N :: post)
    with (pre ++ (123%N :: body ++ [125%N]) ++ post)
    by (cbn [app]; now rewrite <- app_assoc).
  apply slice_middle.
Qed.

(** X15.  For an answer without a backtick, [_extract_json_from_markdown]
    returns the text from the first opening brace to the last closing
    brace when the stripped answer has an opening brace before its last
    closing brace, and the stripped answer otherwise; extracting again
    from the result changes nothing. *)
Theorem extract_json_without_fence :
  forall content : str,
    ~ In 96%N content ->
    (forall pre body post,
       Py.strip content = pre ++ 123%N :: body ++ 125%N :: post ->
       ~ In 123%N pre -> ~ In 125%N post ->
       _extract_json_from_markdown content = 123%N :: body ++ [125%N]) /\
    ((forall pre body post, Py.strip content <> pre ++ 123%N :: body ++ 125%N :: post) ->
     _extract_json_from_markdown content = Py.strip content) /\
    _extract_json_from_markdown (_extract_json_from_markdown content)
    = _extract_json_from_markdown content.
Proof.
  intros content Hc.
  assert (Hnf : forall x, ~ In 96%N x ->
            _extract_json_from_markdown x
            = let t := Py.strip x in
              if negb (find (py "{") t 0 =? -1) && negb (Py.rfind 125%N t =? -1)
                 && (Py.rfind 125%N t >? find (py "{") t 0)
              then slice (find (py "{") t 0) (Py.rfind 125%N t + 1) t else t).
  { intros x Hx. unfold _extract_json_from_markdown, search.
    rewrite search_go_no_fence; [reflexivity|]. intros H. apply Hx. now apply in_strip. }
  assert (Hbr : forall x pre body post, ~ In 96%N x ->
            Py.strip x = pre ++ 123%N :: body ++ 125%N :: post ->
            ~ In 123%N pre -> ~ In 125%N post ->
            _extract_json_from_markdown x = 123%N :: body ++ [125%N]).
  { intros x pre body post Hx E Hp Hq. rewrite (Hnf x Hx). cbv zeta.
    destruct (extract_braced _ pre body post E Hp Hq) as (H1 & H2 & H3).
    rewrite H3, H1, H2.
    pose proof (len_nonneg pre). pose proof (len_nonneg body).
    replace (Py.len pre =? -1) with false by (symmetry; apply Z.eqb_neq; lia).
    replace (Py.len pre + 1 + Py.len body =? -1) with false by (symmetry; apply Z.eqb_neq; lia).
    replace (Py.len pre + 1 + Py.len body >? Py.len pre) with true
      by (symmetry; rewrite Z.gtb_ltb; apply Z.ltb_lt; lia).
    reflexivity. }
  (* either the stripped answer has braces in order, or it is returned as it is *)
  assert (Hcases : forall x, ~ In 96%N x ->
            (exists pre body post, Py.strip x = pre ++ 123%N :: body ++ 125%N :: post /\
                                   ~ In 123%N pre /\ ~ In 125%N post) \/
            ((forall pre body post, Py.strip x <> pre ++ 123%N :: body ++ 125%N :: post) /\
             _extract_json_from_markdown x = Py.strip x)).
  { intros x Hx. rewrite (Hnf x Hx). cbv zeta. set (t := Py.strip x).
    change (py "{") with [123%N].
    destruct (find_char_spec 123%N t) as [[Hn Ef]|(u & Y & Et & Hu & Ef)].
    - right. rewrite Ef. split; [|reflexivity].
      intros pre body post E. apply Hn. rewrite E. apply in_or_app. right. now left.
    - destruct (rfind_spec 125%N t) as [[Hn Er]|(v & W & Et' & HW & Er)].
      + right. rewrite Er. rewrite andb_false_r. split; [|reflexivity].
        intros pre body post E. apply Hn. rewrite E. apply in_or_app. right. right.
        apply in_or_app. right. now left.
      + destruct (Z_lt_dec (Py.len u) (Py.len v)) as [Hlt|Hge].
        * left. rewrite Et in Et'. destruct (cuts_nest _ _ _ _ _ _ Et' Hlt) as (body & -> & ->).
          exists u, body, W. repeat split; auto.
        * right. rewrite Ef, Er.
          replace (Py.len v >? Py.len u) with false
            by (symmetry; rewrite Z.gtb_ltb; apply Z.ltb_ge; lia).
          rewrite andb_false_r. split; [|reflexivity].
          intros pre body post E.
          (* the first brace is at [pre'] with [pre'] no longer than [pre], the last
             closing brace at or after the one displayed *)
          assert (H1 : Py.len u <= Py.len pre).
          { destruct (Z_lt_dec (Py.len pre) (Py.len u)) as [Hl|Hl]; [|lia].
            rewrite Et in E. symmetry in E.
            destruct (cuts_nest _ _ _ _ _ _ E Hl) as (b & -> & _).
            exfalso. apply Hu. apply in_or_app. right. now left. }
          assert (H2 : Py.len pre + 1 + Py.len body <= Py.len v).
          { destruct (Z_lt_dec (Py.len v) (Py.len pre + 1 + Py.len body)) as [Hl|Hl]; [|lia].
            rewrite Et' in E.
            replace (pre ++ 123%N :: body ++ 125%N :: post)
              with ((pre ++ 123%N :: body) ++ 125%N :: post) in E
              by (now rewrite <- app_assoc).
            assert (Hl' : Py.len v < Py.len (pre ++ 123%N :: body)).
            { unfold Py.len in *. rewrite length_app. cbn [List.length]. lia. }
            destruct (cuts_nest _ _ _ _ _ _ E Hl') as (b & _ & ->).
            exfalso. apply HW. apply in_or_app. right. now left. }
          pose proof (len_nonneg body). lia. }
  split; [|split].
  - intros pre body post. now apply Hbr.
  - intros Hno. destruct (Hcases content Hc) as [(pre & body & post & E & _)|[_ E]];
      [exfalso; eapply Hno; eauto|exact E].
  - destruct (Hcases content Hc) as [(pre & body & post & E & Hp & Hq)|[Hno E]].
    + rewrite (Hbr content pre body post Hc E Hp Hq).
      apply (Hbr _ [] body []).
      * intros H. apply Hc. apply in_strip. rewrite E. apply in_or_app. right.
        destruct H as [H|H]; [discriminate H|]. right.
        apply in_app_or in H. apply in_or_app. destruct H as [H|H]; [now left|].
        destruct H as [H|[]]. discriminate H.
      * now rewrite strip_braced.
      * intros [].
      * intros [].
    + rewrite E.
      assert (Hc' : ~ In 96%N (Py.strip content)) by (intros H; apply Hc; now apply in_strip).
      destruct (Hcases (Py.strip content) Hc') as [(pre & body & post & E' & _)|[_ E']].
      * rewrite strip_idem in E'. exfalso. eapply Hno; eauto.
      * rewrite E'. apply strip_idem.
Qed.

Lemma extract_json_without_fence_witness :
  _extract_json_from_markdown (py "Here it is: {x} enjoy") = py "{x}".
Proof.
  apply (proj1 (extract_json_without_fence (py "Here it is: {x} enjoy")
                  ltac:(vm_compute; intuition discriminate))
           (py "Here it is: ") (py "x") (py " enjoy")).
  - vm_compute. reflexivity.
  - vm_compute. intuition discriminate.
  - vm_compute. intuition discriminate.
Defined.

End AnalysisFacts.

(** ** The LLM's answer in a code fence *)

Module FenceFacts.

Import PyFacts PyText Regex Sanitizer SanitizerFacts RenderFacts PromptFacts LessonAnalysis.

Local Open Scope Z_scope.

(** The continuation of [match_here] without the non-empty condition. *)
Lemma match_here_exec r prev s rest cs :
  exec r prev s [] (fun _ rest cs => Some (rest, cs)) = Some (rest, cs) ->
  match_here r prev s false = Some ((List.length s - List.length rest)%nat, cs).
Proof. unfold match_here. cbn [andb]. now intros ->. Qed.

Lemma fence_tail_closes p cs :
  exec fence_tail p [10%N; 96%N; 96%N; 96%N] cs (fun _ rest cs => Some (rest, cs))
  = Some ([], cs).
Proof. reflexivity. Qed.

Lemma fence_tail_closes_bare p cs :
  exec fence_tail p [96%N; 96%N; 96%N] cs (fun _ rest cs => Some (rest, cs)) = Some ([], cs).
Proof. reflexivity. Qed.

Lemma lit_no_match a c : a <> c -> cls_match (lit c) a = false.
Proof.
  intros H. unfold cls_match, lit. simpl. rewrite orb_false_r. now apply N.eqb_neq.
Qed.

Lemma fence_tail_inside x p cs (k : option char -> str -> caps -> option res) :
  x <> [] -> ~ In 96%N x ->
  exec fence_tail p (x ++ [10%N; 96%N; 96%N; 96%N]) cs k = None.
Proof.
  intros Hx H96. destruct x as [|a x]; [congruence|].
  assert (Ha : a <> 96%N) by (intros ->; apply H96; now left).
  assert (Hnext : forall q, exec (lits "```") q (x ++ [10%N; 96%N; 96%N; 96%N]) cs k = None).
  { intros q. change (lits "```")
      with (Seq (Chr (lit 96%N)) (Seq (Chr (lit 96%N)) (Chr (lit 96%N)))).
    destruct x as [|b x]; [reflexivity|].
    cbn [exec app]. rewrite lit_no_match; [reflexivity|].
    intros ->. apply H96. right. now left. }
  unfold fence_tail, opt. cbn [exec app].
  change (exec (lits "```") p (a :: x ++ [10%N; 96%N; 96%N; 96%N]) cs k)
    with (if cls_match (lit 96%N) a
          then exec (Seq (Chr (lit 96%N)) (Chr (lit 96%N))) (Some a)
                 (x ++ [10%N; 96%N; 96%N; 96%N]) cs k
          else None).
  rewrite (lit_no_match a 96%N Ha).
  destruct (cls_match (lit 10%N) a); [|reflexivity].
  change (exec Eps (Some a) (x ++ [10%N; 96%N; 96%N; 96%N]) cs
            (fun prev' rest cs' => exec (lits "```") prev' rest cs' k))
    with (exec (lits "```") (Some a) (x ++ [10%N; 96%N; 96%N; 96%N]) cs k).
  now rewrite Hnext.
Qed.

(** The lazy repetition stops at the first place where what follows
    matches. *)
Lemma rep_lazy_first (k : option char -> str -> option res) T r : forall g prev,
  (forall x p, x <> [] -> suffix x g -> k p (x ++ T) = None) ->
  (forall p, k p T = Some r) ->
  rep_lazy anything 0 prev (g ++ T) k = Some r.
Proof.
  induction g as [|a g IH]; intros prev Hfail Hok.
  - cbn [app]. destruct T; cbn [rep_lazy]; now rewrite Hok.
  - cbn [app rep_lazy].
    pose proof (Hfail (a :: g) prev ltac:(discriminate) (suffix_refl _)) as Hf.
    cbn [app] in Hf. rewrite Hf.
    change (cls_match anything a) with true. cbv iota. change (Nat.pred 0) with 0%nat.
    apply IH; [|exact Hok].
    intros x p Hx Hs. apply Hfail; [exact Hx|now apply suffix_cons].
Qed.

(** The greedy white space takes the whole run when what follows then
    matches. *)
Lemma rep_greedy_run (k : option char -> str -> option res) R r : forall ws prev,
  forallb Py.isspace ws = true ->
  match R with [] => True | c :: _ => Py.isspace c = false end ->
  (forall p, k p R = Some r) ->
  rep_greedy space 0 prev (ws ++ R) k = Some r.
Proof.
  induction ws as [|a ws IH]; intros prev Hws HR Hok.
  - cbn [app]. destruct R as [|c t]; cbn [rep_greedy]; [apply Hok|].
    rewrite space_match, HR. apply Hok.
  - cbn [app rep_greedy]. simpl in Hws. apply andb_true_iff in Hws. destruct Hws as [Ha Hws].
    rewrite space_match, Ha. change (Nat.pred 0) with 0%nat.
    match goal with |- match ?X with _ => _ end = _ =>
      assert (E : X = Some r) by (now apply IH); now rewrite E end.
Qed.

Lemma lstrip_span x :
  x = firstn (span x) x ++ Py.lstrip x /\ forallb Py.isspace (firstn (span x) x) = true.
Proof.
  induction x as [|c t [IH1 IH2]]; [split; reflexivity|].
  simpl. destruct (Py.isspace c) eqn:E; [|split; reflexivity].
  cbn [firstn app forallb]. rewrite E, IH2. split; [now rewrite <- IH1|reflexivity].
Qed.

Lemma lstrip_head x c t : Py.lstrip x = c :: t -> Py.isspace c = false.
Proof.
  induction x as [|a x IH]; [discriminate|]. simpl.
  destruct (Py.isspace a) eqn:E; [exact IH|]. now intros [= <- _].
Qed.

Lemma strip_between (a b : N) (m : list N) :
  Py.isspace a = false -> Py.isspace b = false ->
  Py.strip (a :: m ++ [b]) = a :: m ++ [b].
Proof.
  intros Ha Hb. unfold Py.strip.
  assert (E1 : Py.lstrip (a :: m ++ [b]) = a :: m ++ [b]) by (simpl; now rewrite Ha).
  rewrite E1. unfold Py.rstrip.
  assert (E : rev (a :: m ++ [b]) = b :: rev m ++ [a]).
  { cbn [rev]. rewrite rev_app_distr. reflexivity. }
  rewrite E.
  assert (E2 : Py.lstrip (b :: rev m ++ [a]) = b :: rev m ++ [a]) by (simpl; now rewrite Hb).
  rewrite E2, <- E. apply rev_involutive.
Qed.

Lemma after_opening_matches body prev :
  ~ In 96%N body ->
  exec after_opening prev (10%N :: body ++ [10%N; 96%N; 96%N; 96%N]) []
    (fun _ rest cs => Some (rest, cs))
  = Some ([], [(1%nat, Py.lstrip body)]).
Proof.
  intros Hb. unfold after_opening, star. cbn [exec].
  destruct (lstrip_span body) as [Es Hs].
  destruct (Py.lstrip body) as [|c b'] eqn:El.
  - (* the body is white space: the run reaches the closing fence *)
    rewrite app_nil_r in Es.
    replace (10%N :: body ++ [10%N; 96%N; 96%N; 96%N])
      with ((10%N :: body ++ [10%N]) ++ [96%N; 96%N; 96%N])
      by (cbn [app]; now rewrite <- app_assoc).
    apply rep_greedy_run.
    + assert (Hbody : forallb Py.isspace body = true) by (rewrite Es; exact Hs).
      cbn [forallb]. apply andb_true_iff. split; [reflexivity|].
      rewrite forallb_app. apply andb_true_iff. split; [exact Hbody|reflexivity].
    + reflexivity.
    + intros p. unfold opt. cbn [exec]. reflexivity.
  - set (g := c :: b') in *.
    assert (Hg : ~ In 96%N g).
    { intros H. apply Hb. rewrite Es. apply in_or_app. now right. }
    assert (Hc : Py.isspace c = false) by (eapply lstrip_head; eauto).
    replace (10%N :: body ++ [10%N; 96%N; 96%N; 96%N])
      with ((10%N :: firstn (span body) body) ++ (g ++ [10%N; 96%N; 96%N; 96%N]))
      by (cbn [app]; rewrite app_assoc, <- Es; reflexivity).
    apply rep_greedy_run.
    + cbn [forallb]. apply andb_true_iff. split; [reflexivity|exact Hs].
    + exact Hc.
    + intros p. unfold opt. cbn [exec].
      assert (Hnl : cls_match (lit 10%N) c = false).
      { apply lit_no_match. intros ->. discriminate Hc. }
      unfold g at 1. cbn [app]. rewrite Hnl.
      change (c :: b' ++ [10%N; 96%N; 96%N; 96%N]) with (g ++ [10%N; 96%N; 96%N; 96%N]).
      apply rep_lazy_first.
      * intros x q Hx Hsuf. apply fence_tail_inside; [exact Hx|].
        intros H. apply Hg. destruct Hsuf as [pre ->]. apply in_or_app. now right.
      * intros q. fold fence_tail. rewrite fence_tail_closes.
        match goal with |- context [firstn ?n ?l] =>
          assert (Hcap : firstn n l = g); [|now rewrite Hcap] end.
        rewrite length_app. cbn [List.length].
        replace (List.length g + 4 - 4)%nat with (List.length g) by lia.
        rewrite firstn_app, Nat.sub_diag, firstn_all. cbn [firstn]. apply app_nil_r.
Qed.

(** X16.  A JSON answer in a code fence is read back: for every body
    without a backtick, written between a line with three backticks
    (alone or followed by "json") and a line with three backticks,
    [_extract_json_from_markdown] returns the body stripped. *)
Theorem extract_json_from_fence :
  forall body lang : str,
    ~ In 96%N body ->
    lang = [] \/ lang = py "json" ->
    _extract_json_from_markdown (py "```" ++ lang ++ 10%N :: body ++ 10%N :: py "```")
    = Py.strip body.
Proof.
  intros body lang Hb Hl. unfold _extract_json_from_markdown.
  set (content := py "```" ++ lang ++ 10%N :: body ++ 10%N :: py "```").
  assert (Hstrip : Py.strip content = content).
  { unfold content. change (py "```") with [96%N; 96%N; 96%N].
    replace ([96%N; 96%N; 96%N] ++ lang ++ 10%N :: body ++ [10%N; 96%N; 96%N; 96%N])
      with (96%N :: ([96%N; 96%N] ++ lang ++ 10%N :: body ++ [10%N; 96%N; 96%N]) ++ [96%N]).
    - now apply strip_between.
    - cbn [app]. do 3 f_equal. rewrite <- !app_assoc. cbn [app]. do 2 f_equal.
      now rewrite <- app_assoc. }
  rewrite Hstrip.
  assert (Hm : match_here markdown_pattern None content false
               = Some (List.length content, [(1%nat, Py.lstrip body)])).
  { replace (List.length content) with (List.length content - List.length (@nil N))%nat
      by (cbn [List.length]; lia).
    apply match_here_exec.
    change markdown_pattern
      with (Seq (lits "```") (Seq (opt (ilits "json")) after_opening)).
    change (lits "```") with (Seq (Chr (lit 96%N)) (Seq (Chr (lit 96%N)) (Chr (lit 96%N)))).
    change (ilits "json")
      with (Seq (Chr (ilit 106%N)) (Seq (Chr (ilit 115%N))
              (Seq (Chr (ilit 111%N)) (Chr (ilit 110%N))))).
    unfold content, opt. change (py "```") with [96%N; 96%N; 96%N].
    destruct Hl as [->| ->].
    - cbn [app]. cbn [exec].
      change (cls_match (lit 96%N) 96%N) with true. cbv iota.
      change (cls_match (ilit 106%N) 10%N) with false. cbv iota.
      now apply after_opening_matches.
    - change (py "json") with [106%N; 115%N; 111%N; 110%N]. cbn [app]. cbn [exec].
      change (cls_match (lit 96%N) 96%N) with true. cbv iota.
      change (cls_match (ilit 106%N) 106%N) with true.
      change (cls_match (ilit 115%N) 115%N) with true.
      change (cls_match (ilit 111%N) 111%N) with true.
      change (cls_match (ilit 110%N) 110%N) with true. cbv iota.
      now rewrite after_opening_matches. }
  unfold search.
  assert (Hsearch : search_go markdown_pattern None content = Some [(1%nat, Py.lstrip body)]).
  { destruct content; cbn [search_go]; now rewrite Hm. }
  rewrite Hsearch. cbn [get_cap Nat.eqb].
  unfold Py.strip. f_equal. apply lstrip_clean, lstrip_starts_clean.
Qed.

Lemma extract_json_from_fence_witness :
  _extract_json_from_markdown (py "```json" ++ 10%N :: py " {x} " ++ 10%N :: py "```")
  = py "{x}".
Proof.
  apply (extract_json_from_fence (py " {x} ") (py "json")).
  - vm_compute. intuition discriminate.
  - now right.
Defined.

End FenceFacts.

(** ** What the sanitizers never let through *)

Module OutputFacts.

Import PyFacts Regex Sanitizer SanitizerFacts Markup TemplateFilling.

Local Open Scope N_scope.

(** *** Captured text comes from the subject *)

Lemma free_firstn rs n s : free rs s -> free rs (firstn n s).
Proof.
  unfold free. intros H. rewrite <- (firstn_skipn n s) in H. apply Forall_app in H. tauto.
Qed.

Lemma rep_greedy_result p k r : forall s lo prev,
  rep_greedy p lo prev s k = Some r -> exists p' s1, suffix s1 s /\ k p' s1 = Some r.
Proof.
  induction s as [|c t IH]; intros lo prev H; simpl in H.
  - destruct lo; [|discriminate]. exists prev, []. split; [apply suffix_refl|exact H].
  - assert (Hstop : match lo with O => k prev (c :: t) | S _ => None end = Some r ->
                    exists p' s1, suffix s1 (c :: t) /\ k p' s1 = Some r).
    { destruct lo; [|discriminate]. intros E. exists prev, (c :: t).
      split; [apply suffix_refl|exact E]. }
    destruct (cls_match p c); [|now apply Hstop].
    destruct (rep_greedy p (Nat.pred lo) (Some c) t k) as [r'|] eqn:E; [|now apply Hstop].
    injection H as ->. apply IH in E. destruct E as (p' & s1 & Hs & Hk).
    exists p', s1. split; [now apply suffix_cons|exact Hk].
Qed.

Lemma rep_lazy_result p k r : forall s lo prev,
  rep_lazy p lo prev s k = Some r -> exists p' s1, suffix s1 s /\ k p' s1 = Some r.
Proof.
  induction s as [|c t IH]; intros lo prev H; simpl in H.
  - destruct lo; [|discriminate].
    destruct (k prev []) eqn:E; [|discriminate]. injection H as ->.
    exists prev, []. split; [apply suffix_refl|exact E].
  - assert (Hmore : (if cls_match p c then rep_lazy p (Nat.pred lo) (Some c) t k else None)
                    = Some r -> exists p' s1, suffix s1 (c :: t) /\ k p' s1 = Some r).
    { destruct (cls_match p c); [|discriminate]. intros E. apply IH in E.
      destruct E as (p' & s1 & Hs & Hk). exists p', s1.
      split; [now apply suffix_cons|exact Hk]. }
    destruct lo; [|now apply Hmore].
    destruct (k prev (c :: t)) eqn:E; [|now apply Hmore].
    injection H as ->. exists prev, (c :: t). split; [apply suffix_refl|exact E].
Qed.

(** The groups a match captures are pieces of the subject. *)
Lemma exec_caps_free rs r : forall prev s cs k rest cs',
  free rs s -> caps_free rs cs ->
  (forall p s1 c1 rest1 c1', free rs s1 -> caps_free rs c1 ->
     k p s1 c1 = Some (rest1, c1') -> caps_free rs c1') ->
  exec r prev s cs k = Some (rest, cs') -> caps_free rs cs'.
Proof.
  induction r as [|p|g lo p|a IHa b IHb|a IHa b IHb|n a IHa|ml|ml];
    intros prev s cs k rest cs' Hs Hcs Hk H; simpl in H.
  - eapply Hk; [exact Hs|exact Hcs|exact H].
  - destruct s as [|c t]; [discriminate|]. destruct (cls_match p c); [|discriminate].
    eapply Hk; [| |exact H]; [now inversion Hs|exact Hcs].
  - assert (Hr : exists p' s1, suffix s1 s /\ k p' s1 cs = Some (rest, cs')).
    { destruct g; [apply rep_greedy_result in H|apply rep_lazy_result in H]; exact H. }
    destruct Hr as (p' & s1 & Hsuf & E). eapply Hk; [| |exact E]; [|exact Hcs].
    eapply free_suffix; eauto.
  - eapply IHa; [exact Hs|exact Hcs| |exact H].
    intros p s1 c1 rest1 c1' Hs1 Hc1 E.
    eapply IHb; [exact Hs1|exact Hc1|exact Hk|exact E].
  - destruct (exec a prev s cs k) as [x|] eqn:E.
    + injection H as ->. eapply IHa; [exact Hs|exact Hcs|exact Hk|exact E].
    + eapply IHb; [exact Hs|exact Hcs|exact Hk|exact H].
  - eapply IHa; [exact Hs|exact Hcs| |exact H].
    intros p s1 c1 rest1 c1' Hs1 Hc1 E. eapply Hk; [exact Hs1| |exact E].
    constructor; [|exact Hc1]. simpl. now apply free_firstn.
  - destruct (at_bol ml prev); [|discriminate]. eapply Hk; [exact Hs|exact Hcs|exact H].
  - destruct (at_eol ml s); [|discriminate]. eapply Hk; [exact Hs|exact Hcs|exact H].
Qed.

Lemma match_here_caps_free rs r prev s b n cs :
  free rs s -> match_here r prev s b = Some (n, cs) -> caps_free rs cs.
Proof.
  intros Hs H. unfold match_here in H.
  destruct (exec r prev s [] _) as [[rest cs0]|] eqn:E; [|discriminate].
  injection H as _ <-.
  eapply (exec_caps_free rs r); [exact Hs|constructor| |exact E].
  intros p s1 c1 rest1 c1' _ Hc1 Hk. cbv beta in Hk.
  destruct (b && _)%bool; [discriminate|]. now injection Hk as _ <-.
Qed.

Lemma get_cap_free rs n cs : caps_free rs cs -> free rs (get_cap n cs).
Proof.
  induction cs as [|[k v] cs IH]; intros H; simpl; [constructor|].
  inversion H; subst. destruct (Nat.eqb k n); [assumption|now apply IH].
Qed.

Lemma expand_free rs repl cs :
  repl_free rs repl = true -> caps_free rs cs -> free rs (expand repl cs).
Proof.
  intros Hr Hc. unfold expand. induction repl as [|it repl IH]; simpl; [constructor|].
  simpl in Hr. apply andb_true_iff in Hr. destruct Hr as [H1 H2].
  apply Forall_app. split; [|now apply IH].
  destruct it as [x|n]; [|now apply get_cap_free].
  apply Forall_forall. intros c Hx. rewrite forallb_forall in H1.
  apply negb_true_iff. now apply H1.
Qed.

(** A substitution brings no code point of the ranges into a text that
    has none, when the literal text of the replacement has none. *)
Lemma sub_go_free rs r repl :
  repl_free rs repl = true ->
  forall s prev skip, free rs s -> free rs (sub_go r repl prev s skip).
Proof.
  intros Hr. induction s as [|c t IH]; intros prev skip Hs.
  - destruct skip; [|constructor]. cbn [sub_go].
    destruct (match_here r prev [] false) as [[[|n] cs]|] eqn:E; [| |constructor].
    + apply Forall_app. split.
      * apply expand_free; [exact Hr|]. eapply match_here_caps_free; eauto.
      * destruct (match_here r prev [] true) as [[[|m] cs2]|] eqn:E2; try constructor.
        apply Forall_app. split; [|constructor].
        apply expand_free; [exact Hr|]. eapply match_here_caps_free; eauto.
    + apply Forall_app. split; [|constructor].
      apply expand_free; [exact Hr|]. eapply match_here_caps_free; eauto.
  - assert (Ht : free rs t) by (now inversion Hs).
    assert (Hcopy : free rs (c :: sub_go r repl (Some c) t 0)).
    { constructor; [now inversion Hs|now apply IH]. }
    destruct skip as [|k]; [|simpl; now apply IH].
    assert (Hcap : forall b n cs, match_here r prev (c :: t) b = Some (n, cs) ->
                                  free rs (expand repl cs)).
    { intros b n cs E. apply expand_free; [exact Hr|].
      eapply match_here_caps_free; [exact Hs|exact E]. }
    cbn [sub_go].
    destruct (match_here r prev (c :: t) false) as [[[|n] cs]|] eqn:E; [| |exact Hcopy].
    + apply Forall_app. split; [exact (Hcap _ _ _ E)|].
      destruct (match_here r prev (c :: t) true) as [[[|m] cs2]|] eqn:E2;
        [exact Hcopy| |exact Hcopy].
      apply Forall_app. split; [exact (Hcap _ _ _ E2)|now apply IH].
    + apply Forall_app. split; [exact (Hcap _ _ _ E)|now apply IH].
Qed.

Lemma run_free rs steps :
  forallb (fun st => repl_free rs (snd st)) steps = true ->
  forall s, free rs s -> free rs (run steps s).
Proof.
  unfold run. induction steps as [|[r repl] steps IH]; intros H s Hs; simpl; [exact Hs|].
  simpl in H. apply andb_true_iff in H. destruct H as [H1 H2].
  apply IH; [exact H2|]. unfold sub. now apply sub_go_free.
Qed.

Lemma replace_go_free rs old new : free rs new ->
  forall x skip, free rs x -> free rs (Py.replace_go old new x skip).
Proof.
  intros Hn. induction x as [|c x IH]; intros skip Hx; [destruct skip; constructor|].
  assert (Ht : free rs x) by (now inversion Hx).
  destruct skip as [|k]; [|simpl; now apply IH].
  cbn [Py.replace_go]. destruct (Py.startswith old (c :: x)).
  - apply Forall_app. split; [exact Hn|now apply IH].
  - constructor; [now inversion Hx|now apply IH].
Qed.

Lemma replace_free rs old new x : free rs new -> free rs x -> free rs (Py.replace old new x).
Proof.
  intros Hn Hx. unfold Py.replace. destruct old; [exact Hx|now apply replace_go_free].
Qed.

(** *** Statements that delete every code point of a class *)

Lemma sub_chr_filter cl : forall s prev,
  sub_go (Chr cl) [] prev s 0 = filter (fun c => negb (cls_match cl c)) s.
Proof.
  induction s as [|c t IH]; intros prev; [reflexivity|].
  cbn [sub_go]. unfold match_here. cbn [exec andb].
  destruct (cls_match cl c) eqn:E; cbn [filter negb]; rewrite E; cbn [negb].
  - cbn [List.length]. replace (S (List.length t) - List.length t)%nat with 1%nat by lia.
    cbn [expand flat_map app Nat.pred]. apply IH.
  - f_equal. apply IH.
Qed.

Lemma rep_greedy_class p lo prev s cs :
  rep_greedy p lo prev s (fun _ rest => Some (rest, cs))
  = if (lo <=? run_len p s)%nat then Some (skipn (run_len p s) s, cs) else None.
Proof.
  revert lo prev. induction s as [|c t IH]; intros lo prev; simpl.
  - destruct lo; reflexivity.
  - destruct (cls_match p c).
    + rewrite IH. destruct lo as [|lo]; simpl.
      * reflexivity.
      * destruct (lo <=? run_len p t)%nat; reflexivity.
    + destruct lo; reflexivity.
Qed.

Lemma run_len_le p s : (run_len p s <= List.length s)%nat.
Proof. induction s as [|c t IH]; simpl; [lia|]. destruct (cls_match p c); simpl; lia. Qed.

Lemma match_here_class p prev s :
  match_here (plus p) prev s false
  = match run_len p s with O => None | S n => Some (S n, []) end.
Proof.
  unfold match_here, plus. cbn [exec andb].
  rewrite (rep_greedy_class p 1 prev s []).
  pose proof (run_len_le p s) as Hl.
  destruct (run_len p s) as [|n] eqn:E; [reflexivity|].
  cbn [Nat.leb]. cbv beta iota. rewrite length_skipn.
  replace (List.length s - (List.length s - S n))%nat with (S n) by lia. reflexivity.
Qed.

Lemma filter_skip_run p s :
  filter (fun c => negb (cls_match p c)) (skipn (run_len p s) s)
  = filter (fun c => negb (cls_match p c)) s.
Proof.
  induction s as [|c t IH]; [reflexivity|]. simpl.
  destruct (cls_match p c) eqn:E; simpl; [exact IH|now rewrite E].
Qed.

Lemma sub_plus_filter p : forall (n : nat) s prev,
  (List.length s <= n)%nat ->
  sub_go (plus p) [] prev s 0 = filter (fun c => negb (cls_match p c)) s.
Proof.
  induction n as [|n IH]; intros s prev Hlen.
  - destruct s; [reflexivity|simpl in Hlen; lia].
  - destruct s as [|c t]; [reflexivity|].
    cbn [sub_go]. rewrite match_here_class. cbn [run_len filter].
    destruct (cls_match p c) eqn:E; cbn [negb].
    + cbn [expand flat_map app Nat.pred].
      destruct (sub_go_skip (plus p) [] (run_len p t) t (Some c) (run_len_le p t)) as [prev' ->].
      rewrite IH by (rewrite length_skipn; simpl in Hlen; lia).
      apply filter_skip_run.
    + f_equal. apply IH. simpl in Hlen. lia.
Qed.

Lemma filter_sublist {A} (f : A -> bool) (P : A -> Prop) l :
  Forall P l -> Forall P (filter f l).
Proof.
  intros H. apply Forall_forall. intros x Hx. apply filter_In in Hx.
  rewrite Forall_forall in H. now apply H.
Qed.

Lemma range_match lo hi c : cls_match (range lo hi) c = ((lo <=? c) && (c <=? hi)).
Proof. unfold cls_match, range. simpl. now rewrite orb_false_r. Qed.

(** *** The TTS sanitizers and the emoji *)

Lemma emoji_steps_free s : free emoji_ranges (run emoji_steps s).
Proof.
  unfold run, emoji_steps, remove, sub. cbn [fold_left fst snd].
  rewrite !sub_chr_filter.
  apply Forall_forall. intros c Hc.
  repeat (apply filter_In in Hc; destruct Hc as [Hc ?]).
  repeat match goal with H : negb (cls_match (range _ _) c) = true |- _ =>
           apply negb_true_iff in H; rewrite range_match in H end.
  unfold in_ranges, emoji_ranges. cbn [existsb fst snd].
  repeat match goal with H : _ = false |- _ => rewrite H; clear H end.
  reflexivity.
Qed.

(** X17.  No emoji leaves the TTS sanitizers: for every text, the result of
    [_sanitize_text_for_tts], of the tutor service and of the TTS
    service, has no code point of the six ranges the sanitizers name. *)
Theorem tts_sanitizers_remove_emoji :
  forall (decimal : char -> bool) (text : str),
    free emoji_ranges (_sanitize_text_for_tts decimal text) /\
    free emoji_ranges (tts_sanitize_text_for_tts decimal text).
Proof.
  intros decimal text.
  pose proof (emoji_steps_free text) as H0.
  assert (H1 : free emoji_ranges (run (prefix_steps decimal) (run emoji_steps text)))
    by (apply run_free; [reflexivity|exact H0]).
  split.
  - unfold _sanitize_text_for_tts. destruct text as [|c t]; [constructor|]. set (text := c :: t) in *.
    apply free_strip. unfold expand_abbreviations.
    repeat (apply replace_free; [apply free_forallb; reflexivity|]).
    do 4 (apply run_free; [reflexivity|]). exact H0.
  - unfold tts_sanitize_text_for_tts. destruct text as [|c t]; [constructor|]. set (text := c :: t) in *.
    apply free_strip. apply run_free; [reflexivity|exact H1].
Qed.

(** *** The output of [_sanitize_llm_output] *)

Lemma markup_class c :
  cls_match (any_of (punct "*_#`~[]")) c = in_ranges llm_markup c.
Proof.
  unfold cls_match, any_of, in_ranges, llm_markup. cbn [negated atoms xorb].
  change (punct "*_#`~[]") with [Lit 42; Lit 95; Lit 35; Lit 96; Lit 126; Lit 91; Lit 93].
  cbn [existsb atom_match fst snd].
  repeat match goal with |- context [(c =? ?k)] =>
    replace (c =? k) with ((k <=? c) && (c <=? k))
      by (destruct (N.eqb_spec c k) as [->|Hne];
          [now rewrite N.leb_refl
          |destruct (N.leb_spec k c), (N.leb_spec c k); try reflexivity; lia])
  end.
  reflexivity.
Qed.

(** X18.  The output of [_sanitize_llm_output] holds no formatting
    character: for every reply, the sanitized content has no asterisk,
    underscore, hash, backtick, tilde or square bracket. *)
Theorem sanitized_llm_output_has_no_markup :
  forall (decimal : char -> bool) (content : str),
    free llm_markup (_sanitize_llm_output decimal content).
Proof.
  intros decimal content. unfold _sanitize_llm_output.
  destruct content as [|c t]; [constructor|]. apply free_strip.
  set (s := c :: t).
  change (llm_output_steps decimal)
    with (firstn 13 (llm_output_steps decimal)
          ++ [Sanitizer.remove (plus (any_of (punct "*_#`~[]")))]
          ++ skipn 14 (llm_output_steps decimal)).
  rewrite !run_app.
  apply run_free; [reflexivity|].
  unfold run at 1. cbn [fold_left fst snd Sanitizer.remove]. unfold sub.
  rewrite (sub_plus_filter _ (List.length (run (firstn 13 (llm_output_steps decimal)) s)))
    by lia.
  apply Forall_forall. intros x Hx. apply filter_In in Hx. destruct Hx as [_ Hx].
  apply negb_true_iff in Hx. now rewrite <- markup_class.
Qed.

End OutputFacts.

(** ** Content trimmed to its limits, and the retry of a field *)

Module StructuredFillFacts.

Import PyFacts Regex TemplateService TemplateFilling StructuredFill RenderFacts StructureFacts.

Local Open Scope Z_scope.

(** *** Lines and newlines *)

Lemma count_app c a b : PyText.count c (a ++ b) = PyText.count c a + PyText.count c b.
Proof. unfold PyText.count. rewrite filter_app, length_app. lia. Qed.

Lemma count_nonneg c x : 0 <= PyText.count c x.
Proof. unfold PyText.count. lia. Qed.

Lemma count_absent c x : ~ In c x -> PyText.count c x = 0.
Proof.
  unfold PyText.count. induction x as [|d x IH]; intros H; [reflexivity|].
  simpl. destruct (N.eqb_spec c d) as [->|_]; [exfalso; apply H; now left|].
  apply IH. intros Hx. apply H. now right.
Qed.

Lemma count_firstn c n x : PyText.count c (firstn n x) <= PyText.count c x.
Proof.
  rewrite <- (firstn_skipn n x) at 2. rewrite count_app.
  pose proof (count_nonneg c (skipn n x)). lia.
Qed.

Lemma split_on_aux_length sep : forall x cur,
  Py.len_list (Py.split_on_aux sep cur x) = PyText.count sep x + 1.
Proof.
  unfold Py.len_list, PyText.count.
  induction x as [|d x IH]; intros cur; [reflexivity|].
  simpl. rewrite (N.eqb_sym sep d). destruct (d =? sep)%N; simpl.
  - specialize (IH []). lia.
  - apply IH.
Qed.

Lemma lines_count x : Py.len_list (Py.split_on 10%N x) = PyText.count 10%N x + 1.
Proof. apply split_on_aux_length. Qed.

Lemma count_join sep : forall ls,
  (forall l, In l ls -> ~ In sep l) ->
  PyText.count sep (Py.join [sep] ls) = Z.max 0 (Py.len_list ls - 1).
Proof.
  induction ls as [|l ls IH]; intros H; [reflexivity|].
  destruct ls as [|l2 ls].
  - simpl. rewrite count_absent by (apply H; now left). reflexivity.
  - change (Py.join [sep] (l :: l2 :: ls)) with (l ++ [sep] ++ Py.join [sep] (l2 :: ls)).
    rewrite !count_app, IH by (intros x Hx; apply H; now right).
    rewrite count_absent by (apply H; now left).
    assert (E1 : PyText.count sep [sep] = 1)
      by (unfold PyText.count; simpl; now rewrite N.eqb_refl).
    rewrite E1. unfold Py.len_list. cbn [List.length]. lia.
Qed.

Lemma take_list_length {A} n (xs : list A) :
  0 <= n -> Py.len_list (Py.take_list n xs) <= n.
Proof.
  intros Hn. unfold Py.take_list, Py.len_list.
  destruct (n <? 0) eqn:E; [apply Z.ltb_lt in E; lia|].
  rewrite length_firstn. lia.
Qed.

Lemma take_list_in {A} n (xs : list A) x : In x (Py.take_list n xs) -> In x xs.
Proof.
  unfold Py.take_list. intros H.
  rewrite <- (firstn_skipn (if n <? 0 then Z.to_nat (Z.max 0 (Py.len_list xs + n)) else Z.to_nat n) xs).
  apply in_or_app. now left.
Qed.

Lemma count_take c n x : PyText.count c (Py.take n x) <= PyText.count c x.
Proof. unfold Py.take. apply count_firstn. Qed.

Lemma flat_map_length_le {A B} (f : A -> list B) (l : list A) :
  (forall a, (List.length (f a) <= 1)%nat) ->
  (List.length (flat_map f l) <= List.length l)%nat.
Proof.
  intros Hf. induction l as [|a l IH]; simpl; [lia|].
  rewrite length_app. specialize (Hf a). lia.
Qed.

(** X19.  [_validate_and_trim_content] keeps its limits: for limits that
    are numbers and not negative, the content returned has at most
    [maxChars + 3] characters (the three of the ellipsis) and at most
    [maxLines] lines (one line when [maxLines] is 0). *)
Theorem validated_content_bounds :
  forall (content : str) (limits : config) (max_chars max_lines : Z) (r : str),
    Py.get_or limits (py "maxChars") (JInt 300) = JInt max_chars ->
    Py.get_or limits (py "maxLines") (JInt 5) = JInt max_lines ->
    0 <= max_chars -> 0 <= max_lines ->
    _validate_and_trim_content content limits = Some r ->
    Py.len r <= max_chars + 3 /\
    Py.len_list (Py.split_on 10%N r) <= Z.max 1 max_lines.
Proof.
  intros content limits max_chars max_lines r Hc Hl Hmc Hml H.
  unfold _validate_and_trim_content in H. rewrite Hc, Hl in H.
  injection H as <-.
  set (shaped := if is_bullets _ then _ else _).
  assert (Hlines : PyText.count 10%N shaped <= Z.max 0 (max_lines - 1)).
  { subst shaped. destruct (is_bullets _).
    - match goal with |- context [flat_map ?f ?l] =>
        set (bullet_lines := flat_map f l);
        assert (Hlen : (List.length bullet_lines <= List.length l)%nat);
        [|assert (Hin : forall x, In x bullet_lines -> ~ In 10%N x)]
      end.
      + apply flat_map_length_le. intros a. destruct (Py.strip a); [simpl; lia|].
        destruct (_ && _); simpl; lia.
      + intros l Hin. apply in_flat_map in Hin. destruct Hin as (a & Ha & Hin).
        apply take_list_in, split_on_pieces in Ha.
        assert (Hs : ~ In 10%N (Py.strip a)) by (intros Hx; apply Ha; now apply in_strip).
        destruct (Py.strip a) as [|c t] eqn:E; [destruct Hin|].
        destruct (_ && _); destruct Hin as [<-|[]]; [|exact Hs].
        intros Hx. cbn in Hx. destruct Hx as [Hx|[Hx|Hx]]; [discriminate Hx|discriminate Hx|].
        apply Hs. exact Hx.
      + eapply Z.le_trans; [apply Z.eq_le_incl; exact (count_join 10%N bullet_lines Hin)|].
        assert (Hk : (List.length bullet_lines <= Z.to_nat max_lines)%nat).
        { eapply Nat.le_trans; [exact Hlen|].
          pose proof (take_list_length max_lines (Py.split_on 10%N content) Hml) as Ht.
          apply Nat2Z.inj_le. rewrite Z2Nat.id by exact Hml. exact Ht. }
        clearbody bullet_lines. unfold Py.len_list, Py.str, Py.char in *. lia.
    - destruct (Py.len_list (Py.split_on 10%N content) >? max_lines) eqn:E.
      + eapply Z.le_trans; [apply Z.eq_le_incl; apply (count_join 10%N)|].
        * intros l Hin. now apply take_list_in, split_on_pieces in Hin.
        * pose proof (take_list_length max_lines (Py.split_on 10%N content) Hml).
          unfold Py.len_list, Py.str, Py.char in *. lia.
      + rewrite Z.gtb_ltb in E. apply Z.ltb_ge in E. rewrite lines_count in E. lia. }
  destruct (Py.len shaped >? max_chars) eqn:E.
  - assert (Hcut : forall cut, Py.len cut <= max_chars ->
                               PyText.count 10%N cut <= PyText.count 10%N shaped ->
                               Py.len (cut ++ py "...") <= max_chars + 3 /\
                               Py.len_list (Py.split_on 10%N (cut ++ py "...")) <= Z.max 1 max_lines).
    { intros cut H1 H2. rewrite len_app, lines_count, count_app.
      change (Py.len (py "...")) with 3. change (PyText.count 10%N (py "...")) with 0. lia. }
    pose proof (len_take_le max_chars shaped Hmc) as Ht.
    pose proof (count_take 10%N max_chars shaped) as Hk.
    destruct (PyFloat.int_gt _ _); apply Hcut; try assumption.
    + pose proof (len_take_le_len (Py.rfind 32%N (Py.take max_chars shaped))
                                  (Py.take max_chars shaped)). lia.
    + pose proof (count_take 10%N (Py.rfind 32%N (Py.take max_chars shaped))
                             (Py.take max_chars shaped)). lia.
  - rewrite Z.gtb_ltb in E. apply Z.ltb_ge in E. rewrite lines_count. lia.
Qed.

Lemma validated_content_bounds_witness :
  _validate_and_trim_content (py "Plants turn light into food and release oxygen")
    [(py "maxChars", JInt 20); (py "maxLines", JInt 2)] = Some (py "Plants turn light...") /\
  Py.len (py "Plants turn light...") <= 20 + 3 /\
  Py.len_list (Py.split_on 10%N (py "Plants turn light...")) <= Z.max 1 2.
Proof.
  split; [vm_compute; reflexivity|].
  apply (validated_content_bounds (py "Plants turn light into food and release oxygen")
           [(py "maxChars", JInt 20); (py "maxLines", JInt 2)] 20 2);
    [reflexivity|reflexivity|lia|lia|vm_compute; reflexivity].
Defined.

(** *** The retry of one field *)

Lemma min_length_le field_name : Py.get_or min_lengths field_name 3 <= 10.
Proof.
  unfold Py.get_or, min_lengths. cbn [Py.get].
  repeat (destruct (Py.eqb _ field_name); [lia|]). lia.
Qed.

(** Content that passes for the field "content", the one with the
    greatest minimum length, passes for every field. *)
Lemma acceptable_any_field content field_name :
  _is_content_acceptable content (py "content") = true ->
  _is_content_acceptable content field_name = true.
Proof.
  unfold _is_content_acceptable. destruct content as [|c t]; [discriminate|].
  destruct (Py.eqb _ []); [discriminate|].
  destruct (existsb _ _); [discriminate|].
  destruct (2 <=? _); [discriminate|].
  destruct (_ || _); [discriminate|].
  change (Py.get_or min_lengths (py "content") 3) with 10.
  pose proof (min_length_le field_name) as Hm.
  destruct (Py.len (Py.strip (c :: t)) <? 10) eqn:E; [discriminate|]. intros _.
  apply Z.ltb_ge in E.
  destruct (Py.len (Py.strip (c :: t)) <? Py.get_or min_lengths field_name 3) eqn:E2;
    [apply Z.ltb_lt in E2; lia|reflexivity].
Qed.

Lemma fallback_acceptable field_name :
  _is_content_acceptable (_get_fallback_content field_name) field_name = true.
Proof.
  apply acceptable_any_field. unfold _get_fallback_content, Py.get_or. cbn [Py.get].
  repeat (destruct (Py.eqb _ field_name); [vm_compute; reflexivity|]).
  vm_compute. reflexivity.
Qed.

Section RetryFacts.

Variable decimal : char -> bool.
Variable ollama_service : option llm.

Lemma retry_from_acceptable prompt constraints field_name max_retries :
  forall left attempt n,
    let r := retry_from decimal ollama_service prompt constraints field_name
               max_retries attempt left n in
    _is_content_acceptable (fst r) field_name = true /\
    (n <= snd r <= n + left)%nat.
Proof.
  induction left as [|left IH]; intros attempt n; cbn zeta.
  - simpl. split; [apply fallback_acceptable|lia].
  - cbn [retry_from].
    assert (Hnext : let r := if attempt =? max_retries
                             then (_get_fallback_content field_name, S n)
                             else retry_from decimal ollama_service prompt constraints
                                    field_name max_retries (attempt + 1) left (S n) in
                    _is_content_acceptable (fst r) field_name = true /\
                    (n <= snd r <= n + S left)%nat).
    { cbn zeta. destruct (attempt =? max_retries).
      - simpl. split; [apply fallback_acceptable|lia].
      - destruct (IH (attempt + 1) (S n)) as [H1 H2]. split; [exact H1|lia]. }
    destruct (_call_llm ollama_service n _ constraints) as [raw_content|]; [|exact Hnext].
    destruct (_is_content_acceptable (_sanitize_llm_output decimal raw_content) field_name)
      eqn:E; [|exact Hnext].
    simpl. split; [exact E|lia].
Qed.

End RetryFacts.

Lemma retry_from_without_service decimal prompt constraints field_name max_retries :
  forall left attempt n,
    fst (retry_from decimal None prompt constraints field_name max_retries attempt left n)
    = _get_fallback_content field_name.
Proof.
  induction left as [|left IH]; intros attempt n; [reflexivity|].
  cbn [retry_from _call_llm]. destruct (attempt =? max_retries); [reflexivity|apply IH].
Qed.

(** X20.  [_call_llm_with_retry] never hands back content that fails its
    own quality check: whatever the service replies, raises or is
    missing, the content returned passes [_is_content_acceptable] for the
    field, and at most [max_retries + 1] calls of the LLM are made. *)
Theorem retry_returns_acceptable_content :
  forall (decimal : char -> bool) (ollama_service : option llm)
         (prompt : str) (constraints : config) (field_name : str)
         (max_retries : Z) (n : nat),
    let r := _call_llm_with_retry decimal ollama_service prompt constraints field_name
               max_retries n in
    _is_content_acceptable (fst r) field_name = true /\
    (n <= snd r <= n + Z.to_nat (max_retries + 1))%nat.
Proof.
  intros decimal ollama_service prompt limits field_name max_retries n r.
  subst r. unfold _call_llm_with_retry. apply retry_from_acceptable.
Qed.

(** *** The fill of all fields *)

Lemma dict_set_keys {V} (d : list (str * V)) k v k' :
  In k' (map fst (dict_set d k v)) <-> k' = k \/ In k' (map fst d).
Proof.
  induction d as [|[k0 v0] d IH]; simpl.
  - intuition congruence.
  - destruct (Py.eqb k0 k) eqn:E; simpl.
    + apply py_eqb_eq in E. subst k0. intuition congruence.
    + rewrite IH. intuition congruence.
Qed.

Lemma dict_set_nodup {V} (d : list (str * V)) k v :
  NoDup (map fst d) -> NoDup (map fst (dict_set d k v)).
Proof.
  induction d as [|[k0 v0] d IH]; simpl; intros H.
  - constructor; [intros []|constructor].
  - destruct (Py.eqb k0 k) eqn:E; simpl; [exact H|].
    inversion H; subst. constructor; [|now apply IH].
    rewrite dict_set_keys. intros [->|Hin]; [|contradiction].
    now rewrite py_eqb_refl in E.
Qed.

Lemma dict_set_values {V} (P : str -> V -> Prop) (d : list (str * V)) k v :
  P k v -> (forall k' v', In (k', v') d -> P k' v') ->
  forall k' v', In (k', v') (dict_set d k v) -> P k' v'.
Proof.
  intros Hv Hd k' v' Hin. apply dict_set_in in Hin.
  destruct Hin as [[= -> ->]|Hin]; [exact Hv|now apply Hd].
Qed.

Section FillFacts.

Variable decimal : char -> bool.
Variable ollama_service : option llm.
Variable constraints : list (str * config).
Variable difficulty_level : str.

(** What every value of the filled content satisfies. *)
Variable P : str -> str -> Prop.
Hypothesis retry_P : forall prompt field_constraints field_name n,
  P field_name (fst (_call_llm_with_retry decimal ollama_service prompt field_constraints
                       field_name 2 n)).

Lemma fill_fold : forall content_prompts filled n,
  NoDup (map fst filled) ->
  (forall k v, In (k, v) filled -> P k v) ->
  let r := fst (fold_left (fill_field decimal ollama_service constraints difficulty_level)
                          content_prompts (filled, n)) in
  NoDup (map fst r) /\
  (forall k, In k (map fst r) <-> In k (map fst filled) \/ In k (map fst content_prompts)) /\
  (forall k v, In (k, v) r -> P k v).
Proof.
  induction content_prompts as [|[field_name prompt] rest IH]; intros filled n Hnd Hv; cbn zeta.
  - simpl. split; [exact Hnd|]. split; [tauto|exact Hv].
  - cbn [fold_left].
    set (field_constraints := Py.get_or constraints field_name (default_constraints field_name)).
    set (R := _call_llm_with_retry decimal ollama_service
                (_enhance_prompt_with_constraints prompt field_constraints difficulty_level)
                field_constraints field_name 2 n).
    assert (E : fill_field decimal ollama_service constraints difficulty_level
                  (filled, n) (field_name, prompt)
                = (dict_set filled field_name (fst R), snd R)).
    { unfold fill_field. fold field_constraints. fold R. now destruct R. }
    rewrite E.
    assert (Hp : P field_name (fst R)) by apply retry_P.
    destruct (IH (dict_set filled field_name (fst R)) (snd R)) as (H1 & H2 & H3).
    + now apply dict_set_nodup.
    + now apply dict_set_values.
    + split; [exact H1|]. split; [|exact H3].
      intros k. rewrite H2, dict_set_keys. simpl. intuition congruence.
Qed.

End FillFacts.

(** X21.  [_generate_content_from_structured_prompts] gives every field of
    the prompts a value, once, and no other; each value passes
    [_is_content_acceptable] for its field, whatever the LLM service
    does. *)
Theorem structured_content_covers_every_field :
  forall (decimal : char -> bool) (ollama_service : option llm)
         (content_prompts : list (str * str)) (constraints : list (str * config))
         (difficulty_level : str),
    let filled := _generate_content_from_structured_prompts decimal ollama_service
                    content_prompts constraints difficulty_level in
    NoDup (map fst filled) /\
    (forall k, In k (map fst filled) <-> In k (map fst content_prompts)) /\
    (forall k v, In (k, v) filled -> _is_content_acceptable v k = true).
Proof.
  intros decimal ollama_service content_prompts limits difficulty_level filled.
  subst filled. unfold _generate_content_from_structured_prompts.
  destruct (fill_fold decimal ollama_service limits difficulty_level
              (fun k v => _is_content_acceptable v k = true)
              (fun p c f n => proj1 (retry_from_acceptable decimal ollama_service p c f 2 _ 0 n))
              content_prompts [] O (NoDup_nil _) (fun k v H => match H with end))
    as (H1 & H2 & H3).
  split; [exact H1|]. split; [|exact H3].
  intros k. rewrite H2. simpl. tauto.
Qed.

(** X22.  Without an LLM service [fill_template_with_prompts] still
    reports a regular fill: when it returns, [is_fallback] is false,
    although every value of the filled content is the canned text of
    [_get_fallback_content] for its field. *)
Theorem fill_with_prompts_without_service :
  forall (decimal : char -> bool) (t : template) (content_prompts : list (str * str))
         (topic difficulty_level : str) (slide_index : Z) (container_size : option config)
         (ft : FilledTemplate),
    fill_template_with_prompts decimal None t content_prompts topic difficulty_level
      slide_index container_size = Some ft ->
    is_fallback ft = false /\
    (forall k, In k (map fst (filled_content ft)) <-> In k (map fst content_prompts)) /\
    (forall k v, In (k, v) (filled_content ft) -> v = _get_fallback_content k).
Proof.
  intros decimal t content_prompts topic difficulty_level slide_index container_size ft H.
  unfold fill_template_with_prompts in H.
  destruct (slide_at t slide_index) as [sl|]; [|discriminate].
  destruct (_get_responsive_constraints sl container_size) as [limits|]; [|discriminate].
  injection H as <-. cbn [is_fallback filled_content]. split; [reflexivity|].
  unfold _generate_content_from_structured_prompts.
  destruct (fill_fold decimal None limits difficulty_level
              (fun k v => v = _get_fallback_content k)
              (fun p c f n => retry_from_without_service decimal p c f 2 _ 0 n)
              content_prompts [] O (NoDup_nil _) (fun k v H => match H with end))
    as (H1 & H2 & H3).
  split; [|exact H3]. intros k. rewrite H2. simpl. tauto.
Qed.

Lemma fill_with_prompts_without_service_witness :
  exists ft,
    fill_template_with_prompts Sanitizer.ascii_digit None example_template
      [(py "heading", py "Write a heading"); (py "content", py "Explain it")]
      (py "Photosynthesis") (py "beginner") 0 None = Some ft /\
    is_fallback ft = false /\
    filled_content ft = [ (py "heading", _get_fallback_content (py "heading"));
                          (py "content", _get_fallback_content (py "content")) ].
Proof.
  eexists. split; [vm_compute; reflexivity|].
  split; [|vm_compute; reflexivity].
  eapply (fill_with_prompts_without_service Sanitizer.ascii_digit example_template
            [(py "heading", py "Write a heading"); (py "content", py "Explain it")]
            (py "Photosynthesis") (py "beginner") 0 None).
  vm_compute. reflexivity.
Defined.

End StructuredFillFacts.

(** ** Chunks for streaming *)

Module ChunkFacts.

Import PyFacts Regex Sanitizer SanitizerFacts Markup OutputFacts RenderFacts TTSChunks.

Local Open Scope Z_scope.

(** *** The sentence pattern *)

Lemma rep_greedy_total p (F : str -> res) (K : option char -> str -> option res) :
  (forall p' s1, K p' s1 = Some (F s1)) ->
  forall s lo prev,
    rep_greedy p lo prev s K
    = if (lo <=? run_len p s)%nat then Some (F (skipn (run_len p s) s)) else None.
Proof.
  intros HK. induction s as [|c t IH]; intros lo prev; simpl.
  - destruct lo; [apply HK|reflexivity].
  - destruct (cls_match p c).
    + rewrite IH. destruct lo as [|lo]; simpl.
      * reflexivity.
      * destruct (lo <=? run_len p t)%nat; reflexivity.
    + destruct lo; [apply HK|reflexivity].
Qed.

(** Where a sentence ender stands, the pattern matches at least that
    character. *)
Lemma sentence_endings_at_ender prev (c : N) (t : list N) :
  cls_match enders c = true ->
  exists n cs, match_here sentence_endings prev (c :: t) false = Some (S n, cs).
Proof.
  intros Hc. unfold match_here, sentence_endings, plus, star. cbn [exec andb].
  rewrite (rep_greedy_total enders
             (fun s1 => (skipn (run_len space s1) s1, @nil (nat * str)))).
  - cbn [run_len]. rewrite Hc. cbn [Nat.leb skipn].
    set (rest := skipn (run_len space (skipn (run_len enders t) t)) (skipn (run_len enders t) t)).
    assert (Hlen : (List.length rest <= List.length t)%nat).
    { subst rest. rewrite !length_skipn. lia. }
    exists (List.length t - List.length rest)%nat, [].
    f_equal. f_equal. cbn [List.length]. lia.
  - intros p' s1. now rewrite (rep_greedy_class space 0 p' s1 []).
Qed.

Lemma split_go_pieces : forall (s : list N) prev skip (cur : list N),
  (forall c, In c cur -> cls_match enders c = false) ->
  forall p, In p (split_go sentence_endings prev s skip cur) ->
  forall c, In c p -> cls_match enders c = false.
Proof.
  induction s as [|d t IH]; intros prev skip cur Hcur p Hp c Hc.
  - destruct Hp as [<-|[]]. apply Hcur. now apply in_rev.
  - cbn [split_go] in Hp. destruct skip as [|k].
    + assert (Hkeep : In p (split_go sentence_endings (Some d) t 0 (d :: cur)) ->
                      match_here sentence_endings prev (d :: t) false = None \/
                      (exists cs, match_here sentence_endings prev (d :: t) false = Some (O, cs)) ->
                      cls_match enders c = false).
      { intros Hin Hm. apply (IH (Some d) O (d :: cur)) with (p := p); [|exact Hin|exact Hc].
        intros x [<-|Hx]; [|now apply Hcur].
        destruct (cls_match enders d) eqn:E; [|reflexivity].
        destruct (sentence_endings_at_ender prev d t E) as (n & cs & Hn).
        destruct Hm as [Hm|[cs' Hm]]; rewrite Hm in Hn; discriminate Hn. }
      destruct (match_here sentence_endings prev (d :: t) false) as [[[|n] cs]|] eqn:E.
      * apply Hkeep; [exact Hp|right; now exists cs].
      * destruct Hp as [<-|Hp].
        -- apply Hcur. now apply in_rev.
        -- apply (IH (Some d) n []) with (p := p); [intros x []|exact Hp|exact Hc].
      * apply Hkeep; [exact Hp|now left].
    + apply (IH (Some d) k cur) with (p := p); assumption.
Qed.

Lemma nonempty_true x : nonempty x = true <-> x <> [].
Proof. destruct x; simpl; split; congruence. Qed.

(** A sentence is not empty, has no whitespace at its ends and no
    sentence ender. *)
Lemma sentences_shape text s :
  In s (sentences_of text) ->
  s <> [] /\ Py.strip s = s /\ forall c, In c s -> cls_match enders c = false.
Proof.
  unfold sentences_of. intros H. apply in_map_iff in H. destruct H as (p & <- & Hp).
  apply filter_In in Hp. destruct Hp as [Hp Hne]. apply nonempty_true in Hne.
  split; [exact Hne|]. split; [apply strip_idem|].
  intros c Hc. apply in_strip in Hc.
  unfold re_split in Hp. apply (split_go_pieces _ _ _ _ (fun x (H : In x []) => match H with end) p Hp c Hc).
Qed.

(** *** Texts without whitespace at their ends *)

Lemma strip_fixed_ends x : Py.strip x = x -> starts_clean x /\ starts_clean (rev x).
Proof.
  intros H. split.
  - rewrite <- H, <- strip_lstrip_fixed. apply lstrip_starts_clean.
  - assert (Hr : Py.rstrip x = x) by (rewrite <- H at 1; rewrite strip_rstrip_fixed; exact H).
    unfold Py.rstrip in Hr. apply (f_equal (@rev N)) in Hr. rewrite rev_involutive in Hr.
    rewrite <- Hr. apply lstrip_starts_clean.
Qed.

Lemma ends_strip_fixed x : starts_clean x -> starts_clean (rev x) -> Py.strip x = x.
Proof.
  intros H1 H2. unfold Py.strip, Py.rstrip. rewrite (lstrip_clean x H1), (lstrip_clean _ H2).
  apply rev_involutive.
Qed.

Lemma starts_clean_app (a b : list N) : a <> [] -> starts_clean a -> starts_clean (a ++ b).
Proof. destruct a; [congruence|]. simpl. tauto. Qed.

Lemma joined_strip_fixed (a b : list N) :
  a <> [] -> b <> [] -> Py.strip a = a -> Py.strip b = b ->
  Py.strip (a ++ py " " ++ b) = a ++ py " " ++ b.
Proof.
  intros Ha Hb Hsa Hsb.
  destruct (strip_fixed_ends a Hsa) as [Ha1 _].
  destruct (strip_fixed_ends b Hsb) as [_ Hb2].
  apply ends_strip_fixed.
  - now apply starts_clean_app.
  - rewrite !rev_app_distr, <- app_assoc. apply starts_clean_app; [|exact Hb2].
    intros E. apply (f_equal (@rev N)) in E. rewrite rev_involutive in E. now subst.
Qed.

(** *** The loop over the sentences *)

Section Loop.

Variable sha256_hex16 : str -> str.
Variable max_chunk_size : Z.

(** What holds of every sentence, and with two texts of their join when
    it fits. *)
Variable P : str -> Prop.
Hypothesis P_join : forall a b : str,
  P a -> P b -> Py.len (a ++ py " " ++ b) <= max_chunk_size -> P (a ++ py " " ++ b).

Lemma add_sentence_fold : forall (ss : list str) chunks current_chunk chunk_index,
  Forall (good P) ss ->
  chunk_index = Py.len_list chunks ->
  map index chunks = map Z.of_nat (seq 0 (List.length chunks)) ->
  Forall (fun c => chunk_id c
                   = sha256_hex16 (text c ++ py "_" ++ Py.str_of_Z (index c))) chunks ->
  Forall (good P) (pending (chunks, current_chunk, chunk_index)) ->
  let chunks' := last_chunk sha256_hex16
                   (fold_left (add_sentence sha256_hex16 max_chunk_size) ss
                              (chunks, current_chunk, chunk_index)) in
  map index chunks' = map Z.of_nat (seq 0 (List.length chunks')) /\
  Forall (fun c => chunk_id c
                   = sha256_hex16 (text c ++ py "_" ++ Py.str_of_Z (index c))) chunks' /\
  Forall (good P) (map text chunks') /\
  Py.join (py " ") (map text chunks')
  = Py.join (py " ") (pending (chunks, current_chunk, chunk_index) ++ ss).
Proof.
  induction ss as [|s ss IH]; intros chunks cur idx Hss Hidx Hind Hid Hpend; cbn zeta.
  - cbn [fold_left]. rewrite app_nil_r. unfold last_chunk, pending in *.
    destruct cur as [|c cur'].
    + cbn [Py.strip Py.lstrip Py.rstrip rev nonempty] in *.
      change (nonempty (Py.strip [])) with false. cbv iota. rewrite app_nil_r in *.
      repeat split; assumption.
    + cbn [nonempty] in Hpend. apply Forall_app in Hpend. destruct Hpend as [Hp1 Hp2].
      inversion Hp2 as [|? ? (Hne & Hfix & HP) _]; subst.
      unfold make_chunk. rewrite Hfix. cbn [nonempty].
      rewrite !map_app, length_app, seq_app, map_app. cbn [map text index chunk_id List.length seq].
      repeat split.
      * rewrite Hind. reflexivity.
      * apply Forall_app. split; [exact Hid|]. constructor; [reflexivity|constructor].
      * apply Forall_app. split; [exact Hp1|exact Hp2].
  - cbn [fold_left].
    inversion Hss as [|? ? Hs Hrest]; subst.
    destruct Hs as (Hsne & Hsfix & HsP).
    unfold pending in Hpend |- *.
    destruct cur as [|c cur'].
    + match goal with |- context [add_sentence ?a ?b ?c ?d] =>
        change (add_sentence a b c d) with (chunks, s, Py.len_list chunks)
      end.
      cbn [nonempty] in *. rewrite app_nil_r in Hpend.
      destruct (IH chunks s (Py.len_list chunks) Hrest eq_refl Hind Hid) as (H1 & H2 & H3 & H4).
      { unfold pending. destruct s; [congruence|]. cbn [nonempty].
        apply Forall_app. split; [exact Hpend|]. constructor; [|constructor].
        repeat split; assumption. }
      split; [exact H1|]. split; [exact H2|]. split; [exact H3|].
      etransitivity; [exact H4|]. unfold pending. destruct s; [congruence|]. cbn [nonempty].
      now rewrite app_nil_r, <- app_assoc.
    + cbn [nonempty] in Hpend.
      apply Forall_app in Hpend. destruct Hpend as [Hp1 Hp2].
      inversion Hp2 as [|? ? (Hne & Hfix & HP) _]; subst.
      set (cur := c :: cur') in *.
      destruct (Py.len cur + Py.len s + 1 >? max_chunk_size) eqn:E.
      * match goal with |- context [add_sentence ?a ?b ?c ?d] =>
          assert (Est : add_sentence a b c d
                        = (chunks ++ [make_chunk sha256_hex16 cur (Py.len_list chunks)], s,
                           Py.len_list chunks + 1));
          [unfold add_sentence; subst cur; cbn [nonempty andb]; now rewrite E|rewrite Est]
        end.
        destruct (IH (chunks ++ [make_chunk sha256_hex16 cur (Py.len_list chunks)]) s
                     (Py.len_list chunks + 1) Hrest) as (H1 & H2 & H3 & H4).
        -- unfold Py.len_list. rewrite length_app. cbn [List.length]. lia.
        -- rewrite map_app, length_app, seq_app, map_app.
           cbn [map index make_chunk List.length seq]. rewrite Hind. reflexivity.
        -- apply Forall_app. split; [exact Hid|]. constructor; [|constructor].
           unfold make_chunk. cbn [text index chunk_id]. now rewrite Hfix.
        -- unfold pending. rewrite map_app. cbn [map text make_chunk]. rewrite Hfix.
           destruct s; [congruence|]. cbn [nonempty].
           apply Forall_app. split; [apply Forall_app; split; [exact Hp1|exact Hp2]|].
           constructor; [|constructor]. repeat split; assumption.
        -- split; [exact H1|]. split; [exact H2|]. split; [exact H3|].
           etransitivity; [exact H4|].
           unfold pending. rewrite map_app. cbn [map text make_chunk]. rewrite Hfix.
           destruct s; [congruence|]. cbn [nonempty].
           now rewrite <- !app_assoc.
      * match goal with |- context [add_sentence ?a ?b ?c ?d] =>
          assert (Est : add_sentence a b c d
                        = (chunks, cur ++ py " " ++ s, Py.len_list chunks));
          [unfold add_sentence; subst cur; cbn [nonempty andb]; now rewrite E|rewrite Est]
        end.
        rewrite Z.gtb_ltb in E. apply Z.ltb_ge in E.
        assert (Hlen : Py.len (cur ++ py " " ++ s) <= max_chunk_size).
        { rewrite !len_app. change (Py.len (py " ")) with 1. lia. }
        destruct (IH chunks (cur ++ py " " ++ s) (Py.len_list chunks) Hrest eq_refl Hind Hid)
          as (H1 & H2 & H3 & H4).
        -- unfold pending. change (nonempty (cur ++ py " " ++ s)) with true. cbv iota.
           apply Forall_app. split; [exact Hp1|]. constructor; [|constructor].
           split; [discriminate|]. split; [now apply joined_strip_fixed|now apply P_join].
        -- split; [exact H1|]. split; [exact H2|]. split; [exact H3|].
           etransitivity; [exact H4|].
           unfold pending. change (nonempty (cur ++ py " " ++ s)) with true. cbv iota.
           rewrite <- !app_assoc. cbn [app]. apply join_merge.
Qed.

End Loop.

Lemma chunks_fold sha256_hex16 max_chunk_size (P : str -> Prop) (input : str) :
  (forall a b : str, P a -> P b -> Py.len (a ++ py " " ++ b) <= max_chunk_size ->
                     P (a ++ py " " ++ b)) ->
  (forall s, In s (sentences_of input) -> P s) ->
  let chunks := _split_text_into_chunks sha256_hex16 input max_chunk_size in
  map index chunks = map Z.of_nat (seq 0 (List.length chunks)) /\
  Forall (fun c => chunk_id c
                   = sha256_hex16 (text c ++ py "_" ++ Py.str_of_Z (index c))) chunks /\
  Forall (good P) (map TTSChunks.text chunks) /\
  Py.join (py " ") (map TTSChunks.text chunks) = Py.join (py " ") (sentences_of input).
Proof.
  intros HP Hs. cbn zeta. unfold _split_text_into_chunks.
  destruct (Py.strip input) as [|c t] eqn:E.
  - unfold sentences_of. rewrite E. cbn. repeat split; constructor.
  - apply (add_sentence_fold sha256_hex16 max_chunk_size P HP (sentences_of input) [] [] 0).
    + apply Forall_forall. intros s Hin. destruct (sentences_shape input s Hin) as (H1 & H2 & _).
      repeat split; [exact H1|exact H2|now apply Hs].
    + reflexivity.
    + reflexivity.
    + constructor.
    + constructor.
Qed.

(** X23.  The chunks of [_split_text_into_chunks] are numbered 0, 1, 2, ...
    in order, each identifier is the hash of the chunk's text, an
    underscore and its number, and the texts joined by single spaces are
    the sentences of the text joined by single spaces: no sentence is
    lost, repeated or reordered, for every text and chunk size. *)
Theorem chunks_keep_the_sentences :
  forall (sha256_hex16 : str -> str) (text : str) (max_chunk_size : Z),
    let chunks := _split_text_into_chunks sha256_hex16 text max_chunk_size in
    map index chunks = map Z.of_nat (seq 0 (List.length chunks)) /\
    Forall (fun c => chunk_id c
                     = sha256_hex16 (TTSChunks.text c ++ py "_" ++ Py.str_of_Z (index c)))
           chunks /\
    Py.join (py " ") (map TTSChunks.text chunks) = Py.join (py " ") (sentences_of text).
Proof.
  intros sha text m.
  destruct (chunks_fold sha m (fun _ => True) text (fun _ _ _ _ _ => I) (fun _ _ => I))
    as (H1 & H2 & _ & H4).
  cbn zeta. repeat split; assumption.
Qed.

(** X24.  No chunk of [_split_text_into_chunks] is empty or has whitespace
    at its ends, none holds a period, an exclamation mark or a question
    mark, and a chunk longer than [max_chunk_size] is a single sentence
    of the text. *)
Theorem chunk_texts_are_bounded :
  forall (sha256_hex16 : str -> str) (text : str) (max_chunk_size : Z),
    Forall (fun c => TTSChunks.text c <> [] /\
                     Py.strip (TTSChunks.text c) = TTSChunks.text c /\
                     (forall ch, In ch (TTSChunks.text c) ->
                                 ch <> 46%N /\ ch <> 33%N /\ ch <> 63%N) /\
                     (Py.len (TTSChunks.text c) <= max_chunk_size \/
                      In (TTSChunks.text c) (sentences_of text)))
           (_split_text_into_chunks sha256_hex16 text max_chunk_size).
Proof.
  intros sha text m.
  destruct (chunks_fold sha m
              (fun x => (forall ch, In ch x -> cls_match enders ch = false) /\
                        (Py.len x <= m \/ In x (sentences_of text))) text)
    as (_ & _ & H3 & _).
  - intros a b [Ha _] [Hb _] Hlen. split; [|now left].
    intros ch Hin. apply in_app_or in Hin. destruct Hin as [Hin|Hin]; [now apply Ha|].
    apply in_app_or in Hin. destruct Hin as [Hin|Hin]; [|now apply Hb].
    destruct Hin as [<-|[]]. reflexivity.
  - intros s Hin. split; [apply (sentences_shape text s Hin)|now right].
  - rewrite Forall_map in H3. eapply Forall_impl; [|exact H3].
    intros c (H1 & H2 & H4 & H5).
    split; [exact H1|]. split; [exact H2|]. split; [|exact H5].
    intros x Hx. specialize (H4 x Hx).
    repeat split; intros ->; discriminate H4.
Qed.

End ChunkFacts.

(** ** Serving the merged audio *)

Module ServeFacts.

Import PyFacts Regex MergedAudio.

Local Open Scope Z_scope.

Lemma firstn_add {A} (a b : nat) (l : list A) :
  firstn (a + b) l = firstn a l ++ firstn b (skipn a l).
Proof.
  revert l. induction a as [|a IH]; intros l; [reflexivity|].
  destruct l as [|x l]; simpl; [now rewrite firstn_nil|]. now rewrite IH.
Qed.

Lemma read_prefix n rest : firstn (List.length (read n rest)) rest = read n rest.
Proof.
  unfold read. destruct (n <? 0); [apply firstn_all|].
  rewrite length_firstn. destruct (Nat.min_spec (Z.to_nat n) (List.length rest)) as [[_ ->]|[H ->]].
  - reflexivity.
  - rewrite firstn_all. symmetry. apply firstn_all2. exact H.
Qed.

Lemma read_length n rest : 0 <= n -> Z.of_nat (List.length (read n rest)) <= n.
Proof.
  intros Hn. unfold read. destruct (n <? 0) eqn:E; [apply Z.ltb_lt in E; lia|].
  rewrite length_firstn. lia.
Qed.

Lemma read_empty n rest : 0 < n -> read n rest = [] -> rest = [].
Proof.
  intros Hn. unfold read. destruct (n <? 0) eqn:E; [apply Z.ltb_lt in E; lia|].
  destruct rest as [|b rest]; [reflexivity|].
  destruct (Z.to_nat n) as [|k] eqn:Ek; [lia|]. discriminate.
Qed.

(** The range loop yields the next [remaining] bytes of the file, in
    chunks that are not empty and hold at most [chunk_size] bytes. *)
Lemma read_range_yields : forall rounds rest remaining chunk_size,
  0 < chunk_size -> (Z.to_nat remaining <= rounds)%nat ->
  List.concat (read_range rounds rest remaining chunk_size) = firstn (Z.to_nat remaining) rest /\
  Forall (fun chunk => chunk <> [] /\ Z.of_nat (List.length chunk) <= chunk_size)
         (read_range rounds rest remaining chunk_size).
Proof.
  induction rounds as [|rounds IH]; intros rest remaining cs Hcs Hr.
  - simpl. replace (Z.to_nat remaining) with O by lia. split; [reflexivity|constructor].
  - cbn [read_range]. destruct (0 <? remaining) eqn:E.
    + apply Z.ltb_lt in E.
      set (cs' := Z.min cs remaining).
      assert (Hcs' : 0 < cs') by (subst cs'; lia).
      pose proof (read_length cs' rest (Z.lt_le_incl _ _ Hcs')) as Hlen.
      pose proof (read_prefix cs' rest) as Hpre.
      destruct (read cs' rest) as [|b chunk] eqn:Er.
      * apply read_empty in Er; [|exact Hcs']. subst rest. rewrite firstn_nil.
        split; [reflexivity|constructor].
      * set (k := List.length (b :: chunk)) in *.
        assert (Hk : (1 <= k)%nat) by (subst k; simpl; lia).
        destruct (IH (skipn k rest) (remaining - Z.of_nat k) cs' Hcs') as [H1 H2];
          [subst cs'; lia|].
        split.
        -- cbn [List.concat]. rewrite H1.
           replace (Z.to_nat remaining) with (k + Z.to_nat (remaining - Z.of_nat k))%nat
             by (subst cs'; lia).
           now rewrite firstn_add, Hpre.
        -- constructor.
           ++ split; [discriminate|]. subst cs'. lia.
           ++ eapply Forall_impl; [|exact H2]. intros c [Hc1 Hc2]. split; [exact Hc1|].
              subst cs'. lia.
    + apply Z.ltb_ge in E. replace (Z.to_nat remaining) with O by lia.
      split; [reflexivity|constructor].
Qed.

Lemma read_all_yields : forall rounds rest chunk_size,
  0 < chunk_size -> (List.length rest <= rounds)%nat ->
  List.concat (read_all rounds rest chunk_size) = rest.
Proof.
  induction rounds as [|rounds IH]; intros rest cs Hcs Hr.
  - destruct rest; [reflexivity|simpl in Hr; lia].
  - cbn [read_all].
    pose proof (read_prefix cs rest) as Hpre.
    destruct (read cs rest) as [|b chunk] eqn:Er.
    + apply read_empty in Er; [|exact Hcs]. now subst.
    + cbn [List.concat]. rewrite IH; [|exact Hcs|].
      * etransitivity; [|apply (firstn_skipn (List.length (b :: chunk)) rest)].
        now rewrite Hpre.
      * rewrite length_skipn. simpl. lia.
Qed.



End ServeFacts.

(** ** What the merge and the timing update leave alone *)

Module RetimeFacts.

Import PyFacts AudioMerger LessonRouter MergerFacts RouterFacts.

(** *** The timing update touches timing only *)

Section Field.

Variable A : Type.
Variable f : segment -> A.

(** [f] reads nothing that a timing update writes. *)
Hypothesis f_timeless : forall seg st d e,
  f {| slide_number := slide_number seg; text := text seg;
       start_time := st; duration := d; end_time := e;
       audio_id := audio_id seg; audio_url := audio_url seg; error := error seg |}
  = f seg.

Lemma set_nth_map i s l x :
  nth_error l i = Some x -> f s = f x -> map f (set_nth i s l) = map f l.
Proof.
  revert i. induction l as [|y l IH]; intros [|i] Hx Hf; simpl in *; try discriminate.
  - injection Hx as ->. now rewrite Hf.
  - f_equal. now apply IH.
Qed.

Lemma update_step_map U l i : map f (update_step U l i) = map f l.
Proof.
  unfold update_step. destruct (nth_error l i) as [seg|] eqn:E; [|reflexivity].
  destruct (updated_segments_map U _); apply (set_nth_map i _ l seg E); apply f_timeless.
Qed.

Lemma update_timing_map U l : map f (update_timing U l) = map f l.
Proof.
  unfold update_timing. generalize (seq 0 (List.length l)). intros idx. revert l.
  induction idx as [|i idx IH]; intros l; [reflexivity|].
  cbn [fold_left]. rewrite IH. apply update_step_map.
Qed.

Lemma merge_and_retime_map {P : Pydub} gp fs out l ct :
  map f (fst (merge_and_retime gp fs out l ct)) = map f l.
Proof.
  unfold merge_and_retime. destruct (collect_audio gp fs l); [reflexivity|].
  destruct (merge_audio_files_padded _ _ _ _ _) as [[[o total] updated]|e]; [|reflexivity].
  apply update_timing_map.
Qed.

End Field.

Lemma collect_audio_none {P : Pydub} gp fs l :
  (forall s, In s l -> has_audio s = false) -> collect_audio gp fs l = [].
Proof.
  induction l as [|s l IH]; intros H; [reflexivity|].
  simpl. rewrite (H s (or_introl eq_refl)). apply IH. intros x Hx. apply H. now right.
Qed.

(** X26.  The merge branch of [generate_lesson_merged_audio] changes
    timing only: whatever the merger returns or raises, the segments come
    back in the same number and order with their slide numbers, texts,
    audio ids, audio URLs and errors unchanged; and when no segment has
    audio, the segments and the estimated total come back as they
    were. *)
Theorem retiming_keeps_the_segments :
  forall (P : Pydub) (get_audio_file_path : str -> option str) (fs : files)
         (merged_audio_path : str) (audio_segments : list segment) (current_time : Q),
    let final := fst (merge_and_retime get_audio_file_path fs merged_audio_path
                        audio_segments current_time) in
    map slide_number final = map slide_number audio_segments /\
    map text final = map text audio_segments /\
    map audio_id final = map audio_id audio_segments /\
    map audio_url final = map audio_url audio_segments /\
    map error final = map error audio_segments /\
    ((forall s, In s audio_segments -> has_audio s = false) ->
     merge_and_retime get_audio_file_path fs merged_audio_path audio_segments current_time
     = (audio_segments, current_time)).
Proof.
  intros P gp fs out l ct final. subst final.
  repeat split; try (apply merge_and_retime_map; reflexivity).
  intros H. unfold merge_and_retime. now rewrite (collect_audio_none gp fs l H).
Qed.

(** *** When the merge succeeds *)

Section Success.

Context {P : Pydub}.

Lemma merge_rest_sound fs m infos fade :
  forall rest i merged updated current r,
    merge_rest fs m infos fade i rest merged updated current = Some r ->
    Forall (fun p => from_file fs p <> None) rest /\
    List.length (snd (fst r))
    = (List.length updated + Nat.min (List.length rest) (List.length infos - i))%nat.
Proof.
  induction rest as [|p rest IH]; intros i merged updated current r H.
  - simpl in H. injection H as <-. simpl. split; [constructor|lia].
  - cbn [merge_rest] in H. destruct (from_file fs p) as [raw|] eqn:Ep; [|discriminate].
    destruct (nth_error infos i) as [info|] eqn:En.
    + apply IH in H. destruct H as [H1 H2]. split.
      * constructor; [congruence|exact H1].
      * rewrite H2, length_app. cbn [List.length].
        assert (i < List.length infos)%nat by (apply nth_error_Some; congruence). lia.
    + apply IH in H. destruct H as [H1 H2]. split.
      * constructor; [congruence|exact H1].
      * rewrite H2. apply nth_error_None in En. cbn [List.length]. lia.
Qed.

Lemma merge_rest_total fs m infos fade :
  forall rest i merged updated current,
    Forall (fun p => from_file fs p <> None) rest ->
    merge_rest fs m infos fade i rest merged updated current <> None.
Proof.
  induction rest as [|p rest IH]; intros i merged updated current H; [discriminate|].
  inversion H as [|? ? Hp Hrest]; subst. cbn [merge_rest].
  destruct (from_file fs p) as [raw|]; [|congruence].
  destruct (nth_error infos i); now apply IH.
Qed.

Lemma find_missing_none fs (paths : list str) :
  find (fun p => negb (path_exists fs p)) paths = None <->
  Forall (fun p => path_exists fs p = true) paths.
Proof.
  split.
  - intros H. apply Forall_forall. intros p Hp.
    apply (find_none _ _ H) in Hp. now apply negb_false_iff in Hp.
  - apply find_absent_none.
Qed.

End Success.

(** X27.  [merge_audio_files_with_silence] returns exactly when there is
    at least one path, every path exists, every file decodes and the
    export succeeds; it then returns the output path it was given and one
    retimed segment for each clip that has a segment info. *)
Theorem merge_succeeds_exactly_on_sound_input :
  forall (P : Pydub) (fs : files) (m : merger) (paths : list str) (out : str)
         (infos : list segment) (fade : Z),
    ((exists r, merge_audio_files_with_silence fs m paths out infos fade = Ok r) <->
     (paths <> [] /\
      Forall (fun p => path_exists fs p = true) paths /\
      Forall (fun p => from_file fs p <> None) paths /\
      export_ok fs = true)) /\
    (forall o total segs,
        merge_audio_files_with_silence fs m paths out infos fade = Ok (o, total, segs) ->
        o = out /\
        List.length segs = Nat.min (List.length paths) (List.length infos)).
Proof.
  intros P fs m paths out infos fade. unfold merge_audio_files_with_silence.
  destruct paths as [|p0 rest].
  - split; [|discriminate]. split; [intros [r H]; discriminate|intros [H _]; congruence].
  - destruct (find _ (p0 :: rest)) as [missing|] eqn:Ef.
    + split; [|discriminate]. split; [intros [r H]; discriminate|].
      intros (_ & Hex & _). apply find_missing_none in Hex. congruence.
    + apply find_missing_none in Ef.
      destruct (from_file fs p0) as [a0|] eqn:E0.
      * set (start := match infos with
                      | info :: _ => ([retimed info 0 (ms (normalized a0))],
                                      0 + ms (normalized a0))%Z
                      | [] => ([], 0%Z)
                      end).
        assert (Hstart : List.length (fst start) = Nat.min 1 (List.length infos)).
        { subst start. destruct infos; reflexivity. }
        destruct start as [updated0 current0]. cbn [fst] in Hstart.
        destruct (merge_rest fs m infos fade 1 rest (normalized a0) updated0 current0)
          as [[[merged updated] current]|] eqn:Em.
        -- pose proof (merge_rest_sound _ _ _ _ _ _ _ _ _ _ Em) as [Hd Hl].
           cbn [fst snd] in Hl.
           destruct (export_ok fs) eqn:Ex.
           ++ split.
              ** split; [intros _|intros _; eexists; reflexivity].
                 split; [discriminate|]. split; [exact Ef|]. split; [|reflexivity].
                 constructor; [congruence|exact Hd].
              ** intros o total segs [= <- _ <-]. split; [reflexivity|].
                 rewrite Hl, Hstart. cbn [List.length]. lia.
           ++ split; [|discriminate]. split; [intros [r H]; discriminate|].
              intros (_ & _ & _ & H). discriminate H.
        -- split; [|discriminate]. split; [intros [r H]; discriminate|].
           intros (_ & _ & Hd & _). inversion Hd as [|? ? _ Hrest]; subst.
           exfalso. revert Em. now apply merge_rest_total.
      * split; [|discriminate]. split; [intros [r H]; discriminate|].
        intros (_ & _ & Hd & _). inversion Hd; subst. congruence.
Qed.

End RetimeFacts.

(** ** Merging with crossfade *)

Module CrossfadeFacts.

Import PyFacts AudioMerger Crossfade MergerFacts.

Local Open Scope Z_scope.

Lemma gapless_snoc (segs : list segment) (last next : segment) :
  gapless (segs ++ [last]) -> start_time next = end_time last ->
  gapless ((segs ++ [last]) ++ [next]).
Proof.
  intros Hg Hn k s1 s2 H1 H2.
  assert (Hlen : List.length (segs ++ [last]) = S (List.length segs))
    by (rewrite length_app; simpl; lia).
  destruct (Nat.lt_ge_cases (S k) (List.length (segs ++ [last]))) as [Hk|Hk].
  - rewrite nth_error_app1 in H1 by lia. rewrite nth_error_app1 in H2 by lia.
    now apply (Hg k).
  - rewrite nth_error_app2 in H2 by lia.
    destruct (S k - List.length (segs ++ [last]))%nat as [|j] eqn:Ej.
    + simpl in H2. injection H2 as <-.
      assert (k = List.length segs) by lia. subst k.
      rewrite nth_error_app1 in H1 by lia.
      rewrite nth_error_app2 in H1 by lia. rewrite Nat.sub_diag in H1.
      simpl in H1. injection H1 as <-. exact Hn.
    + simpl in H2. destruct j; discriminate.
Qed.

Section Loop.

Context {P : Pydub} {A : PydubAppend P} {L : PydubAppendLength P A}.
Variables (fs : files) (m : merger) (segment_info : list segment) (n : Z).

(** While clips remain, the merged audio is one crossfade longer than
    the timeline; after the last clip they end together. *)
Lemma crossfade_rest_timeline :
  forall (rest : list str) (i : nat) (merged : AudioSegment)
         (pre : list segment) (last : segment) (current : Z) r,
    crossfade_rest fs m segment_info n i rest merged (pre ++ [last]) current = Some r ->
    Z.of_nat i + Py.len_list rest = n ->
    (i + List.length rest <= List.length segment_info)%nat ->
    List.length (pre ++ [last]) = i ->
    gapless (pre ++ [last]) ->
    end_time last = seconds current ->
    ms merged = (if Z.of_nat i <? n then current + crossfade_duration_ms m else current) ->
    let '(merged', updated', current') := r in
    List.length updated' = (i + List.length rest)%nat /\
    gapless updated' /\
    firstn i updated' = pre ++ [last] /\
    exists pre' last',
      updated' = pre' ++ [last'] /\ end_time last' = seconds (ms merged').
Proof.
  induction rest as [|p rest IH];
    intros i merged pre last current r H Hn Hcover Hlen Hgap Hend Hms.
  - simpl in H. injection H as <-. unfold Py.len_list in Hn. simpl in Hn.
    assert (E : (Z.of_nat i <? n) = false) by (apply Z.ltb_ge; lia).
    rewrite E in Hms. simpl. rewrite Nat.add_0_r.
    split; [exact Hlen|]. split; [exact Hgap|].
    split; [rewrite <- Hlen; apply firstn_all|].
    exists pre, last. split; [reflexivity|]. now rewrite Hms.
  - cbn [crossfade_rest] in H.
    destruct (from_file fs p) as [next_audio|]; [|discriminate].
    destruct (append merged next_audio (crossfade_duration_ms m)) as [merged1|] eqn:Ea;
      [|discriminate].
    apply ms_append in Ea.
    unfold Py.len_list in Hn. cbn [List.length] in Hn, Hcover.
    destruct (nth_error segment_info i) as [info|] eqn:En;
      [|apply nth_error_None in En; lia].
    assert (E : (Z.of_nat i <? n) = true) by (apply Z.ltb_lt; lia).
    rewrite E in Hms.
    set (d := if Z.of_nat i <? n - 1
              then ms next_audio - crossfade_duration_ms m else ms next_audio) in *.
    specialize (IH (S i) merged1 (pre ++ [last]) (retimed info current d) (current + d) r H).
    destruct r as [[merged' updated'] current'].
    destruct IH as (H1 & H2 & H3 & H4).
    + unfold Py.len_list. lia.
    + lia.
    + rewrite length_app. cbn [List.length]. lia.
    + apply gapless_snoc; [exact Hgap|]. cbn [start_time retimed]. now rewrite Hend.
    + reflexivity.
    + rewrite Ea, Hms. subst d.
      destruct (Z.of_nat i <? n - 1) eqn:E1.
      * apply Z.ltb_lt in E1.
        replace (Z.of_nat (S i) <? n) with true by (symmetry; apply Z.ltb_lt; lia). lia.
      * apply Z.ltb_ge in E1.
        replace (Z.of_nat (S i) <? n) with false by (symmetry; apply Z.ltb_ge; lia). lia.
    + split; [rewrite H1; cbn [List.length]; unfold Py.str, Py.char; lia|].
      split; [exact H2|]. split; [|exact H4].
      assert (Hi : firstn i (firstn (S i) updated') = firstn i updated')
        by (rewrite firstn_firstn; f_equal; lia).
      rewrite <- Hi, H3. rewrite <- Hlen at 1. rewrite firstn_app, Nat.sub_diag, firstn_all.
      cbn [firstn]. now rewrite app_nil_r.
Qed.

End Loop.


Lemma crossfade_three_clips_lengths : PydubAppendLength ms_pydub ms_append_example.
Proof.
  split. intros a b c r. simpl. destruct ((c >? a) || (c >? b)); [discriminate|].
  now intros [= <-].
Qed.


End CrossfadeFacts.
